(** * Ghoti SDK client: the asynchronous correlation engine

    A shallow embedding of the multiplexed client of the Go SDK (package
    [ghoti]: [Client], its background listener, the pending-request
    registry, the dispatcher and the blocking operations [Read], [Write],
    [Broadcast], [Close]) and of package [model] ([GhotiError]).

    Conventions of the embedding.
    - Go's [int] is a 64-bit integer, modelled as [Z]; Go strings are byte
      strings, modelled as [string] ([len] is [String.length]).
    - The client object is shared by the listener goroutine and the callers.
      It is modelled as one record [Client] that every step takes and
      returns.  Channels are references: the registry maps a slot to a
      channel identifier and the buffers live in a heap ([chans]), so the
      waiter and the dispatcher see the same buffer.
    - A call runs as one step on the shared client.  A goroutine that
      cannot go on in the state it is in (send on a full channel,
      [wg.Wait()] with a positive counter, a [select] without a ready case,
      [Lock] on a held mutex) yields [Parked] with that state; a run-time
      panic yields [Panic].
    - [c.mutex] is a flag of the client.  Every guarded section releases
      it before its step ends, so between steps it is held only by a
      goroutine parked inside a guarded section.
    - An operation is split at its [select]: the part before it
      ([Read_start], ...), and [await], which takes from a [schedule] what
      the other goroutines do meanwhile, the time on the clock and Go's
      choice among the ready cases.
    - [fmt.Printf] appends one entry to [stdout]. *)

From Stdlib Require Import ZArith Ascii String List Lia.
From stdpp Require Import base option list gmap strings pretty.

Open Scope string_scope.
Open Scope list_scope.
Open Scope Z_scope.

(** ** Go primitives used by the client *)

(** [s[n:]] for [n <= len(s)]. *)
Fixpoint string_from (n : nat) (s : string) : string :=
  match n, s with
  | O, _ => s
  | S n', String _ s' => string_from n' s'
  | S _, EmptyString => EmptyString
  end.

(** [s[lo:hi]] for [lo <= hi <= len(s)]. *)
Definition string_slice (lo hi : nat) (s : string) : string :=
  substring lo (hi - lo) s.

(** [strings.TrimSuffix(s, "\n")]: one trailing line feed is removed. *)
Fixpoint TrimSuffix_lf (s : string) : string :=
  match s with
  | EmptyString => EmptyString
  | String c EmptyString => if Ascii.eqb c "010"%char then EmptyString else s
  | String c s' => String c (TrimSuffix_lf s')
  end.

(** [strings.Split(s, sep)] for a one-byte separator: the fields between
    the occurrences of [sep], one more than there are occurrences. *)
Fixpoint Split (s : string) (sep : ascii) : list string :=
  match s with
  | EmptyString => [EmptyString]
  | String c s' =>
      if Ascii.eqb c sep then EmptyString :: Split s' sep
      else match Split s' sep with
           | [] => [String c EmptyString]
           | f :: fs => String c f :: fs
           end
  end.

Definition intSize : Z := 64.
Definition maxInt : Z := 2 ^ (intSize - 1) - 1.
Definition minInt : Z := - 2 ^ (intSize - 1).

Definition digit_value (c : ascii) : option Z :=
  let n := Z.of_N (N_of_ascii c) in
  if (48 <=? n) && (n <=? 57) then Some (n - 48) else None.

(** The value of a run of decimal digits, most significant first, on top
    of the accumulator [acc]; [None] at the first byte that is no digit. *)
Fixpoint parse_digits (s : string) (acc : Z) : option Z :=
  match s with
  | EmptyString => Some acc
  | String c s' =>
      match digit_value c with
      | Some d => parse_digits s' (acc * 10 + d)
      | None => None
      end
  end.

(** [strconv.Atoi]: an optional sign, then at least one decimal digit and
    nothing else; the value has to fit [int].  [None] stands for a non-nil
    error (the client only tests [err != nil]). *)
Definition Atoi (s : string) : option Z :=
  let '(neg, body) :=
    match s with
    | String "-"%char r => (true, r)
    | String "+"%char r => (false, r)
    | _ => (false, s)
    end in
  match body with
  | EmptyString => None
  | _ =>
      match parse_digits body 0 with
      | Some n =>
          let v := if neg then - n else n in
          if (minInt <=? v) && (v <=? maxInt) then Some v else None
      | None => None
      end
  end.

(** The verb [%d]. *)
Definition fmt_d (n : Z) : string := pretty n.

Fixpoint zeros (n : nat) : string :=
  match n with
  | O => EmptyString
  | S n' => String "0"%char (zeros n')
  end.

(** The verb [%03d]: width 3, padded with zeros after the sign. *)
Definition fmt_03d (n : Z) : string :=
  let sign := if n <? 0 then "-" else "" in
  let digits := pretty (Z.abs n) in
  sign +:+ zeros (3 - String.length sign - String.length digits) +:+ digits.

(** The verb [%c] applied to a byte: the UTF-8 encoding of the code point. *)
Definition fmt_c (b : ascii) : string :=
  let n := N_of_ascii b in
  if (n <? 128)%N then String b EmptyString
  else String (ascii_of_N (N.lor 192 (N.shiftr n 6)))
         (String (ascii_of_N (N.lor 128 (N.land n 63))) EmptyString).

(** ** Package [model]: the structured server error *)

Record GhotiError : Type := mkGhotiError { Code : string; Message : string }.

(** The method [Error] of [GhotiError]. *)
Definition GhotiError_Error (e : GhotiError) : string :=
  "Ghoti error " +:+ Code e +:+ ": " +:+ Message e.

Definition NewGhotiError (code : string) : GhotiError :=
  let message :=
    if String.eqb code "001" then "Invalid command"
    else if String.eqb code "002" then "Invalid slot number"
    else if String.eqb code "003" then "Invalid data length"
    else if String.eqb code "004" then "Authentication required"
    else if String.eqb code "005" then "Invalid credentials"
    else if String.eqb code "006" then "Permission denied"
    else if String.eqb code "007" then "Slot locked"
    else if String.eqb code "008" then "No tokens available"
    else if String.eqb code "009" then "Internal server error"
    else "Unknown error" in
  {| Code := code; Message := message |}.

(** ** Go's [error] interface

    The dynamic types that reach the client's callers: the values built by
    [fmt.Errorf] without [%w] ([errorString]), with [%w] ([wrapError], the
    formatted text and the wrapped error), and the pointer to [model.GhotiError]. *)
Inductive error : Type :=
| errorString (s : string)
| wrapError (msg : string) (err : error)
| ghotiError (e : GhotiError).

Definition error_Error (e : error) : string :=
  match e with
  | errorString s => s
  | wrapError msg _ => msg
  | ghotiError g => GhotiError_Error g
  end.

(** [fmt.Errorf(prefix + "%w", err)]. *)
Definition Errorf_w (prefix : string) (err : error) : error :=
  wrapError (prefix +:+ error_Error err) err.

(** [errors.Is(e, target)] for the errors above. *)
Fixpoint errors_Is (target : string) (e : error) : bool :=
  match e with
  | errorString s => String.eqb s target
  | wrapError _ inner => errors_Is target inner
  | ghotiError _ => false
  end.

(** ** Package [config]: the immutable configuration value *)

Record AuthConfig : Type := mkAuthConfig { User : string; Pass : string }.

Record Config : Type := mkConfig {
  Protocol : string;
  Server : string;
  ReadBufferSize : Z;
  Auth : AuthConfig
}.

Definition LoadDefaultConfig : Config :=
  {| Protocol := "tcp"; Server := "localhost:9090";
     ReadBufferSize := 8 * 1024;
     Auth := {| User := "test_a_service"; Pass := "67890" |} |}.

(** ** The transport ([net.Conn])

    The caller side of the connection: whether [Close] has run, a fault of
    the network that makes every later write fail, and the frames written
    so far.  A write on a closed connection fails with [net.ErrClosed]. *)

Record Conn : Type := mkConn {
  closed : bool;
  fault : option error;
  written : list string
}.

Definition net_ErrClosed : error :=
  errorString "use of closed network connection".

Definition Conn_Write (b : string) (k : Conn) : option error * Conn :=
  if closed k then (Some net_ErrClosed, k)
  else match fault k with
       | Some e => (Some e, k)
       | None => (None, {| closed := closed k; fault := fault k;
                           written := written k ++ [b] |})
       end.

Definition Conn_Close (k : Conn) : option error * Conn :=
  if closed k then (Some net_ErrClosed, k)
  else (None, {| closed := true; fault := fault k; written := written k |}).

(** ** The client *)

Record Response : Type := mkResponse { Data : string; Error : option error }.

(** A broadcast handler is user code; the model keeps its identity and
    records every call made to it. *)
Definition BroadcastHandler : Type := nat.

Record Client : Type := mkClient {
  config : Config;
  conn : Conn;
  mutex : bool;                          (* the mutex is held *)
  pendingRequests : gmap Z nat;          (* slot -> response channel *)
  broadcastHandler : option BroadcastHandler;
  done : bool;                           (* close(c.done) has run *)
  wg : nat;                              (* counter of the WaitGroup *)
  chans : list (list Response);          (* buffers of the channels made *)
  handled : list (BroadcastHandler * Z * string);
  stdout : list string
}.

Definition set_conn (k : Conn) (c : Client) : Client :=
  mkClient (config c) k (mutex c) (pendingRequests c) (broadcastHandler c) (done c)
    (wg c) (chans c) (handled c) (stdout c).
Definition set_mutex (b : bool) (c : Client) : Client :=
  mkClient (config c) (conn c) b (pendingRequests c) (broadcastHandler c) (done c)
    (wg c) (chans c) (handled c) (stdout c).
Definition set_pendingRequests (m : gmap Z nat) (c : Client) : Client :=
  mkClient (config c) (conn c) (mutex c) m (broadcastHandler c) (done c)
    (wg c) (chans c) (handled c) (stdout c).
Definition set_broadcastHandler (h : option BroadcastHandler) (c : Client) : Client :=
  mkClient (config c) (conn c) (mutex c) (pendingRequests c) h (done c)
    (wg c) (chans c) (handled c) (stdout c).
Definition set_done (b : bool) (c : Client) : Client :=
  mkClient (config c) (conn c) (mutex c) (pendingRequests c) (broadcastHandler c) b
    (wg c) (chans c) (handled c) (stdout c).
Definition set_wg (n : nat) (c : Client) : Client :=
  mkClient (config c) (conn c) (mutex c) (pendingRequests c) (broadcastHandler c)
    (done c) n (chans c) (handled c) (stdout c).
Definition set_chans (h : list (list Response)) (c : Client) : Client :=
  mkClient (config c) (conn c) (mutex c) (pendingRequests c) (broadcastHandler c)
    (done c) (wg c) h (handled c) (stdout c).
Definition set_handled (l : list (BroadcastHandler * Z * string)) (c : Client) : Client :=
  mkClient (config c) (conn c) (mutex c) (pendingRequests c) (broadcastHandler c)
    (done c) (wg c) (chans c) l (stdout c).
Definition set_stdout (l : list string) (c : Client) : Client :=
  mkClient (config c) (conn c) (mutex c) (pendingRequests c) (broadcastHandler c)
    (done c) (wg c) (chans c) (handled c) l.

(** What a call made by one goroutine comes to. *)
Inductive outcome (A : Type) : Type :=
| Return (a : A) (c : Client)
| Parked (c : Client)
| Panic (msg : string) (c : Client).
Arguments Return {A} a c.
Arguments Parked {A} c.
Arguments Panic {A} msg c.

Definition and_then {A B : Type} (o : outcome A) (k : A -> Client -> outcome B) : outcome B :=
  match o with
  | Return a c => k a c
  | Parked c => Parked c
  | Panic msg c => Panic msg c
  end.

Notation "'do' ( x , c ) <- o ; k" := (and_then o (fun x c => k))
  (at level 10, x name, c name, o at level 100, k at level 200).

Definition LF : string := String "010"%char EmptyString.

Definition Printf (s : string) (c : Client) : Client :=
  set_stdout (stdout c ++ [s]) c.

(** [c.mutex.Lock()] and [c.mutex.Unlock()]. *)
Definition Lock (c : Client) : outcome unit :=
  if mutex c then Parked c else Return tt (set_mutex true c).

Definition Unlock (c : Client) : Client := set_mutex false c.

(** [make(chan Response, 1)]. *)
Definition make_chan (c : Client) : nat * Client :=
  (List.length (chans c), set_chans (chans c ++ [[]]) c).

(** [ch <- r] on a channel of capacity 1: the send goes through while the
    buffer has room and parks the sender otherwise. *)
Definition chan_send (ch : nat) (r : Response) (c : Client) : outcome unit :=
  match chans c !! ch with
  | Some buf =>
      if (List.length buf <? 1)%nat
      then Return tt (set_chans (<[ch := buf ++ [r]]> (chans c)) c)
      else Parked c
  | None => Parked c
  end.

(** [delete(c.pendingRequests, slot)]. *)
Definition deregister (slot : Z) (c : Client) : Client :=
  set_pendingRequests (delete slot (pendingRequests c)) c.

(** [wg.Done()]. *)
Definition wg_Done (c : Client) : outcome unit :=
  match wg c with
  | O => Panic "sync: negative WaitGroup counter" c
  | S n => Return tt (set_wg n c)
  end.

(** [wg.Wait()]: returns once the counter is zero.  [others] runs the
    goroutines that can still call [wg.Done()], up to the point where they
    stop. *)
Definition wg_Wait (others : Client -> outcome unit) (c : Client) : outcome unit :=
  if (wg c =? 0)%nat then Return tt c
  else do (_, c1) <- others c ;
       if (wg c1 =? 0)%nat then Return tt c1 else Parked c1.

(** [Close]: [close(c.done)] panics on a channel that is closed already. *)
Definition Close (others : Client -> outcome unit) (c : Client) : outcome (option error) :=
  if done c then Panic "close of closed channel" c
  else
    do (_, c1) <- wg_Wait others (set_done true c) ;
    let '(err, k) := Conn_Close (conn c1) in
    Return err (set_conn k c1).

(** Inside the listener no other goroutine can bring the WaitGroup to zero:
    the listener is its only member. *)
Definition no_others (c : Client) : outcome unit := Return tt c.

(** [handleFatalError] runs in the listener goroutine, the only caller of
    [processMessage]. *)
Definition handleFatalError (err : error) (c : Client) : outcome unit :=
  let c := Printf ("Fatal client error: " +:+ error_Error err +:+ LF) c in
  do (_, c1) <- Close no_others c ;
  Return tt c1.

(** ** The dispatcher *)

Definition handleValueResponse (message : string) (c : Client) : outcome unit :=
  if (1 <? String.length message)%nat
     && String.eqb (string_from 1 message) (User (Auth (config c)))
  then Return tt c
  else if (String.length message <? 4)%nat
  then handleFatalError (errorString ("invalid value response format: " +:+ message)) c
  else
    let slotStr := string_slice 1 4 message in
    match Atoi slotStr with
    | None =>
        handleFatalError (errorString ("invalid slot number in response: " +:+ slotStr)) c
    | Some slot =>
        let data := string_from 4 message in
        do (_, c) <- Lock c ;
        let entry := pendingRequests c !! slot in
        let c := Unlock c in
        match entry with
        | Some ch => chan_send ch {| Data := data; Error := None |} c
        | None =>
            handleFatalError
              (errorString ("received response for slot " +:+ fmt_d slot
                            +:+ " with no pending request")) c
        end
    end.

(** The body of [for slot, ch := range c.pendingRequests]: every entry is
    visited once (the loop deletes only the entry it is at). *)
Fixpoint forward_to_all (entries : list (Z * nat)) (errorCode : string)
    (c : Client) : outcome unit :=
  match entries with
  | [] => Return tt c
  | (slot, ch) :: rest =>
      do (_, c1) <- chan_send ch
                      {| Data := ""; Error := Some (ghotiError (NewGhotiError errorCode)) |} c ;
      forward_to_all rest errorCode (deregister slot c1)
  end.

(** The loop runs with the mutex held ([defer c.mutex.Unlock()]): a send
    that parks in it keeps the mutex. *)
Definition handleErrorResponse (message : string) (c : Client) : outcome unit :=
  if (String.length message <? 4)%nat
  then handleFatalError (errorString ("invalid error response format: " +:+ message)) c
  else
    let errorCode := string_slice 1 4 message in
    if String.eqb errorCode "004" || String.eqb errorCode "005"
    then Return tt (Printf ("Authentication error: " +:+ errorCode +:+ LF) c)
    else
      do (_, c) <- Lock c ;
      do (_, c) <- forward_to_all (map_to_list (pendingRequests c)) errorCode c ;
      Return tt (Unlock c).

Definition handleBroadcastMessage (message : string) (c : Client) : outcome unit :=
  if (String.length message <? 4)%nat
  then handleFatalError (errorString ("invalid broadcast message format: " +:+ message)) c
  else
    let slotStr := string_slice 1 4 message in
    match Atoi slotStr with
    | None =>
        handleFatalError (errorString ("invalid slot number in broadcast: " +:+ slotStr)) c
    | Some slot =>
        let data := string_from 4 message in
        do (_, c) <- Lock c ;
        let handler := broadcastHandler c in
        let c := Unlock c in
        match handler with
        | Some h => Return tt (set_handled (handled c ++ [(h, slot, data)]) c)
        | None => Return tt c
        end
    end.

Definition processMessage (message : string) (c : Client) : outcome unit :=
  match message with
  | EmptyString => Return tt c
  | String messageType _ =>
      if Ascii.eqb messageType "v" then handleValueResponse message c
      else if Ascii.eqb messageType "e" then handleErrorResponse message c
      else if Ascii.eqb messageType "a" then handleBroadcastMessage message c
      else handleFatalError
             (errorString ("unknown message type: " +:+ fmt_c messageType)) c
  end.

(** ** The background receiver *)

(** What [c.reader.ReadString] hands over: a line with its terminator, or
    an error. *)
Inductive ReadResult : Type :=
| ReadLine (line : string)
| ReadErr (err : error).

(** The loop of [listen] from the point where the goroutine sits in
    [ReadString]; [inbound] is what the reads to come will return.  With
    nothing left to read the goroutine stays parked in the read. *)
Fixpoint listen_reading (inbound : list ReadResult) (c : Client) : outcome unit :=
  match inbound with
  | [] => Parked c
  | ReadErr err :: _ =>
      do (_, c1) <- handleFatalError (Errorf_w "connection error: " err) c ;
      wg_Done c1
  | ReadLine line :: rest =>
      let line := TrimSuffix_lf line in
      do (_, c1) <- (if (String.length line =? 0)%nat then Return tt c
                     else processMessage line c) ;
      if done c1 then wg_Done c1 else listen_reading rest c1
  end.

Definition listen (inbound : list ReadResult) (c : Client) : outcome unit :=
  if done c then wg_Done c else listen_reading inbound c.

(** ** Construction and the operations *)

Definition new_client (cfg : Config) : Client :=
  {| config := cfg;
     conn := {| closed := false; fault := None; written := [] |};
     mutex := false;
     pendingRequests := ∅;
     broadcastHandler := None;
     done := false;
     wg := 1;                         (* [client.wg.Add(1)], [go client.listen()] *)
     chans := [];
     handled := [];
     stdout := [] |}.

(** [dial] is the result of [net.Dial]. *)
Definition NewClient (cfg : Config) (dial : option error) : error + Client :=
  match dial with
  | Some err => inl err
  | None => inr (new_client cfg)
  end.

Definition SetBroadcastHandler (handler : option BroadcastHandler) (c : Client)
    : outcome unit :=
  do (_, c) <- Lock c ;
  Return tt (Unlock (set_broadcastHandler handler c)).

(** [send] is [c.conn.Write([]byte(cmd))]. *)
Definition send (cmd : string) (c : Client) : option error * Client :=
  let '(err, k) := Conn_Write cmd (conn c) in (err, set_conn k c).

(** [Auth] of the client (the two sleeps leave the state as it is). *)
Definition Client_Auth (c : Client) : option error * Client :=
  let userCmd := "u" +:+ User (Auth (config c)) +:+ LF in
  match send userCmd c with
  | (Some err, c1) => (Some (Errorf_w "failed to send user command: " err), c1)
  | (None, c1) =>
      let passCmd := "p" +:+ Pass (Auth (config c1)) +:+ LF in
      match send passCmd c1 with
      | (Some err, c2) => (Some (Errorf_w "failed to send password command: " err), c2)
      | (None, c2) => (None, c2)
      end
  end.

Definition Second : Z := 1000000000.

(** The cases of the [select] that ends every operation. *)
Inductive selected : Type :=
| recvResponse (response : Response)
| recvTimer
| recvDone.

(** The cases that can proceed: a buffered response, the timer once
    [timeout] has elapsed, the closed [done] channel. *)
Definition ready_cases (responseCh : nat) (timeout elapsed : Z) (c : Client) : list selected :=
  match chans c !! responseCh with
  | Some (response :: _) => [recvResponse response]
  | _ => []
  end
  ++ (if timeout <=? elapsed then [recvTimer] else [])
  ++ (if done c then [recvDone] else []).

(** [select]: one of the ready cases is taken ([pick] stands for Go's
    random choice among them); a received response leaves the buffer. *)
Definition select (responseCh : nat) (timeout elapsed : Z) (pick : nat)
    (c : Client) : outcome selected :=
  let ready := ready_cases responseCh timeout elapsed c in
  match ready !! (pick mod List.length ready)%nat with
  | Some (recvResponse response) =>
      Return (recvResponse response) (set_chans (alter (drop 1) responseCh (chans c)) c)
  | Some ev => Return ev c
  | None => Parked c
  end.

(** An operation up to its [select]: it has come to its result, or it
    waits on its response channel. *)
Inductive progress (A : Type) : Type :=
| Finished (a : A)
| Waiting (responseCh : nat).
Arguments Finished {A} a.
Arguments Waiting {A} responseCh.

(** What happens while the caller is parked in [select]: the steps of the
    other goroutines on the shared client, the time on the clock when the
    [select] fires, and the case chosen when several are ready. *)
Record schedule : Type := mkSchedule {
  interference : Client -> Client;
  elapsed : Z;
  pick : nat
}.

(** The registration of the response channel, under the mutex. *)
Definition register (slot : Z) (responseCh : nat) (c : Client) : outcome unit :=
  do (_, c) <- Lock c ;
  Return tt (Unlock (set_pendingRequests (<[slot := responseCh]> (pendingRequests c)) c)).

(** The deferred function of the operations ("Clean up when done"). *)
Definition cleanup (slot : Z) (c : Client) : outcome unit :=
  do (_, c) <- Lock c ;
  Return tt (Unlock (deregister slot c)).

(** The end of every operation: unless it has its result already, the
    [select] on the response channel, the 5-second timer and [done], the
    body of the case taken ([result]), and the deferred clean-up. *)
Definition await {A : Type} (w : schedule) (result : selected -> A) (slot : Z)
    (p : progress A) (c : Client) : outcome A :=
  match p with
  | Finished r => Return r c
  | Waiting responseCh =>
      do (ev, c) <- select responseCh (5 * Second) (elapsed w) (pick w)
                      (interference w c) ;
      do (_, c) <- cleanup slot c ;
      Return (result ev) c
  end.

Definition Read_start (slot : Z) (c : Client) : outcome (progress (string * option error)) :=
  if (slot <? 0) || (slot >? 999)
  then Return (Finished ("", Some (errorString ("invalid slot number: " +:+ fmt_d slot)))) c
  else
    let '(responseCh, c) := make_chan c in
    do (_, c) <- register slot responseCh c ;
    let cmd := "r" +:+ fmt_03d slot +:+ LF in
    match send cmd c with
    | (Some err, c) =>
        do (_, c) <- cleanup slot c ;
        Return (Finished ("", Some (Errorf_w "failed to send read command: " err))) c
    | (None, c) => Return (Waiting responseCh) c
    end.

Definition Read_result (ev : selected) : string * option error :=
  match ev with
  | recvResponse response =>
      match Error response with
      | Some err => ("", Some err)
      | None => (Data response, None)
      end
  | recvTimer => ("", Some (errorString "timeout waiting for response"))
  | recvDone => ("", Some (errorString "client closed"))
  end.

Definition Read (slot : Z) (w : schedule) (c : Client) : outcome (string * option error) :=
  do (p, c) <- Read_start slot c ;
  await w Read_result slot p c.

Definition Write_start (slot : Z) (data : string) (c : Client)
    : outcome (progress (option error)) :=
  if (slot <? 0) || (slot >? 999)
  then Return (Finished (Some (errorString ("invalid slot number: " +:+ fmt_d slot)))) c
  else if (36 <? String.length data)%nat
  then Return (Finished (Some (errorString "data too long: maximum length is 36 characters"))) c
  else
    let '(responseCh, c) := make_chan c in
    do (_, c) <- register slot responseCh c ;
    let cmd := "w" +:+ fmt_03d slot +:+ data +:+ LF in
    match send cmd c with
    | (Some err, c) =>
        do (_, c) <- cleanup slot c ;
        Return (Finished (Some (Errorf_w "failed to send write command: " err))) c
    | (None, c) => Return (Waiting responseCh) c
    end.

Definition Write_result (ev : selected) : option error :=
  match ev with
  | recvResponse response => Error response
  | recvTimer => Some (errorString "timeout waiting for response")
  | recvDone => Some (errorString "client closed")
  end.

Definition Write (slot : Z) (data : string) (w : schedule) (c : Client)
    : outcome (option error) :=
  do (p, c) <- Write_start slot data c ;
  await w Write_result slot p c.

(** The four results of [Broadcast]: received, total, failed, error. *)
Definition counts : Type := Z * Z * Z * option error.

Definition Broadcast_start (slot : Z) (data : string) (c : Client)
    : outcome (progress counts) :=
  if (slot <? 0) || (slot >? 999)
  then Return (Finished (0, 0, 0, Some (errorString ("invalid slot number: " +:+ fmt_d slot)))) c
  else if (36 <? String.length data)%nat
  then Return (Finished (0, 0, 0,
                         Some (errorString "data too long: maximum length is 36 characters"))) c
  else
    let '(responseCh, c) := make_chan c in
    do (_, c) <- register slot responseCh c ;
    let cmd := "w" +:+ fmt_03d slot +:+ data +:+ LF in
    match send cmd c with
    | (Some err, c) =>
        do (_, c) <- cleanup slot c ;
        Return (Finished (0, 0, 0, Some (Errorf_w "failed to send broadcast command: " err))) c
    | (None, c) => Return (Waiting responseCh) c
    end.

(** The case [response := <-responseCh] of [Broadcast] once the response
    carries no error: the payload is parsed as [a/b/c]. *)
Definition parse_counts (data : string) : counts :=
  match Split data "/" with
  | [p0; p1; p2] =>
      match Atoi p0 with
      | None => (0, 0, 0, Some (errorString ("invalid received count: " +:+ p0)))
      | Some received =>
          match Atoi p1 with
          | None => (0, 0, 0, Some (errorString ("invalid total count: " +:+ p1)))
          | Some total =>
              match Atoi p2 with
              | None => (0, 0, 0, Some (errorString ("invalid failed count: " +:+ p2)))
              | Some failed => (received, total, failed, None)
              end
          end
      end
  | _ => (0, 0, 0, Some (errorString ("invalid broadcast response format: " +:+ data)))
  end.

Definition Broadcast_result (ev : selected) : counts :=
  match ev with
  | recvResponse response =>
      match Error response with
      | Some err => (0, 0, 0, Some err)
      | None => parse_counts (Data response)
      end
  | recvTimer => (0, 0, 0, Some (errorString "timeout waiting for response"))
  | recvDone => (0, 0, 0, Some (errorString "client closed"))
  end.

Definition Broadcast (slot : Z) (data : string) (w : schedule) (c : Client)
    : outcome counts :=
  do (p, c) <- Broadcast_start slot data c ;
  await w Broadcast_result slot p c.

(** [Close] called by a user of the client while the listener sits in
    [ReadString]: [wg.Wait()] lasts until the listener has left its loop. *)
Definition Client_Close (inbound : list ReadResult) (c : Client) : outcome (option error) :=
  Close (listen_reading inbound) c.

(** ** Notions used by the properties *)

(** The client state in which a call ended, however it ended. *)
Definition state_of {A : Type} (o : outcome A) : Client :=
  match o with
  | Return _ c => c
  | Parked c => c
  | Panic _ c => c
  end.

(** Every registered request still waits for its resolution: its channel
    exists with an empty buffer, and no two slots share a channel. *)
Definition all_unresolved (c : Client) : bool :=
  forallb (fun e : Z * nat =>
             match chans c !! e.2 with Some [] => true | _ => false end)
          (map_to_list (pendingRequests c))
  && bool_decide (NoDup ((map_to_list (pendingRequests c)).*2)).

(** The propositional form of [all_unresolved]. *)
Definition unresolved (c : Client) : Prop :=
  (forall slot ch, pendingRequests c !! slot = Some ch -> chans c !! ch = Some [])
  /\ (forall s1 s2 ch,
        pendingRequests c !! s1 = Some ch -> pendingRequests c !! s2 = Some ch ->
        s1 = s2).

(** The errors of the local validation. *)
Definition validation_error (e : error) : Prop :=
  (exists slot : Z, e = errorString ("invalid slot number: " +:+ fmt_d slot))
  \/ e = errorString "data too long: maximum length is 36 characters".

(** The errors that report a closed client or a closed transport. *)
Definition closed_error (e : error) : Prop :=
  e = errorString "client closed"
  \/ errors_Is "use of closed network connection" e = true.

(** The messages of the error-code table, in lower case. *)
Definition lower (s : string) : string :=
  string_of_list_ascii
    (List.map (fun a : ascii =>
                 let n := N_of_ascii a in
                 if ((65 <=? n) && (n <=? 90))%N then ascii_of_N (n + 32) else a)
              (list_ascii_of_string s)).

(** No byte of [s] is the separator of the acknowledgement. *)
Definition no_slash (s : string) : Prop :=
  forall c : ascii, In c (list_ascii_of_string s) -> c <> "/"%char.





(** The client once an operation has made its channel, registered it
    under [slot] and written [cmd] to an open, healthy transport. *)
Definition registered (slot : Z) (cmd : string) (c : Client) : Client :=
  {| config := config c;
     conn := {| closed := false; fault := None; written := written (conn c) ++ [cmd] |};
     mutex := false;
     pendingRequests := <[slot := List.length (chans c)]> (pendingRequests c);
     broadcastHandler := broadcastHandler c;
     done := done c;
     wg := wg c;
     chans := chans c ++ [[]];
     handled := handled c;
     stdout := stdout c |}.

(** The client once an operation has made its channel and registered it,
    the write has failed and the deferred clean-up has run. *)
Definition send_failed (slot : Z) (c : Client) : Client :=
  deregister slot
    (set_pendingRequests (<[slot := List.length (chans c)]> (pendingRequests c))
       (set_chans (chans c ++ [[]]) c)).

(** The listener dispatching one frame while a caller waits. *)
Definition dispatching (frame : string) (c : Client) : Client :=
  state_of (processMessage frame c).

(** Example states: the client [NewClient] returns for the default
    configuration, and that client with a [Read] of slot 1 and a [Write] of
    slot 7 both waiting for their resolution. *)
Definition fresh_client : Client := new_client LoadDefaultConfig.

Definition two_waiting : Client :=
  state_of (Write_start 7 "hello" (state_of (Read_start 1 fresh_client))).

(** ** Typed slots (file of the slot types)

    The seven wrappers hold the client and a slot; their methods call
    [Read], [Write] and [Broadcast] of the client.  The client being the
    shared record, a wrapper is its slot. *)

Definition SlotType : Type := string.

Definition SimpleMemory : SlotType := "simple_memory".
Definition TimeoutMemory : SlotType := "timeout_memory".
Definition TokenBucket : SlotType := "token_bucket".
Definition LeakyBucket : SlotType := "leaky_bucket".
(* the constant [Broadcast] of the source; the name is taken by the operation *)
Definition BroadcastType : SlotType := "broadcast".
Definition Ticker : SlotType := "ticker".
Definition AtomicCounter : SlotType := "atomic_counter".

(** What [GetSlot] returns in its [interface{}]: a pointer to one of the
    seven structs. *)
Inductive TypedSlot : Type :=
| SimpleMemorySlot (slot : Z)
| TimeoutMemorySlot (slot : Z)
| TokenBucketSlot (slot : Z)
| LeakyBucketSlot (slot : Z)
| BroadcastSlot (slot : Z)
| TickerSlot (slot : Z)
| AtomicCounterSlot (slot : Z).

Definition slot_of (s : TypedSlot) : Z :=
  match s with
  | SimpleMemorySlot slot | TimeoutMemorySlot slot | TokenBucketSlot slot
  | LeakyBucketSlot slot | BroadcastSlot slot | TickerSlot slot
  | AtomicCounterSlot slot => slot
  end.

Definition GetSlot (slotType : SlotType) (slot : Z) : error + TypedSlot :=
  if (slot <? 0) || (slot >? 999)
  then inl (errorString ("invalid slot number: " +:+ fmt_d slot))
  else if String.eqb slotType SimpleMemory then inr (SimpleMemorySlot slot)
  else if String.eqb slotType TimeoutMemory then inr (TimeoutMemorySlot slot)
  else if String.eqb slotType TokenBucket then inr (TokenBucketSlot slot)
  else if String.eqb slotType LeakyBucket then inr (LeakyBucketSlot slot)
  else if String.eqb slotType BroadcastType then inr (BroadcastSlot slot)
  else if String.eqb slotType Ticker then inr (TickerSlot slot)
  else if String.eqb slotType AtomicCounter then inr (AtomicCounterSlot slot)
  else inl (errorString ("unknown slot type: " +:+ slotType)).

(** [strconv.Itoa]. *)
Definition Itoa (i : Z) : string := fmt_d i.

(** A result of integer arithmetic brought back into [int] (two's
    complement wrap-around), and the unary minus of [int]. *)
Definition wrap_int (z : Z) : Z := (z - minInt) mod 2 ^ intSize + minInt.

Definition int_neg (v : Z) : Z := wrap_int (- v).

(** The part of [GetTokens], of [Read] of a ticker and of [Read] of a
    counter after the client's [Read]: the error is passed on, the payload
    goes through [strconv.Atoi]; [what] is the text of the error message. *)
Definition parse_int_result (what : string) (r : string * option error) : Z * option error :=
  match r with
  | (_, Some err) => (0, Some err)
  | (data, None) =>
      match Atoi data with
      | None => (0, Some (errorString (what +:+ data)))
      | Some value => (value, None)
      end
  end.

Definition SimpleMemorySlot_Read (slot : Z) (w : schedule) (c : Client)
    : outcome (string * option error) := Read slot w c.

Definition SimpleMemorySlot_Write (slot : Z) (data : string) (w : schedule) (c : Client)
    : outcome (option error) := Write slot data w c.

Definition TimeoutMemorySlot_Read (slot : Z) (w : schedule) (c : Client)
    : outcome (string * option error) := Read slot w c.

Definition TimeoutMemorySlot_Write (slot : Z) (data : string) (w : schedule) (c : Client)
    : outcome (option error) := Write slot data w c.

Definition TokenBucketSlot_GetTokens (slot : Z) (w : schedule) (c : Client)
    : outcome (Z * option error) :=
  do (r, c) <- Read slot w c ;
  Return (parse_int_result "invalid token count: " r) c.

Definition LeakyBucketSlot_TryAcquire (slot : Z) (w : schedule) (c : Client)
    : outcome (bool * option error) :=
  do (r, c) <- Read slot w c ;
  match r with
  | (_, Some err) => Return (false, Some err) c
  | (data, None) =>
      match Atoi data with
      | None => Return (false, Some (errorString ("invalid result: " +:+ data))) c
      | Some result => Return (result =? 1, None) c
      end
  end.

Definition BroadcastSlot_Read (slot : Z) (w : schedule) (c : Client)
    : outcome (string * option error) := Read slot w c.

Definition BroadcastSlot_Send (slot : Z) (data : string) (w : schedule) (c : Client)
    : outcome counts := Broadcast slot data w c.

Definition TickerSlot_Read (slot : Z) (w : schedule) (c : Client)
    : outcome (Z * option error) :=
  do (r, c) <- Read slot w c ;
  Return (parse_int_result "invalid ticker value: " r) c.

Definition TickerSlot_Reset (slot : Z) (value : Z) (w : schedule) (c : Client)
    : outcome (option error) := Write slot (Itoa value) w c.

Definition AtomicCounterSlot_Read (slot : Z) (w : schedule) (c : Client)
    : outcome (Z * option error) :=
  do (r, c) <- Read slot w c ;
  Return (parse_int_result "invalid counter value: " r) c.

Definition AtomicCounterSlot_Increment (slot : Z) (value : Z) (w : schedule) (c : Client)
    : outcome (option error) := Write slot (Itoa value) w c.

Definition AtomicCounterSlot_Decrement (slot : Z) (value : Z) (w : schedule) (c : Client)
    : outcome (option error) := Write slot (Itoa (int_neg value)) w c.

(** ** Further notions used by the properties *)

(** The registry holds only slots that the operations accept. *)
Definition keys_valid (c : Client) : Prop :=
  forall (slot : Z) (ch : nat), pendingRequests c !! slot = Some ch -> 0 <= slot <= 999.

(** The listener dispatching two frames, one after the other. *)
Definition dispatching2 (frame1 frame2 : string) (c : Client) : Client :=
  dispatching frame2 (dispatching frame1 c).


(** Every entry of the registry of [c'] is an entry of the registry of [c]. *)
Definition registry_within (c' c : Client) : Prop :=
  forall (slot : Z) (ch : nat),
    pendingRequests c' !! slot = Some ch -> pendingRequests c !! slot = Some ch.

(** The other goroutines register valid slots only. *)
Definition keeps_keys_valid (w : schedule) : Prop :=
  forall c : Client, keys_valid c -> keys_valid (interference w c).

(** The name under which [GetSlot] hands out a wrapper. *)
Definition type_name (s : TypedSlot) : SlotType :=
  match s with
  | SimpleMemorySlot _ => SimpleMemory
  | TimeoutMemorySlot _ => TimeoutMemory
  | TokenBucketSlot _ => TokenBucket
  | LeakyBucketSlot _ => LeakyBucket
  | BroadcastSlot _ => BroadcastType
  | TickerSlot _ => Ticker
  | AtomicCounterSlot _ => AtomicCounter
  end.
(** * Properties *)

(** ** Strings and frames *)

Example Atoi_examples :
  Atoi "007" = Some 7 /\ Atoi "-12" = Some (-12) /\ Atoi "+5" = Some 5 /\
  Atoi "" = None /\ Atoi "-" = None /\ Atoi "1x" = None /\ Atoi " 12" = None /\
  Atoi "9223372036854775807" = Some maxInt /\
  Atoi "9223372036854775808" = None /\
  Atoi "-9223372036854775808" = Some minInt.
Proof. vm_compute. repeat split. Qed.

Example Split_examples :
  Split "3/5/1" "/" = ["3"; "5"; "1"] /\ Split "" "/" = [""] /\
  Split "/a/" "/" = [""; "a"; ""] /\ Split "abc" "/" = ["abc"].
Proof. vm_compute. repeat split. Qed.

Example fmt_examples :
  fmt_03d 7 = "007" /\ fmt_03d 42 = "042" /\ fmt_03d 999 = "999" /\
  fmt_03d 0 = "000" /\ fmt_03d (-5) = "-05" /\ fmt_03d 1000 = "1000" /\
  fmt_d (-1) = "-1" /\ fmt_c "x" = "x".
Proof. vm_compute. repeat split. Qed.

Section Frames.

Variables (tag : ascii) (code rest : string).
Hypothesis code_len : String.length code = 3%nat.

Lemma frame_length : (String.length (String tag (code +:+ rest)) <? 4)%nat = false.
Proof using code_len.
  destruct code as [|a1 [|a2 [|a3 [|a4 s]]]]; try discriminate. reflexivity.
Qed.

Lemma frame_slot : string_slice 1 4 (String tag (code +:+ rest)) = code.
Proof using code_len.
  destruct code as [|a1 [|a2 [|a3 [|a4 s]]]]; try discriminate.
  unfold string_slice. simpl. now destruct rest.
Qed.

Lemma frame_data : string_from 4 (String tag (code +:+ rest)) = rest.
Proof using code_len.
  destruct code as [|a1 [|a2 [|a3 [|a4 s]]]]; try discriminate. reflexivity.
Qed.

End Frames.

Lemma TrimSuffix_lf_line (s : string) : TrimSuffix_lf (s +:+ LF) = s.
Proof.
  induction s as [|a s IH]; [reflexivity|].
  change (String a s +:+ LF) with (String a (s +:+ LF)).
  cbn [TrimSuffix_lf]. rewrite IH.
  destruct s; reflexivity.
Qed.

Lemma String_eqb_neq (a b : string) : a <> b -> String.eqb a b = false.
Proof. intros H. apply String.eqb_neq. exact H. Qed.

(** ** The error-code table *)

Lemma NewGhotiError_code (code : string) : Code (NewGhotiError code) = code.
Proof. reflexivity. Qed.

Lemma NewGhotiError_unknown (code : string) :
  ~ In code ["001"; "002"; "003"; "004"; "005"; "006"; "007"; "008"; "009"] ->
  NewGhotiError code = {| Code := code; Message := "Unknown error" |}.
Proof.
  intros H. unfold NewGhotiError.
  repeat match goal with
  | |- context [String.eqb code ?k] =>
      rewrite (String_eqb_neq code k) by (intros ->; apply H; simpl; tauto)
  end.
  reflexivity.
Qed.

(** ** Slot numbers on the wire *)

Lemma fmt_03d_table :
  forallb (fun n : nat =>
             let s := fmt_03d (Z.of_nat n) in
             (String.length s =? 3)%nat
             && match Atoi s with Some v => v =? Z.of_nat n | None => false end)
          (seq 0 1000) = true.
Proof. vm_compute. reflexivity. Qed.

Lemma fmt_03d_slot (slot : Z) :
  0 <= slot <= 999 ->
  String.length (fmt_03d slot) = 3%nat /\ Atoi (fmt_03d slot) = Some slot.
Proof.
  intros Hs.
  pose proof (proj1 (forallb_forall _ _) fmt_03d_table (Z.to_nat slot)) as H.
  cbv beta zeta in H. rewrite Z2Nat.id in H by lia.
  assert (Hin : In (Z.to_nat slot) (seq 0 1000)) by (apply in_seq; lia).
  apply H in Hin. apply andb_prop in Hin as [Hlen Hval].
  split.
  - now apply Nat.eqb_eq.
  - destruct (Atoi (fmt_03d slot)) as [v|]; [|discriminate].
    apply Z.eqb_eq in Hval. now subst.
Qed.

Lemma valid_slot_check (slot : Z) :
  0 <= slot <= 999 -> (slot <? 0) || (slot >? 999) = false.
Proof. intros H. apply orb_false_intro; lia. Qed.

Lemma invalid_slot_check (slot : Z) :
  slot < 0 \/ 999 < slot -> (slot <? 0) || (slot >? 999) = true.
Proof. intros H. apply orb_true_iff. lia. Qed.

(** ** The mutex *)

Lemma Lock_free (c : Client) :
  mutex c = false -> Lock c = Return tt (set_mutex true c).
Proof. intros H. unfold Lock. now rewrite H. Qed.

Lemma Unlock_locked (c : Client) :
  mutex c = false -> Unlock (set_mutex true c) = c.
Proof. destruct c. cbn. now intros ->. Qed.

Lemma Lock_held (c : Client) : mutex c = true -> Lock c = Parked c.
Proof. intros H. unfold Lock. now rewrite H. Qed.

(** ** Local validation *)

(** C5: for a slot below 0 or above 999, [Read], [Write] and [Broadcast]
    return the validation error and leave the client as it was (no frame is
    written to the transport, nothing enters the registry, no channel is
    made), whatever the schedule; for data longer than 36 bytes [Write] and
    [Broadcast] return a validation error and leave the client as it was. *)
Theorem C5_validation_before_any_effect
    (slot : Z) (data : string) (w : schedule) (c : Client) :
  (slot < 0 \/ 999 < slot ->
     let e := errorString ("invalid slot number: " +:+ fmt_d slot) in
     validation_error e
     /\ Read slot w c = Return ("", Some e) c
     /\ Write slot data w c = Return (Some e) c
     /\ Broadcast slot data w c = Return (0, 0, 0, Some e) c)
  /\ ((36 < String.length data)%nat ->
        exists e, validation_error e
                  /\ Write slot data w c = Return (Some e) c
                  /\ Broadcast slot data w c = Return (0, 0, 0, Some e) c).
Proof.
  split.
  - intros Hs. apply invalid_slot_check in Hs.
    unfold Read, Write, Broadcast, Read_start, Write_start, Broadcast_start.
    rewrite Hs. repeat split. left. now exists slot.
  - intros Hd. apply Nat.ltb_lt in Hd.
    unfold Write, Broadcast, Write_start, Broadcast_start.
    destruct ((slot <? 0) || (slot >? 999)).
    + eexists. split; [left; now exists slot|]. split; reflexivity.
    + rewrite Hd. eexists. split; [now right|]. split; reflexivity.
Qed.

Lemma C5_validation_witness :
  Read 1000 (mkSchedule id 0 0) (new_client LoadDefaultConfig)
  = Return ("", Some (errorString "invalid slot number: 1000"))
      (new_client LoadDefaultConfig)
  /\ exists e,
       Write 5 "0123456789012345678901234567890123456" (mkSchedule id 0 0)
         (new_client LoadDefaultConfig)
       = Return (Some e) (new_client LoadDefaultConfig).
Proof.
  split.
  - destruct (C5_validation_before_any_effect 1000 "" (mkSchedule id 0 0)
                (new_client LoadDefaultConfig)) as [H _].
    destruct (H ltac:(right; lia)) as (_ & HR & _). exact HR.
  - destruct (C5_validation_before_any_effect 5
                "0123456789012345678901234567890123456" (mkSchedule id 0 0)
                (new_client LoadDefaultConfig)) as [_ H].
    destruct (H ltac:(simpl; lia)) as (e & _ & HW & _). now exists e.
Defined.

(** ** Fatal errors *)

Lemma Close_no_others_done {c : Client} :
  done (state_of (Close no_others c)) = true.
Proof.
  unfold Close. destruct (done c) eqn:Hd; [exact Hd|].
  unfold wg_Wait, no_others. cbn.
  destruct (wg c =? 0)%nat; cbn.
  - destruct (Conn_Close (conn c)); reflexivity.
  - destruct (wg c =? 0)%nat; cbn; [destruct (Conn_Close (conn c))|]; reflexivity.
Qed.

Lemma Close_no_others_stdout {c : Client} :
  stdout (state_of (Close no_others c)) = stdout c.
Proof.
  unfold Close. destruct (done c); [reflexivity|].
  unfold wg_Wait, no_others. cbn.
  destruct (wg c =? 0)%nat; cbn.
  - destruct (Conn_Close (conn c)); reflexivity.
  - destruct (wg c =? 0)%nat; cbn; [destruct (Conn_Close (conn c))|]; reflexivity.
Qed.

Lemma state_of_and_then_Return {A : Type} (o : outcome A) :
  state_of (do (_, c1) <- o ; Return tt c1) = state_of o.
Proof. destruct o; reflexivity. Qed.

Lemma handleFatalError_done (err : error) (c : Client) :
  done (state_of (handleFatalError err c)) = true.
Proof.
  unfold handleFatalError. rewrite state_of_and_then_Return.
  apply Close_no_others_done.
Qed.

Lemma handleFatalError_stdout (err : error) (c : Client) :
  stdout (state_of (handleFatalError err c))
  = stdout c ++ ["Fatal client error: " +:+ error_Error err +:+ LF].
Proof.
  unfold handleFatalError. rewrite state_of_and_then_Return.
  now rewrite Close_no_others_stdout.
Qed.

(** With the listener registered in the WaitGroup, the [Close] made by
    [handleFatalError] closes [done] and then never leaves [wg.Wait()]. *)
Lemma handleFatalError_parks (err : error) (c : Client) :
  done c = false -> wg c <> 0%nat ->
  handleFatalError err c
  = Parked (set_done true (Printf ("Fatal client error: " +:+ error_Error err +:+ LF) c)).
Proof.
  intros Hd Hw. unfold handleFatalError, Close. cbn. rewrite Hd.
  unfold wg_Wait, no_others. cbn.
  destruct (wg c) as [|n] eqn:E; [contradiction|]. reflexivity.
Qed.

(** Once [done] is closed, a second fatal error panics in [close(c.done)]. *)
Lemma handleFatalError_panics (err : error) (c : Client) :
  done c = true ->
  handleFatalError err c
  = Panic "close of closed channel"
      (Printf ("Fatal client error: " +:+ error_Error err +:+ LF) c).
Proof. intros Hd. unfold handleFatalError, Close. cbn. now rewrite Hd. Qed.

(** A frame after which [done] is closed is the last one the listener
    dispatches: what the later reads return makes no difference. *)
Lemma listen_reading_last (message : string) (rest : list ReadResult) (c : Client) :
  message <> "" ->
  done (state_of (processMessage message c)) = true ->
  listen_reading (ReadLine (message +:+ LF) :: rest) c
  = listen_reading [ReadLine (message +:+ LF)] c.
Proof.
  intros Hne Hd. cbn [listen_reading]. rewrite TrimSuffix_lf_line.
  destruct message as [|a m]; [contradiction|]. cbn [String.length Nat.eqb].
  destruct (processMessage (String a m) c) as [[] c1|c1|msg c1]; cbn in *;
    [now rewrite Hd|reflexivity..].
Qed.

(** ** The dispatcher: value frames *)

Section ValueFrames.

Variables (slotStr data : string) (slot : Z) (c : Client).
Hypothesis slotStr_len : String.length slotStr = 3%nat.
Hypothesis slotStr_val : Atoi slotStr = Some slot.
Hypothesis not_echo : slotStr +:+ data <> User (Auth (config c)).
Hypothesis mutex_free : mutex c = false.

Lemma processMessage_value :
  processMessage ("v" +:+ slotStr +:+ data) c
  = match pendingRequests c !! slot with
    | Some ch => chan_send ch {| Data := data; Error := None |} c
    | None =>
        handleFatalError
          (errorString ("received response for slot " +:+ fmt_d slot
                        +:+ " with no pending request")) c
    end.
Proof using slotStr_len slotStr_val not_echo mutex_free.
  change ("v" +:+ slotStr +:+ data) with (String "v" (slotStr +:+ data)).
  unfold processMessage. change (Ascii.eqb "v" "v") with true. cbv iota.
  unfold handleValueResponse.
  change (string_from 1 (String "v" (slotStr +:+ data))) with (slotStr +:+ data).
  rewrite (String_eqb_neq _ _ not_echo), andb_false_r.
  rewrite frame_length, frame_slot, frame_data by assumption.
  rewrite slotStr_val, (Lock_free c mutex_free). cbn [and_then].
  now rewrite (Unlock_locked c mutex_free).
Qed.

End ValueFrames.

Lemma fresh_chan_lookup {A : Type} (h : list (list A)) :
  (h ++ [[]]) !! List.length h = Some [].
Proof. now apply list_lookup_middle. Qed.

Lemma chan_send_room (ch : nat) (r : Response) (c : Client) :
  chans c !! ch = Some [] ->
  chan_send ch r c = Return tt (set_chans (<[ch := [r]]> (chans c)) c).
Proof. intros H. unfold chan_send. now rewrite H. Qed.

(** ** The dispatcher: the authentication echo *)

(** C6, as the code has it: a value frame whose whole text after the tag
    is the configured user name (which is not empty) is dropped: the call
    returns and the client is exactly as before (nothing is delivered,
    nothing printed, [done] untouched). *)
Theorem C6_auth_echo_discarded (c : Client) :
  User (Auth (config c)) <> "" ->
  processMessage ("v" +:+ User (Auth (config c))) c = Return tt c.
Proof.
  intros Hne.
  change ("v" +:+ User (Auth (config c))) with (String "v" (User (Auth (config c)))).
  unfold processMessage. change (Ascii.eqb "v" "v") with true. cbv iota.
  unfold handleValueResponse.
  change (string_from 1 (String "v" (User (Auth (config c)))))
    with (User (Auth (config c))).
  rewrite String.eqb_refl.
  destruct (User (Auth (config c))) as [|a u]; [contradiction|]. reflexivity.
Qed.

Lemma C6_auth_echo_discarded_witness :
  processMessage "vtest_a_service" (new_client LoadDefaultConfig)
  = Return tt (new_client LoadDefaultConfig).
Proof.
  apply (C6_auth_echo_discarded (new_client LoadDefaultConfig)). discriminate.
Defined.

(** C6 as stated fails: with the user name [test_a_service] and a [Read]
    waiting on slot 1, the frame [v001test_a_service] has the user name as
    its payload, and yet the payload is delivered to the waiter; on a client
    with nothing pending the same frame is a fatal error and closes [done]. *)
Lemma C6_payload_equal_to_user_is_routed :
  let c := new_client LoadDefaultConfig in
  string_from 4 "v001test_a_service" = User (Auth (config c))
  /\ (exists c1 c2,
        Read_start 1 c = Return (Waiting 0%nat) c1
        /\ chans c1 !! 0%nat = Some []
        /\ processMessage "v001test_a_service" c1 = Return tt c2
        /\ chans c2 !! 0%nat = Some [{| Data := "test_a_service"; Error := None |}])
  /\ done c = false
  /\ done (state_of (processMessage "v001test_a_service" c)) = true.
Proof.
  cbv zeta. split; [reflexivity|]. split.
  - eexists. eexists. split; [vm_compute; reflexivity|].
    split; [reflexivity|]. split; [vm_compute; reflexivity|]. reflexivity.
  - split; vm_compute; reflexivity.
Qed.

(** ** The dispatcher: error frames *)

Lemma set_chans_same (c : Client) :
  set_pendingRequests (pendingRequests c) (set_chans (chans c) c) = c.
Proof. now destruct c. Qed.

(** The registry after the loop has deleted the slots of [entries]. *)
Lemma lookup_foldl_delete (entries : list (Z * nat)) (m : gmap Z nat) (k : Z) :
  foldl (fun m e => delete e.1 m) m entries !! k
  = if decide (k ∈ entries.*1) then None else m !! k.
Proof.
  revert m. induction entries as [|[s ch] rest IH]; intros m; cbn.
  - case_decide as H; [|reflexivity]. now apply elem_of_nil in H.
  - rewrite IH. destruct (decide (k = s)) as [->|Hne].
    + rewrite lookup_delete_eq.
      repeat case_decide; try reflexivity;
        exfalso; match goal with H : _ ∉ _ :: _ |- _ => apply H; left end.
    + rewrite lookup_delete_ne by congruence.
      destruct (decide (k ∈ rest.*1)) as [Hin|Hout].
      * rewrite decide_True by (now right). reflexivity.
      * rewrite decide_False; [reflexivity|].
        intros [?|?]%elem_of_cons; contradiction.
Qed.

Lemma foldl_delete_all (m : gmap Z nat) :
  foldl (fun m e => delete e.1 m) m (map_to_list m) = ∅.
Proof.
  apply map_eq. intros k. rewrite lookup_foldl_delete, lookup_empty.
  case_decide as H; [reflexivity|].
  destruct (m !! k) as [ch|] eqn:E; [|reflexivity].
  exfalso. apply H. apply list_elem_of_fmap. exists (k, ch).
  split; [reflexivity|]. now apply elem_of_map_to_list.
Qed.

Section ForwardToAll.

Variable errorCode : string.


(** With room in every channel visited, the loop runs to its end: each
    channel holds the error and each slot visited has left the registry. *)
Lemma forward_to_all_unresolved (entries : list (Z * nat)) (c : Client) :
  NoDup entries.*2 ->
  (forall slot ch, (slot, ch) ∈ entries -> chans c !! ch = Some []) ->
  exists h : list (list Response),
    forward_to_all entries errorCode c
    = Return tt (set_pendingRequests
                   (foldl (fun m e => delete e.1 m) (pendingRequests c) entries)
                   (set_chans h c))
    /\ (forall ch, ch ∈ entries.*2 -> h !! ch
                   = Some [{| Data := "";
                              Error := Some (ghotiError (NewGhotiError errorCode)) |}])
    /\ (forall ch, ch ∉ entries.*2 -> h !! ch = chans c !! ch).
Proof.
  revert c. induction entries as [|[slot ch] rest IH]; intros c Hnd Hroom.
  - exists (chans c). cbn. rewrite set_chans_same.
    split; [reflexivity|]. split; [|reflexivity].
    intros ch Hch. now apply elem_of_nil in Hch.
  - cbn in Hnd. apply NoDup_cons in Hnd as [Hfresh Hnd].
    assert (Hch : chans c !! ch = Some []) by (apply (Hroom slot); left).
    cbn [forward_to_all]. rewrite (chan_send_room _ _ _ Hch). cbn [and_then].
    match goal with
    | |- context [forward_to_all rest errorCode ?c1] =>
        destruct (IH c1 Hnd) as (h & Hrun & Hin & Hout)
    end.
    { intros s' ch' Hmem. cbn.
      rewrite list_lookup_insert_ne.
      - apply (Hroom s'). now right.
      - intros ->. apply Hfresh. apply list_elem_of_fmap. now exists (s', ch'). }
    exists h. split; [|split].
    + rewrite Hrun. now destruct c.
    + intros ch' Hmem. cbn in Hmem. apply elem_of_cons in Hmem as [->|Hmem].
      * rewrite (Hout ch Hfresh). cbn.
        apply list_lookup_insert_eq. now apply lookup_lt_Some in Hch.
      * now apply Hin.
    + intros ch' Hmem. cbn in Hmem. apply not_elem_of_cons in Hmem as [Hne Hmem].
      rewrite (Hout ch' Hmem). cbn. now apply list_lookup_insert_ne.
Qed.

End ForwardToAll.

Lemma all_unresolved_unresolved (c : Client) :
  all_unresolved c = true -> unresolved c.
Proof.
  unfold all_unresolved. intros H. apply andb_prop in H as [Hall Hnd].
  apply bool_decide_eq_true in Hnd. split.
  - intros slot ch Hm.
    pose proof (proj1 (forallb_forall _ _) Hall (slot, ch)) as Hone.
    cbn in Hone.
    destruct (chans c !! ch) as [[|r buf]|]; try reflexivity;
      discriminate Hone; apply list_elem_of_In; now apply elem_of_map_to_list.
  - intros s1 s2 ch H1 H2.
    apply elem_of_map_to_list in H1, H2.
    apply list_elem_of_lookup in H1 as [i1 H1], H2 as [i2 H2].
    assert (i1 = i2).
    { eapply NoDup_lookup; [exact Hnd| |];
        rewrite list_lookup_fmap; [rewrite H1|rewrite H2]; reflexivity. }
    subst i2. congruence.
Qed.

Lemma unresolved_NoDup (c : Client) :
  unresolved c -> NoDup (map_to_list (pendingRequests c)).*2.
Proof.
  intros [_ Hinj]. apply NoDup_fmap_2_strong; [|apply NoDup_map_to_list].
  intros [s1 ch1] [s2 ch2] H1 H2 E. cbn in E. subst ch2.
  apply elem_of_map_to_list in H1, H2. f_equal. now apply (Hinj s1 s2 ch1).
Qed.

(** Registering a fresh channel keeps every request unresolved. *)
Lemma unresolved_registered (slot : Z) (cmd : string) (c : Client) :
  unresolved c -> unresolved (registered slot cmd c).
Proof.
  intros [Hroom Hinj]. split; cbn [registered pendingRequests chans].
  - intros s ch. rewrite lookup_insert. case_decide as E.
    + intros [= <-]. apply fresh_chan_lookup.
    + intros Hm. apply lookup_app_l_Some. now apply (Hroom s).
  - assert (Hold : forall s ch, pendingRequests c !! s = Some ch ->
                                ch <> List.length (chans c)).
    { intros s ch Hm ->. apply Hroom in Hm. apply lookup_lt_Some in Hm. lia. }
    intros s1 s2 ch. rewrite !lookup_insert.
    repeat case_decide; subst; try congruence.
    + intros [= <-] Hm. now apply Hold in Hm.
    + intros Hm [= <-]. now apply Hold in Hm.
    + apply Hinj.
Qed.

Section ErrorFrames.

Variables (code rest : string) (c : Client).
Hypothesis code_len : String.length code = 3%nat.

Lemma processMessage_error :
  processMessage ("e" +:+ code +:+ rest) c
  = if String.eqb code "004" || String.eqb code "005"
    then Return tt (Printf ("Authentication error: " +:+ code +:+ LF) c)
    else
      do (_, c1) <- Lock c ;
      do (_, c2) <- forward_to_all (map_to_list (pendingRequests c1)) code c1 ;
      Return tt (Unlock c2).
Proof using code_len.
  change ("e" +:+ code +:+ rest) with (String "e" (code +:+ rest)).
  unfold processMessage. change (Ascii.eqb "e" "v") with false.
  change (Ascii.eqb "e" "e") with true. cbv iota.
  unfold handleErrorResponse.
  now rewrite frame_length, frame_slot by assumption.
Qed.

End ErrorFrames.

Lemma error_frame_fanout (code rest : string) (c : Client) :
  String.length code = 3%nat -> code <> "004" -> code <> "005" ->
  mutex c = false -> unresolved c ->
  exists c',
    processMessage ("e" +:+ code +:+ rest) c = Return tt c'
    /\ pendingRequests c' = ∅
    /\ (forall slot ch,
          pendingRequests c !! slot = Some ch ->
          chans c' !! ch
          = Some [{| Data := "";
                     Error := Some (ghotiError (NewGhotiError code)) |}])
    /\ (forall ch,
          (forall slot, pendingRequests c !! slot <> Some ch) ->
          chans c' !! ch = chans c !! ch)
    /\ done c' = done c /\ conn c' = conn c /\ stdout c' = stdout c
    /\ mutex c' = false.
Proof.
  intros Hlen H4 H5 Hmutex Hun. rewrite (processMessage_error code rest c Hlen).
  rewrite (String_eqb_neq _ _ H4), (String_eqb_neq _ _ H5). cbn [orb].
  rewrite (Lock_free c Hmutex). cbn [and_then].
  pose proof (unresolved_NoDup c Hun) as Hnd. destruct Hun as [Hroom _].
  destruct (forward_to_all_unresolved code (map_to_list (pendingRequests c))
              (set_mutex true c) Hnd)
    as (h & Hrun & Hin & Hout).
  { intros slot ch Hmem. apply (Hroom slot). now apply elem_of_map_to_list. }
  change (pendingRequests (set_mutex true c)) with (pendingRequests c) in *.
  rewrite Hrun. cbn [and_then].
  eexists. split; [reflexivity|]. cbn.
  split; [apply foldl_delete_all|].
  split; [|split; [|repeat split]].
  - intros slot ch Hm. apply Hin. apply list_elem_of_fmap. exists (slot, ch).
    split; [reflexivity|]. now apply elem_of_map_to_list.
  - intros ch Hfree. apply Hout. intros Hmem.
    apply list_elem_of_fmap in Hmem as ([slot ch'] & -> & Hmem).
    apply elem_of_map_to_list in Hmem. now apply (Hfree slot).
Qed.



(** ** The wait of the operations *)


(** [select] takes a ready case and leaves registry, mutex, [done] and
    transport alone; it parks only while no case is ready; it never
    panics. *)
Lemma select_outcome (responseCh : nat) (d t : Z) (k : nat) (c : Client) :
  match select responseCh d t k c with
  | Return ev c' =>
      ev ∈ ready_cases responseCh d t c
      /\ pendingRequests c' = pendingRequests c /\ mutex c' = mutex c
      /\ done c' = done c /\ conn c' = conn c /\ stdout c' = stdout c
  | Parked c' => c' = c /\ ready_cases responseCh d t c = []
  | Panic _ _ => False
  end.
Proof.
  unfold select.
  destruct (ready_cases responseCh d t c !! (k mod _)%nat) as [ev|] eqn:E.
  - apply list_elem_of_lookup_2 in E. now destruct ev.
  - split; [reflexivity|]. apply lookup_ge_None in E.
    destruct (ready_cases responseCh d t c) as [|ev l]; [reflexivity|].
    exfalso. pose proof (Nat.mod_upper_bound k (List.length (ev :: l))) as Hm.
    cbn in Hm, E. lia.
Qed.

Lemma deregister_lookup (slot : Z) (c : Client) :
  pendingRequests (deregister slot c) !! slot = None.
Proof. apply lookup_delete_eq. Qed.

(** The deferred clean-up goes through when the mutex is free, and parks
    at [Lock] otherwise. *)
Lemma cleanup_free (slot : Z) (c : Client) :
  mutex c = false -> cleanup slot c = Return tt (deregister slot c).
Proof.
  intros H. unfold cleanup. rewrite (Lock_free c H). cbn [and_then].
  f_equal. destruct c. cbn in *. now subst.
Qed.

Lemma cleanup_held (slot : Z) (c : Client) :
  mutex c = true -> cleanup slot c = Parked c.
Proof. intros H. unfold cleanup. now rewrite (Lock_held c H). Qed.

Lemma register_free (slot : Z) (ch : nat) (c : Client) :
  mutex c = false ->
  register slot ch c
  = Return tt (set_pendingRequests (<[slot := ch]> (pendingRequests c)) c).
Proof.
  intros H. unfold register. rewrite (Lock_free c H). cbn [and_then].
  f_equal. destruct c. cbn in *. now subst.
Qed.

Lemma register_held (slot : Z) (ch : nat) (c : Client) :
  mutex c = true -> register slot ch c = Parked c.
Proof. intros H. unfold register. now rewrite (Lock_held c H). Qed.

(** The three operations share the shape of their wait. *)
Section Wait.

Context {A : Type}.
Variables (slot : Z) (w : schedule) (c : Client).
Variable result : selected -> A.
Variable start : outcome (progress A).

(** What the part before the [select] comes to, with valid arguments. *)
Hypothesis start_outcome :
  match start with
  | Return (Finished _) c1 => mutex c = false /\ pendingRequests c1 !! slot = None
  | Return (Waiting _) c1 => mutex c = false /\ mutex c1 = false
  | Parked c1 => mutex c = true /\ mutex c1 = true
  | Panic _ _ => False
  end.


End Wait.






(** ** Operations on an open transport *)

Section Registered.

Variables (slot : Z) (c : Client).
Hypothesis slot_valid : 0 <= slot <= 999.
Hypothesis conn_open : closed (conn c) = false.
Hypothesis conn_healthy : fault (conn c) = None.
Hypothesis mutex_free : mutex c = false.

Lemma Read_start_waiting :
  Read_start slot c
  = Return (Waiting (List.length (chans c)))
      (registered slot ("r" +:+ fmt_03d slot +:+ LF) c).
Proof using slot_valid conn_open conn_healthy mutex_free.
  unfold Read_start, make_chan. rewrite (valid_slot_check slot slot_valid).
  rewrite register_free by exact mutex_free. cbn [and_then].
  unfold send, Conn_Write, registered.
  destruct c as [cfg [cl fl wr] mu pr bh dn wgc ch hd so]. cbn in *. now subst.
Qed.

Lemma Write_start_waiting (data : string) :
  (String.length data <= 36)%nat ->
  Write_start slot data c
  = Return (Waiting (List.length (chans c)))
      (registered slot ("w" +:+ fmt_03d slot +:+ data +:+ LF) c).
Proof using slot_valid conn_open conn_healthy mutex_free.
  intros Hd. unfold Write_start, make_chan.
  rewrite (valid_slot_check slot slot_valid), (proj2 (Nat.ltb_ge _ _) Hd).
  rewrite register_free by exact mutex_free. cbn [and_then].
  unfold send, Conn_Write, registered.
  destruct c as [cfg [cl fl wr] mu pr bh dn wgc ch hd so]. cbn in *. now subst.
Qed.

Lemma Broadcast_start_waiting (data : string) :
  (String.length data <= 36)%nat ->
  Broadcast_start slot data c
  = Return (Waiting (List.length (chans c)))
      (registered slot ("w" +:+ fmt_03d slot +:+ data +:+ LF) c).
Proof using slot_valid conn_open conn_healthy mutex_free.
  intros Hd. unfold Broadcast_start, make_chan.
  rewrite (valid_slot_check slot slot_valid), (proj2 (Nat.ltb_ge _ _) Hd).
  rewrite register_free by exact mutex_free. cbn [and_then].
  unfold send, Conn_Write, registered.
  destruct c as [cfg [cl fl wr] mu pr bh dn wgc ch hd so]. cbn in *. now subst.
Qed.

End Registered.

(** A single ready case is the one [select] takes. *)
Lemma select_response (responseCh : nat) (t : Z) (k : nat) (c : Client) r buf :
  chans c !! responseCh = Some (r :: buf) -> done c = false -> t < 5 * Second ->
  select responseCh (5 * Second) t k c
  = Return (recvResponse r) (set_chans (alter (drop 1) responseCh (chans c)) c).
Proof.
  intros Hb Hd Ht. unfold select, ready_cases. rewrite Hb, Hd.
  destruct (5 * Second <=? t) eqn:E; [lia|]. cbn [app List.length].
  now rewrite Nat.mod_1_r.
Qed.

Lemma select_done (responseCh : nat) (t : Z) (k : nat) (c : Client) :
  chans c !! responseCh = Some [] -> done c = true -> t < 5 * Second ->
  select responseCh (5 * Second) t k c = Return recvDone c.
Proof.
  intros Hb Hd Ht. unfold select, ready_cases. rewrite Hb, Hd.
  destruct (5 * Second <=? t) eqn:E; [lia|]. cbn [app List.length].
  now rewrite Nat.mod_1_r.
Qed.

(** The value frame for [slot] reaches the request registered last. *)
Lemma dispatching_value (slot : Z) (payload cmd : string) (c : Client) :
  0 <= slot <= 999 ->
  fmt_03d slot +:+ payload <> User (Auth (config c)) ->
  dispatching ("v" +:+ fmt_03d slot +:+ payload) (registered slot cmd c)
  = set_chans (<[List.length (chans c) := [{| Data := payload; Error := None |}]]>
                 (chans c ++ [[]]))
      (registered slot cmd c).
Proof.
  intros Hs Hne. destruct (fmt_03d_slot slot Hs) as [Hlen Hval].
  unfold dispatching.
  rewrite (processMessage_value (fmt_03d slot) payload slot _ Hlen Hval)
    by (exact Hne || reflexivity).
  cbn [registered pendingRequests]. rewrite lookup_insert_eq.
  rewrite chan_send_room by apply fresh_chan_lookup. reflexivity.
Qed.

Lemma delivered_lookup {A : Type} (h : list (list A)) (buf : list A) :
  <[List.length h := buf]> (h ++ [[]]) !! List.length h = Some buf.
Proof. apply list_lookup_insert_eq. rewrite length_app. cbn. lia. Qed.

(** [Read] and [Broadcast] resolved by the value frame of their slot. *)
Section Resolved.

Variables (slot : Z) (payload : string) (t : Z) (k : nat) (c : Client).
Hypothesis slot_valid : 0 <= slot <= 999.
Hypothesis conn_open : closed (conn c) = false.
Hypothesis conn_healthy : fault (conn c) = None.
Hypothesis running : done c = false.
Hypothesis in_time : t < 5 * Second.
Hypothesis not_echo : fmt_03d slot +:+ payload <> User (Auth (config c)).
Hypothesis mutex_free : mutex c = false.

Lemma Read_resolved :
  exists c',
    Read slot (mkSchedule (dispatching ("v" +:+ fmt_03d slot +:+ payload)) t k) c
    = Return (payload, None) c'
             /\ pendingRequests c' !! slot = None.
Proof using slot_valid conn_open conn_healthy running in_time not_echo mutex_free.
  unfold Read. rewrite Read_start_waiting by assumption.
  cbn [and_then await interference elapsed pick].
  rewrite dispatching_value by assumption.
  erewrite select_response; [|apply delivered_lookup|exact running|exact in_time].
  cbn [and_then]. rewrite cleanup_free by reflexivity.
  cbn [and_then Read_result Error Data]. eexists. split; [reflexivity|].
  apply deregister_lookup.
Qed.

Lemma Broadcast_resolved (data : string) :
  (String.length data <= 36)%nat ->
  exists c',
    Broadcast slot data
      (mkSchedule (dispatching ("v" +:+ fmt_03d slot +:+ payload)) t k) c
    = Return (parse_counts payload) c'
             /\ pendingRequests c' !! slot = None.
Proof using slot_valid conn_open conn_healthy running in_time not_echo mutex_free.
  intros Hd. unfold Broadcast. rewrite Broadcast_start_waiting by assumption.
  cbn [and_then await interference elapsed pick].
  rewrite dispatching_value by assumption.
  erewrite select_response; [|apply delivered_lookup|exact running|exact in_time].
  cbn [and_then]. rewrite cleanup_free by reflexivity.
  cbn [and_then Broadcast_result Error Data]. eexists. split; [reflexivity|].
  apply deregister_lookup.
Qed.

End Resolved.

(** ** The dispatcher: routing of value frames *)

(** C1, as the code has it (the mutex being free when the frame is
    dispatched): a value frame whose slot has a pending request (and whose
    text after the tag is not the user name) puts its payload,
    with no error, into the channel of that request, which has room for it,
    and a [Read] waiting on that slot returns the payload and no error;
    a value frame whose slot has no pending request goes through
    [handleFatalError], like a frame with an unknown tag: the condition is
    printed, [done] is closed, and the listener dispatches no frame after it. *)
Theorem C1_value_frame_routing (slotStr data : string) (slot : Z) (c : Client) :
  String.length slotStr = 3%nat ->
  Atoi slotStr = Some slot ->
  slotStr +:+ data <> User (Auth (config c)) ->
  mutex c = false ->
  let message := "v" +:+ slotStr +:+ data in
  (forall ch : nat,
      pendingRequests c !! slot = Some ch -> chans c !! ch = Some [] ->
      processMessage message c
      = Return tt (set_chans (<[ch := [{| Data := data; Error := None |}]]> (chans c)) c))
  /\ (pendingRequests c !! slot = None ->
      done (state_of (processMessage message c)) = true
      /\ stdout (state_of (processMessage message c))
         = stdout c ++ ["Fatal client error: "
                        +:+ ("received response for slot " +:+ fmt_d slot
                             +:+ " with no pending request") +:+ LF]
      /\ forall rest : list ReadResult,
           listen_reading (ReadLine (message +:+ LF) :: rest) c
           = listen_reading [ReadLine (message +:+ LF)] c)
  /\ (forall (t : Z) (k : nat),
        0 <= slot <= 999 -> slotStr = fmt_03d slot ->
        closed (conn c) = false -> fault (conn c) = None -> done c = false ->
        t < 5 * Second ->
        exists c',
          Read slot (mkSchedule (dispatching message) t k) c = Return (data, None) c').
Proof.
  intros Hlen Hval Hne Hfree message. subst message.
  rewrite (processMessage_value slotStr data slot c Hlen Hval Hne Hfree).
  split; [|split].
  3:{ intros t k Hs -> Hopen Hok Hrun Ht.
      destruct (Read_resolved slot data t k c Hs Hopen Hok Hrun Ht Hne Hfree)
        as (c' & H & _).
      now exists c'. }
  - intros ch Hch Hbuf. rewrite Hch. now apply chan_send_room.
  - intros Hnone. rewrite Hnone.
    split; [apply handleFatalError_done|].
    split; [apply handleFatalError_stdout|].
    intros rest. apply listen_reading_last; [discriminate|].
    rewrite (processMessage_value slotStr data slot c Hlen Hval Hne Hfree), Hnone.
    apply handleFatalError_done.
Qed.

Lemma C1_value_frame_routing_witness :
  let c := new_client LoadDefaultConfig in
  done (state_of (processMessage "v001abc" c)) = true
  /\ stdout (state_of (processMessage "v001abc" c))
     = ["Fatal client error: received response for slot 1 with no pending request"
        +:+ LF].
Proof.
  intros c.
  destruct (C1_value_frame_routing "001" "abc" 1 c eq_refl eq_refl
              ltac:(discriminate) eq_refl) as [_ H].
  destruct H as [H _]. destruct (H eq_refl) as (Hd & Hs & _).
  split; [exact Hd | exact Hs].
Defined.

(** C1 as stated fails: on a fresh client, nothing is pending on slot 1 and
    [done] is open; the value frame [v001abc] closes [done] and leaves the
    listener parked in [wg.Wait()], so the receiver does not keep running. *)
Lemma C1_unrouted_value_is_fatal :
  let c := new_client LoadDefaultConfig in
  pendingRequests c !! 1 = None
  /\ done c = false
  /\ processMessage "v001abc" c
     = Parked (set_done true
                 (Printf ("Fatal client error: received response for slot 1 with no pending request" +:+ LF) c))
  /\ done (state_of (processMessage "v001abc" c)) = true
  /\ listen_reading [ReadLine ("v001abc" +:+ LF); ReadLine ("a002x" +:+ LF)] c
     = listen_reading [ReadLine ("v001abc" +:+ LF)] c.
Proof. vm_compute. repeat split. Qed.

(** ** The dispatcher: unknown tags *)

(** C9, evaluated on the code: a frame with a tag other than [v], [e], [a]
    is printed and closes [done], and then the listener stays in
    [wg.Wait()] of the [Close] it called itself: [c.conn.Close()] is never
    reached and the transport is as open as before.  The next [Read] still
    fails at once: its [select] finds [done] closed. *)
Theorem C9_unknown_tag_parks_listener (tag : ascii) (rest : string) (c : Client) :
  tag <> "v"%char -> tag <> "e"%char -> tag <> "a"%char ->
  done c = false -> wg c = 1%nat ->
  let c' := set_done true
              (Printf ("Fatal client error: "
                       +:+ ("unknown message type: " +:+ fmt_c tag) +:+ LF) c) in
  processMessage (String tag rest) c = Parked c'
  /\ done c' = true
  /\ closed (conn c') = closed (conn c)
  /\ forall (slot : Z) (t : Z) (k : nat),
       0 <= slot <= 999 -> closed (conn c) = false -> fault (conn c) = None ->
       mutex c = false -> t < 5 * Second ->
       exists c'',
         Read slot (mkSchedule id t k) c'
         = Return ("", Some (errorString "client closed")) c''
         /\ closed (conn c'') = false.
Proof.
  intros Hv He Ha Hd Hw c'.
  split.
  - unfold processMessage.
    rewrite (proj2 (Ascii.eqb_neq _ _) Hv), (proj2 (Ascii.eqb_neq _ _) He),
            (proj2 (Ascii.eqb_neq _ _) Ha).
    apply handleFatalError_parks; [assumption|]. rewrite Hw. discriminate.
  - split; [reflexivity|]. split; [reflexivity|].
    intros slot t k Hs Hc Hf Hm Ht.
    unfold Read. rewrite Read_start_waiting by assumption.
    cbn [and_then await interference elapsed pick id].
    rewrite select_done; [|apply fresh_chan_lookup|reflexivity|exact Ht].
    cbn [and_then]. rewrite cleanup_free by reflexivity.
    eexists. split; reflexivity.
Qed.

Lemma C9_unknown_tag_parks_listener_witness :
  processMessage "x123" (new_client LoadDefaultConfig)
  = Parked (set_done true
              (Printf ("Fatal client error: unknown message type: x" +:+ LF)
                 (new_client LoadDefaultConfig)))
  /\ closed (conn (state_of (processMessage "x123" (new_client LoadDefaultConfig))))
     = false.
Proof.
  destruct (C9_unknown_tag_parks_listener "x" "123" (new_client LoadDefaultConfig)
              ltac:(discriminate) ltac:(discriminate) ltac:(discriminate)
              eq_refl eq_refl) as (H & _).
  split; [exact H|]. rewrite H. reflexivity.
Defined.

(** ** Decimal rendering read back by [Atoi] *)

Lemma digit_value_pretty_N_char (d : N) :
  (d < 10)%N -> digit_value (pretty_N_char d) = Some (Z.of_N d).
Proof.
  intros H.
  assert (d = 0 \/ d = 1 \/ d = 2 \/ d = 3 \/ d = 4 \/ d = 5 \/ d = 6 \/ d = 7
          \/ d = 8 \/ d = 9)%N as Hd by lia.
  repeat (destruct Hd as [->|Hd]; [reflexivity|]). now subst.
Qed.

(** The digits that [pretty_N_go] puts before [s] are read back as [x]. *)
Lemma parse_digits_pretty_N_go (x : N) :
  exists k : Z, 0 <= k /\ forall s acc,
    parse_digits (pretty_N_go x s) acc = parse_digits s (acc * 10 ^ k + Z.of_N x).
Proof.
  induction (N.lt_wf_0 x) as [x _ IH].
  destruct (decide (x = 0)%N) as [->|Hx].
  - exists 0. split; [lia|]. intros s acc. rewrite pretty_N_go_0. f_equal. lia.
  - destruct (IH (x `div` 10)%N) as (k & Hk & Hgo).
    { apply N.div_lt; lia. }
    exists (k + 1). split; [lia|]. intros s acc.
    rewrite pretty_N_go_step by lia. rewrite Hgo. cbn [parse_digits].
    rewrite digit_value_pretty_N_char by (apply N.mod_lt; lia).
    f_equal. rewrite Z.pow_add_r by lia.
    pose proof (N.div_mod x 10 ltac:(lia)) as Hdm.
    rewrite N2Z.inj_div, N2Z.inj_mod. 
    pose proof (Z.div_mod (Z.of_N x) 10 ltac:(lia)). change (Z.of_N 10) with 10. lia.
Qed.

Lemma pretty_N_go_head (x : N) (s : string) :
  (0 < x)%N ->
  exists d rest, (d < 10)%N /\ pretty_N_go x s = String (pretty_N_char d) rest.
Proof.
  revert s. induction (N.lt_wf_0 x) as [x _ IH]. intros s Hx.
  rewrite pretty_N_go_step by assumption.
  destruct (decide (x `div` 10 = 0)%N) as [E|E].
  - rewrite E, pretty_N_go_0. exists (x `mod` 10)%N, s.
    split; [apply N.mod_lt; lia|reflexivity].
  - apply IH; [apply N.div_lt; lia|now apply N.neq_0_lt_0].
Qed.

Lemma Atoi_digits (d : N) (rest : string) :
  (d < 10)%N ->
  Atoi (String (pretty_N_char d) rest)
  = match parse_digits (String (pretty_N_char d) rest) 0 with
    | Some n => if (minInt <=? n) && (n <=? maxInt) then Some n else None
    | None => None
    end.
Proof.
  intros H.
  assert (d = 0 \/ d = 1 \/ d = 2 \/ d = 3 \/ d = 4 \/ d = 5 \/ d = 6 \/ d = 7
          \/ d = 8 \/ d = 9)%N as Hd by lia.
  repeat (destruct Hd as [->|Hd]; [reflexivity|]). now subst.
Qed.

Lemma Atoi_minus_digits (d : N) (rest : string) :
  (d < 10)%N ->
  Atoi (String "-" (String (pretty_N_char d) rest))
  = match parse_digits (String (pretty_N_char d) rest) 0 with
    | Some n => if (minInt <=? - n) && (- n <=? maxInt) then Some (- n) else None
    | None => None
    end.
Proof. intros H. reflexivity. Qed.

Lemma in_range (z : Z) :
  minInt <= z <= maxInt -> (minInt <=? z) && (z <=? maxInt) = true.
Proof. intros [H1 H2]. apply andb_true_intro. split; now apply Z.leb_le. Qed.

Lemma Atoi_fmt_d (z : Z) : minInt <= z <= maxInt -> Atoi (fmt_d z) = Some z.
Proof.
  intros Hz. unfold fmt_d, pretty, pretty_Z.
  destruct z as [|p|p]; [reflexivity| |].
  - unfold pretty, pretty_positive, pretty, pretty_N.
    rewrite decide_False by discriminate.
    destruct (pretty_N_go_head (N.pos p) "" ltac:(lia)) as (d & rest & Hd & E).
    destruct (parse_digits_pretty_N_go (N.pos p)) as (k & _ & Hgo).
    specialize (Hgo "" 0). rewrite E in *. rewrite Atoi_digits, Hgo by assumption.
    cbn [parse_digits]. rewrite Z.mul_0_l, Z.add_0_l. cbn [Z.of_N].
    destruct ((minInt <=? Z.pos p) && (Z.pos p <=? maxInt)) eqn:R; [reflexivity|].
    now rewrite (in_range _ Hz) in R.
  - unfold pretty, pretty_positive, pretty, pretty_N.
    rewrite decide_False by discriminate.
    destruct (pretty_N_go_head (N.pos p) "" ltac:(lia)) as (d & rest & Hd & E).
    destruct (parse_digits_pretty_N_go (N.pos p)) as (k & _ & Hgo).
    specialize (Hgo "" 0). rewrite E in *.
    change ("-" +:+ String (pretty_N_char d) rest)
      with (String "-" (String (pretty_N_char d) rest)).
    rewrite Atoi_minus_digits, Hgo by assumption.
    cbn [parse_digits]. rewrite Z.mul_0_l, Z.add_0_l. cbn [Z.of_N].
    change (- Z.pos p) with (Z.neg p).
    destruct ((minInt <=? Z.neg p) && (Z.neg p <=? maxInt)) eqn:R; [reflexivity|].
    now rewrite (in_range _ Hz) in R.
Qed.

(** ** Splitting at the separator *)

Lemma Split_no_slash (s : string) : no_slash s -> Split s "/" = [s].
Proof.
  induction s as [|a s IH]; [reflexivity|]. intros H. cbn [Split].
  rewrite (proj2 (Ascii.eqb_neq _ _)) by (apply H; now left).
  rewrite IH; [reflexivity|]. intros c Hc. apply H. now right.
Qed.

Lemma Split_field (a b : string) :
  no_slash a -> Split (a +:+ String "/" b) "/" = a :: Split b "/".
Proof.
  induction a as [|x a IH]; intros H.
  - reflexivity.
  - change (String x a +:+ String "/" b) with (String x (a +:+ String "/" b)).
    cbn [Split]. rewrite (proj2 (Ascii.eqb_neq _ _)) by (apply H; now left).
    rewrite IH; [reflexivity|]. intros c Hc. apply H. now right.
Qed.

Lemma pretty_N_char_no_slash (d : N) : pretty_N_char d <> "/"%char.
Proof. unfold pretty_N_char. repeat case_match; discriminate. Qed.

Lemma pretty_N_go_no_slash (x : N) (s : string) :
  no_slash s -> no_slash (pretty_N_go x s).
Proof.
  revert s. induction (N.lt_wf_0 x) as [x _ IH]. intros s Hs.
  destruct (decide (x = 0)%N) as [->|Hx]; [now rewrite pretty_N_go_0|].
  rewrite pretty_N_go_step by lia. apply IH; [apply N.div_lt; lia|].
  intros c [<-|Hc]; [apply pretty_N_char_no_slash|now apply Hs].
Qed.

Lemma fmt_d_no_slash (z : Z) : no_slash (fmt_d z).
Proof.
  unfold fmt_d, pretty, pretty_Z. destruct z as [|p|p].
  - intros c [<-|[]]. discriminate.
  - unfold pretty, pretty_positive, pretty, pretty_N.
    rewrite decide_False by discriminate. apply pretty_N_go_no_slash. intros c [].
  - unfold pretty, pretty_positive, pretty, pretty_N.
    rewrite decide_False by discriminate.
    intros c [<-|Hc]; [discriminate|].
    revert c Hc. apply pretty_N_go_no_slash. intros c [].
Qed.

Lemma parse_counts_fmt_d (x y z : Z) :
  minInt <= x <= maxInt -> minInt <= y <= maxInt -> minInt <= z <= maxInt ->
  parse_counts (fmt_d x +:+ "/" +:+ fmt_d y +:+ "/" +:+ fmt_d z) = (x, y, z, None).
Proof.
  intros Hx Hy Hz. unfold parse_counts.
  change ("/" +:+ fmt_d y +:+ "/" +:+ fmt_d z)
    with (String "/" (fmt_d y +:+ "/" +:+ fmt_d z)).
  rewrite Split_field by apply fmt_d_no_slash.
  change ("/" +:+ fmt_d z) with (String "/" (fmt_d z)).
  rewrite Split_field by apply fmt_d_no_slash.
  rewrite Split_no_slash by apply fmt_d_no_slash.
  now rewrite !Atoi_fmt_d by assumption.
Qed.

(** ** The acknowledgement of a broadcast *)

Lemma parse_counts_error (payload : string) r tt' f e :
  parse_counts payload = (r, tt', f, Some e) ->
  exists msg, e = errorString (String "i" msg).
Proof.
  unfold parse_counts.
  destruct (Split payload "/") as [|p0 [|p1 [|p2 [|p3 l]]]];
    try (intros H; inversion H; eexists; reflexivity).
  destruct (Atoi p0); [|intros H; inversion H; eexists; reflexivity].
  destruct (Atoi p1); [|intros H; inversion H; eexists; reflexivity].
  destruct (Atoi p2); intros H; inversion H; eexists; reflexivity.
Qed.

(** C7: a [Broadcast] whose request is resolved, by the value frame of its
    slot, with the payload [3/5/1] returns (3, 5, 1) and no error; with
    [3/5] or [x/5/1] it returns a parse error.  In general the operation
    returns what [parse_counts] makes of the payload (it returns: no
    panic): a payload whose number of fields is not 3, or one of whose
    fields [Atoi] rejects, gives an error built by [fmt.Errorf], which is
    no [GhotiError] and does not read like one. *)
Theorem C7_broadcast_acknowledgement
    (slot : Z) (data payload : string) (t : Z) (k : nat) (c : Client) :
  0 <= slot <= 999 -> (String.length data <= 36)%nat ->
  closed (conn c) = false -> fault (conn c) = None -> done c = false ->
  mutex c = false -> t < 5 * Second ->
  fmt_03d slot +:+ payload <> User (Auth (config c)) ->
  (exists c',
      Broadcast slot data
        (mkSchedule (dispatching ("v" +:+ fmt_03d slot +:+ payload)) t k) c
      = Return (parse_counts payload) c')
  /\ Broadcast_result (recvResponse {| Data := payload; Error := None |})
     = parse_counts payload
  /\ parse_counts "3/5/1" = (3, 5, 1, None)
  /\ parse_counts "3/5"
     = (0, 0, 0, Some (errorString "invalid broadcast response format: 3/5"))
  /\ parse_counts "x/5/1" = (0, 0, 0, Some (errorString "invalid received count: x"))
  /\ (List.length (Split payload "/") <> 3%nat ->
      parse_counts payload
      = (0, 0, 0, Some (errorString ("invalid broadcast response format: " +:+ payload))))
  /\ (forall p0 p1 p2,
        Split payload "/" = [p0; p1; p2] ->
        Atoi p0 = None \/ Atoi p1 = None \/ Atoi p2 = None ->
        exists msg, parse_counts payload = (0, 0, 0, Some (errorString msg)))
  /\ (forall r tt' f e (g : GhotiError),
        parse_counts payload = (r, tt', f, Some e) ->
        e <> ghotiError g /\ error_Error e <> error_Error (ghotiError g)).
Proof.
  intros Hs Hd Hopen Hok Hrun Hfree Ht Hne.
  split.
  { destruct (Broadcast_resolved slot payload t k c Hs Hopen Hok Hrun Ht Hne Hfree
                data Hd) as (c' & H & _). now exists c'. }
  split; [reflexivity|].
  split; [reflexivity|]. split; [reflexivity|]. split; [reflexivity|].
  split.
  { intros Hlen. unfold parse_counts.
    destruct (Split payload "/") as [|p0 [|p1 [|p2 [|p3 l]]]]; try reflexivity.
    now contradiction Hlen. }
  split.
  { intros p0 p1 p2 Hsplit Hbad. unfold parse_counts. rewrite Hsplit.
    destruct (Atoi p0); [|eexists; reflexivity].
    destruct (Atoi p1); [|eexists; reflexivity].
    destruct (Atoi p2); [|eexists; reflexivity].
    destruct Hbad as [?|[?|?]]; discriminate. }
  intros r tt' f e g He. apply parse_counts_error in He as [msg ->].
  split; discriminate.
Qed.

Lemma C7_broadcast_acknowledgement_witness :
  exists c',
    Broadcast 1 "hello" (mkSchedule (dispatching "v0013/5/1") 0 0) fresh_client
    = Return (3, 5, 1, None) c'.
Proof.
  destruct (C7_broadcast_acknowledgement 1 "hello" "3/5/1" 0 0%nat fresh_client
              ltac:(lia) ltac:(simpl; lia) eq_refl eq_refl eq_refl eq_refl
              ltac:(reflexivity) ltac:(discriminate)) as ((c' & H) & _).
  exists c'. exact H.
Defined.

(** C10: [Broadcast] checks no sign.  Whenever the payload of the
    resolution splits at [/] into three fields that [Atoi] accepts, the
    operation returns the three values, negative ones included, and no
    error: [-1/5/2] gives (-1, 5, 2) and [+3/5/1] gives (3, 5, 1), and
    the decimal rendering of any three values of type [int], whatever
    their signs, comes back as those values. *)
Theorem C10_broadcast_counts_unchecked
    (slot : Z) (payload p0 p1 p2 : string) (received total failed : Z) (c : Client) :
  Split payload "/" = [p0; p1; p2] ->
  Atoi p0 = Some received -> Atoi p1 = Some total -> Atoi p2 = Some failed ->
  Broadcast_result (recvResponse {| Data := payload; Error := None |})
  = (received, total, failed, None)
  /\ (forall (data : string) (t : Z) (k : nat),
        0 <= slot <= 999 -> (String.length data <= 36)%nat ->
        closed (conn c) = false -> fault (conn c) = None -> done c = false ->
        mutex c = false -> t < 5 * Second ->
        fmt_03d slot +:+ payload <> User (Auth (config c)) ->
        exists c',
          Broadcast slot data
            (mkSchedule (dispatching ("v" +:+ fmt_03d slot +:+ payload)) t k) c
          = Return (received, total, failed, None) c')
  /\ Broadcast_result (recvResponse {| Data := "-1/5/2"; Error := None |})
     = (-1, 5, 2, None)
  /\ Broadcast_result (recvResponse {| Data := "+3/5/1"; Error := None |})
     = (3, 5, 1, None)
  /\ (forall x y z : Z,
        minInt <= x <= maxInt -> minInt <= y <= maxInt -> minInt <= z <= maxInt ->
        Broadcast_result
          (recvResponse {| Data := fmt_d x +:+ "/" +:+ fmt_d y +:+ "/" +:+ fmt_d z;
                           Error := None |})
        = (x, y, z, None)).
Proof.
  intros Hsplit H0 H1 H2.
  assert (Hp : parse_counts payload = (received, total, failed, None))
    by (unfold parse_counts; now rewrite Hsplit, H0, H1, H2).
  split; [exact Hp|].
  split; [|split; [reflexivity|split; [reflexivity|]]].
  2:{ intros x y z Hx Hy Hz. cbn [Broadcast_result Error Data].
      now apply parse_counts_fmt_d. }
  intros data t k Hs Hd Hopen Hok Hrun Hfree Ht Hne.
  destruct (Broadcast_resolved slot payload t k c Hs Hopen Hok Hrun Ht Hne Hfree data Hd)
    as (c' & H & _).
  exists c'. now rewrite H, Hp.
Qed.

Lemma C10_broadcast_counts_unchecked_witness :
  Broadcast_result (recvResponse {| Data := "-7/-8/-9"; Error := None |})
  = (-7, -8, -9, None).
Proof.
  destruct (C10_broadcast_counts_unchecked 1 "-7/-8/-9" "-7" "-8" "-9" (-7) (-8) (-9)
              fresh_client eq_refl eq_refl eq_refl eq_refl) as [H _].
  exact H.
Defined.
(** ** The error-code table at the caller *)

(** C8: [NewGhotiError] gives each code of the table its fixed message
    (the table's wording with a capital initial) and any other code the
    message [Unknown error]; the code is carried as received.  A frame
    [e007] dispatched while a [Read] waits makes that [Read] return the
    structured error with code 007 and message [Slot locked]. *)
Theorem C8_error_code_table (slot : Z) (t : Z) (k : nat) (c : Client) :
  (NewGhotiError "001" = {| Code := "001"; Message := "Invalid command" |}
   /\ NewGhotiError "002" = {| Code := "002"; Message := "Invalid slot number" |}
   /\ NewGhotiError "003" = {| Code := "003"; Message := "Invalid data length" |}
   /\ NewGhotiError "004" = {| Code := "004"; Message := "Authentication required" |}
   /\ NewGhotiError "005" = {| Code := "005"; Message := "Invalid credentials" |}
   /\ NewGhotiError "006" = {| Code := "006"; Message := "Permission denied" |}
   /\ NewGhotiError "007" = {| Code := "007"; Message := "Slot locked" |}
   /\ NewGhotiError "008" = {| Code := "008"; Message := "No tokens available" |}
   /\ NewGhotiError "009" = {| Code := "009"; Message := "Internal server error" |})
  /\ (forall code : string,
        ~ In code ["001"; "002"; "003"; "004"; "005"; "006"; "007"; "008"; "009"] ->
        NewGhotiError code = {| Code := code; Message := "Unknown error" |})
  /\ List.map (fun code => lower (Message (NewGhotiError code)))
       ["001"; "002"; "003"; "004"; "005"; "006"; "007"; "008"; "009"; "010"]
     = ["invalid command"; "invalid slot number"; "invalid data length";
        "authentication required"; "invalid credentials"; "permission denied";
        "slot locked"; "no tokens available"; "internal server error";
        "unknown error"]
  /\ (0 <= slot <= 999 ->
      closed (conn c) = false -> fault (conn c) = None -> done c = false ->
      mutex c = false -> all_unresolved c = true -> t < 5 * Second ->
      exists c',
        Read slot (mkSchedule (dispatching "e007") t k) c
        = Return ("", Some (ghotiError {| Code := "007"; Message := "Slot locked" |})) c'
        /\ pendingRequests c' = ∅).
Proof.
  split; [repeat split|].
  split; [exact NewGhotiError_unknown|].
  split; [reflexivity|].
  intros Hs Hopen Hok Hrun Hfree Hun Ht.
  unfold Read. rewrite Read_start_waiting by assumption.
  cbn [and_then await interference elapsed pick].
  set (c1 := registered slot ("r" +:+ fmt_03d slot +:+ LF) c).
  destruct (error_frame_fanout "007" "" c1 eq_refl ltac:(discriminate)
              ltac:(discriminate) eq_refl)
    as (c' & Hrun' & Hempty & Hin & _ & Hdone & _ & _ & Hfree').
  { apply unresolved_registered. now apply all_unresolved_unresolved. }
  unfold dispatching. change ("e" +:+ "007" +:+ "") with "e007" in Hrun'.
  rewrite Hrun'. cbn [state_of].
  erewrite select_response; [| |rewrite Hdone; exact Hrun|exact Ht].
  2:{ apply (Hin slot). subst c1. cbn [registered pendingRequests].
      apply lookup_insert_eq. }
  cbn [and_then]. rewrite cleanup_free by exact Hfree'.
  cbn [and_then Read_result Error Data]. eexists. split; [reflexivity|].
  cbn. rewrite Hempty. apply delete_empty.
Qed.

Lemma C8_error_code_table_witness :
  exists c',
    Read 1 (mkSchedule (dispatching "e007") 0 0) two_waiting
    = Return ("", Some (ghotiError {| Code := "007"; Message := "Slot locked" |})) c'
    /\ pendingRequests c' = ∅.
Proof.
  destruct (C8_error_code_table 1 0 0%nat two_waiting) as (_ & _ & _ & H).
  apply H; try reflexivity. lia.
Defined.

(** ** After [Close] *)

(** A [Close] that returns has closed the transport. *)
Lemma Close_returned (others : Client -> outcome unit) (c : Client) err c' :
  Close others c = Return err c' -> closed (conn c') = true.
Proof.
  unfold Close. destruct (done c); [discriminate|].
  destruct (wg_Wait others (set_done true c)) as [[] c1|c1|m c1];
    cbn [and_then]; try discriminate.
  unfold Conn_Close. destruct (closed (conn c1)) eqn:E;
    intros H; inversion H; subst; cbn; [exact E|reflexivity].
Qed.

Section ClosedTransport.

Variables (slot : Z) (c : Client).
Hypothesis slot_valid : 0 <= slot <= 999.
Hypothesis conn_closed : closed (conn c) = true.
Hypothesis mutex_free : mutex c = false.

Lemma Read_start_closed :
  Read_start slot c
  = Return (Finished ("", Some (Errorf_w "failed to send read command: " net_ErrClosed)))
      (send_failed slot c).
Proof using slot_valid conn_closed mutex_free.
  unfold Read_start, make_chan. rewrite (valid_slot_check slot slot_valid).
  rewrite register_free by exact mutex_free. cbn [and_then].
  unfold send, Conn_Write. cbn [conn set_pendingRequests set_chans].
  rewrite conn_closed. rewrite cleanup_free; [|exact mutex_free].
  reflexivity.
Qed.

Lemma Write_start_closed (data : string) :
  (String.length data <= 36)%nat ->
  Write_start slot data c
  = Return (Finished (Some (Errorf_w "failed to send write command: " net_ErrClosed)))
      (send_failed slot c).
Proof using slot_valid conn_closed mutex_free.
  intros Hd. unfold Write_start, make_chan.
  rewrite (valid_slot_check slot slot_valid), (proj2 (Nat.ltb_ge _ _) Hd).
  rewrite register_free by exact mutex_free. cbn [and_then].
  unfold send, Conn_Write. cbn [conn set_pendingRequests set_chans].
  rewrite conn_closed. rewrite cleanup_free; [|exact mutex_free].
  reflexivity.
Qed.

Lemma Broadcast_start_closed (data : string) :
  (String.length data <= 36)%nat ->
  Broadcast_start slot data c
  = Return (Finished (0, 0, 0,
                      Some (Errorf_w "failed to send broadcast command: " net_ErrClosed)))
      (send_failed slot c).
Proof using slot_valid conn_closed mutex_free.
  intros Hd. unfold Broadcast_start, make_chan.
  rewrite (valid_slot_check slot slot_valid), (proj2 (Nat.ltb_ge _ _) Hd).
  rewrite register_free by exact mutex_free. cbn [and_then].
  unfold send, Conn_Write. cbn [conn set_pendingRequests set_chans].
  rewrite conn_closed. rewrite cleanup_free; [|exact mutex_free].
  reflexivity.
Qed.

Lemma send_failed_facts :
  conn (send_failed slot c) = conn c
  /\ pendingRequests (send_failed slot c) !! slot = None
  /\ done (send_failed slot c) = done c
  /\ mutex (send_failed slot c) = mutex c.
Proof. unfold send_failed. repeat split. apply deregister_lookup. Qed.

End ClosedTransport.

(** C4, as the code has it: once a [Close] has returned, whatever the
    other goroutines did while it sat in [wg.Wait()], and with the mutex
    free, [Read], [Write] and [Broadcast] with valid arguments come back
    before their [select], hence under every schedule and with no wait:
    the write to the closed transport fails, and the operation returns
    that failure wrapped ([failed to send ... command]), which is a
    closed-connection error.  Nothing is written and the slot is not left
    in the registry.  With a slot out of range the operations return
    their validation error instead. *)
Theorem C4_operations_after_close
    (others : Client -> outcome unit) (c : Client) (err : option error) (c' : Client)
    (slot : Z) (data : string) :
  Close others c = Return err c' ->
  mutex c' = false ->
  0 <= slot <= 999 -> (String.length data <= 36)%nat ->
  let e_read := Errorf_w "failed to send read command: " net_ErrClosed in
  let e_write := Errorf_w "failed to send write command: " net_ErrClosed in
  let e_broadcast := Errorf_w "failed to send broadcast command: " net_ErrClosed in
  closed_error e_read /\ closed_error e_write /\ closed_error e_broadcast
  /\ (exists c'',
       Read_start slot c' = Return (Finished ("", Some e_read)) c''
       /\ Write_start slot data c' = Return (Finished (Some e_write)) c''
       /\ Broadcast_start slot data c' = Return (Finished (0, 0, 0, Some e_broadcast)) c''
       /\ (forall w, Read slot w c' = Return ("", Some e_read) c'')
       /\ (forall w, Write slot data w c' = Return (Some e_write) c'')
       /\ (forall w, Broadcast slot data w c' = Return (0, 0, 0, Some e_broadcast) c'')
       /\ conn c'' = conn c' /\ pendingRequests c'' !! slot = None)
  /\ (forall (bad : Z) (w : schedule),
        bad < 0 \/ 999 < bad ->
        let e := errorString ("invalid slot number: " +:+ fmt_d bad) in
        Read bad w c' = Return ("", Some e) c'
        /\ Write bad data w c' = Return (Some e) c'
        /\ Broadcast bad data w c' = Return (0, 0, 0, Some e) c').
Proof.
  intros Hclose Hfree Hs Hd e_read e_write e_broadcast.
  apply Close_returned in Hclose.
  split; [now right|]. split; [now right|]. split; [now right|].
  split.
  2:{ intros bad w Hbad e. apply invalid_slot_check in Hbad.
      unfold Read, Write, Broadcast, Read_start, Write_start, Broadcast_start.
      rewrite Hbad. repeat split. }
  exists (send_failed slot c').
  split; [apply Read_start_closed; assumption|].
  split; [apply Write_start_closed; assumption|].
  split; [apply Broadcast_start_closed; assumption|].
  unfold Read, Write, Broadcast.
  rewrite Read_start_closed, Write_start_closed, Broadcast_start_closed by assumption.
  repeat split. apply deregister_lookup.
Qed.

Lemma C4_operations_after_close_witness :
  exists c'',
    forall w,
      Read 1 w (state_of (Client_Close [ReadLine LF] fresh_client))
      = Return ("", Some (wrapError
                            "failed to send read command: use of closed network connection"
                            (errorString "use of closed network connection"))) c''.
Proof.
  destruct (C4_operations_after_close (listen_reading [ReadLine LF]) fresh_client None
              (state_of (Client_Close [ReadLine LF] fresh_client)) 1 "hello"
              eq_refl eq_refl ltac:(lia) ltac:(simpl; lia))
    as (_ & _ & _ & (c'' & _ & _ & _ & HR & _) & _).
  exists c''. exact HR.
Defined.

(** C4 as stated fails for a call with an invalid slot: after a [Close]
    that has returned, [Read 1000] returns the validation error, which is
    no closed error. *)
Lemma C4_invalid_slot_after_close :
  exists c',
    Client_Close [ReadLine LF] fresh_client = Return None c'
    /\ closed (conn c') = true
    /\ (forall w,
          Read 1000 w c' = Return ("", Some (errorString "invalid slot number: 1000")) c')
    /\ ~ closed_error (errorString "invalid slot number: 1000").
Proof.
  eexists. split; [vm_compute; reflexivity|].
  split; [reflexivity|]. split; [reflexivity|].
  intros [H|H]; discriminate.
Qed.
(** ** Runs of the whole client *)

(** [Auth] writes the two credential frames and registers nothing. *)
Example Auth_writes_credentials :
  exists c',
    Client_Auth fresh_client = (None, c')
    /\ written (conn c') = ["utest_a_service" +:+ LF; "p67890" +:+ LF]
    /\ pendingRequests c' = ∅.
Proof. eexists. split; [reflexivity|]. split; reflexivity. Qed.

(** A broadcast frame reaches the handler registered last, and is dropped
    when there is none. *)
Example broadcast_frame_dispatch :
  processMessage "a002hello" fresh_client = Return tt fresh_client
  /\ exists c1 c2,
       SetBroadcastHandler (Some 5%nat) fresh_client = Return tt c1
       /\ processMessage "a002hello" c1 = Return tt c2
       /\ handled c2 = [(5%nat, 2, "hello")].
Proof.
  split; [reflexivity|]. eexists. eexists.
  split; [reflexivity|]. split; reflexivity.
Qed.

(** The listener resolves the two waiting requests frame by frame, skips
    the empty line, and stays in [ReadString] when nothing more comes. *)
Example listener_run :
  exists c',
    listen [ReadLine ("v001abc" +:+ LF); ReadLine LF; ReadLine ("v007" +:+ LF)]
      two_waiting
    = Parked c'
    /\ chans c' = [[{| Data := "abc"; Error := None |}];
                   [{| Data := ""; Error := None |}]]
    /\ done c' = false /\ mutex c' = false.
Proof. eexists. split; [vm_compute; reflexivity|]. repeat split. Qed.

(** [Close] made by a user: the listener leaves its loop at the next line
    and the transport is closed; with nothing more to read [Close] stays
    in [wg.Wait()]; a read error after [close(c.done)] makes the listener
    call [Close] again, which panics. *)
Example user_close_runs :
  (exists c', Client_Close [ReadLine ("v001abc" +:+ LF)] two_waiting = Return None c'
              /\ closed (conn c') = true /\ done c' = true /\ wg c' = 0%nat)
  /\ (exists c', Client_Close [] two_waiting = Parked c'
                 /\ closed (conn c') = false /\ done c' = true)
  /\ (exists c', Client_Close [ReadErr (errorString "EOF")] two_waiting
                 = Panic "close of closed channel" c').
Proof.
  split; [|split].
  - eexists. split; [vm_compute; reflexivity|]. repeat split.
  - eexists. split; [vm_compute; reflexivity|]. repeat split.
  - eexists. vm_compute. reflexivity.
Qed.

(** An error frame behind a value that its waiter has not yet received:
    the send in the loop parks with the mutex held, and the clean-up of a
    caller parks behind it. *)
Example error_frame_behind_unread_value :
  exists c1 c2,
    processMessage "v001abc" two_waiting = Return tt c1
    /\ processMessage "e007" c1 = Parked c2
    /\ mutex c2 = true
    /\ cleanup 1 c2 = Parked c2.
Proof.
  eexists. eexists. split; [vm_compute; reflexivity|].
  split; [vm_compute; reflexivity|]. split; reflexivity.
Qed.
(** * Further properties of the code *)

(** ** The dispatcher: broadcast frames and malformed frames *)

Lemma chan_send_fields (ch : nat) (r : Response) (c : Client) :
  let c' := state_of (chan_send ch r c) in
  done c' = done c /\ conn c' = conn c /\ mutex c' = mutex c
  /\ pendingRequests c' = pendingRequests c /\ stdout c' = stdout c
  /\ wg c' = wg c /\ config c' = config c.
Proof.
  unfold chan_send. destruct (chans c !! ch) as [buf|]; [|now repeat split].
  destruct (List.length buf <? 1)%nat; now repeat split.
Qed.

Lemma forward_to_all_done (entries : list (Z * nat)) (code : string) (c : Client) :
  done (state_of (forward_to_all entries code c)) = done c.
Proof.
  revert c. induction entries as [|[slot ch] rest IH]; intros c; [reflexivity|].
  cbn [forward_to_all].
  pose proof (chan_send_fields ch
                {| Data := ""; Error := Some (ghotiError (NewGhotiError code)) |} c)
    as (Hd & _).
  destruct (chan_send ch _ c) as [[] c1|c1|m c1]; cbn [and_then state_of] in *;
    try exact Hd.
  now rewrite IH.
Qed.

Section BroadcastFrames.

Variables (slotStr data : string) (slot : Z) (c : Client).
Hypothesis slotStr_len : String.length slotStr = 3%nat.
Hypothesis slotStr_val : Atoi slotStr = Some slot.
Hypothesis mutex_free : mutex c = false.

Lemma processMessage_broadcast :
  processMessage ("a" +:+ slotStr +:+ data) c
  = Return tt match broadcastHandler c with
              | Some h => set_handled (handled c ++ [(h, slot, data)]) c
              | None => c
              end.
Proof using slotStr_len slotStr_val mutex_free.
  change ("a" +:+ slotStr +:+ data) with (String "a" (slotStr +:+ data)).
  unfold processMessage. change (Ascii.eqb "a" "v") with false.
  change (Ascii.eqb "a" "e") with false. change (Ascii.eqb "a" "a") with true.
  cbv iota. unfold handleBroadcastMessage.
  rewrite frame_length, frame_slot, frame_data by assumption.
  rewrite slotStr_val, (Lock_free c mutex_free). cbn [and_then].
  change (broadcastHandler (set_mutex true c)) with (broadcastHandler c).
  rewrite (Unlock_locked c mutex_free). now destruct (broadcastHandler c).
Qed.

End BroadcastFrames.

(** X1: a broadcast frame [a] + 3-byte slot + payload is handed to the
    handler registered, once, with the slot parsed and the payload, and to
    nobody else: registry, channels, [done] and transport stay as they
    are, also when a request is pending on that very slot.  Without a
    handler the frame is dropped and the client is unchanged. *)
Theorem X1_broadcast_frame_reaches_only_the_handler
    (slotStr data : string) (slot : Z) (c : Client) :
  String.length slotStr = 3%nat -> Atoi slotStr = Some slot -> mutex c = false ->
  (broadcastHandler c = None ->
     processMessage ("a" +:+ slotStr +:+ data) c = Return tt c)
  /\ (forall h, broadcastHandler c = Some h ->
        exists c',
          processMessage ("a" +:+ slotStr +:+ data) c = Return tt c'
          /\ handled c' = handled c ++ [(h, slot, data)]
          /\ pendingRequests c' = pendingRequests c /\ chans c' = chans c
          /\ done c' = done c /\ conn c' = conn c /\ stdout c' = stdout c).
Proof.
  intros Hlen Hval Hfree.
  rewrite (processMessage_broadcast slotStr data slot c Hlen Hval Hfree).
  split.
  - now intros ->.
  - intros h ->. eexists. split; [reflexivity|]. now repeat split.
Qed.

Lemma X1_broadcast_frame_witness :
  processMessage "a002hello" two_waiting = Return tt two_waiting.
Proof.
  destruct (X1_broadcast_frame_reaches_only_the_handler "002" "hello" 2 two_waiting
              eq_refl eq_refl eq_refl) as [H _].
  now apply H.
Defined.

(** X2: the client has one handler, and the registration made last is the
    one in force: after [SetBroadcastHandler h1] and then
    [SetBroadcastHandler h2] a broadcast frame is handed to [h2] alone, and
    after [SetBroadcastHandler nil] it is dropped.  Registering changes
    nothing else of the client. *)
Theorem X2_last_handler_wins
    (h1 h2 : option BroadcastHandler) (slotStr data : string) (slot : Z) (c : Client) :
  String.length slotStr = 3%nat -> Atoi slotStr = Some slot -> mutex c = false ->
  exists c1 c2 c3,
    SetBroadcastHandler h1 c = Return tt c1
    /\ SetBroadcastHandler h2 c1 = Return tt c2
    /\ c2 = set_broadcastHandler h2 c
    /\ processMessage ("a" +:+ slotStr +:+ data) c2 = Return tt c3
    /\ handled c3
       = handled c ++ match h2 with Some h => [(h, slot, data)] | None => [] end.
Proof.
  intros Hlen Hval Hfree.
  assert (Hset : forall h c0, mutex c0 = false ->
            SetBroadcastHandler h c0 = Return tt (set_broadcastHandler h c0)).
  { intros h c0 H0. unfold SetBroadcastHandler. rewrite (Lock_free c0 H0).
    cbn [and_then]. f_equal. destruct c0. cbn in *. now subst. }
  exists (set_broadcastHandler h1 c), (set_broadcastHandler h2 c).
  eexists. split; [now apply Hset|]. split; [now rewrite Hset|].
  split; [reflexivity|].
  rewrite (processMessage_broadcast slotStr data slot _ Hlen Hval) by exact Hfree.
  split; [reflexivity|]. cbn. destruct h2; cbn; [reflexivity|].
  now rewrite app_nil_r.
Qed.

Lemma X2_last_handler_wins_witness :
  exists c2 c3,
    SetBroadcastHandler (Some 2%nat) (set_broadcastHandler (Some 1%nat) fresh_client)
    = Return tt c2
    /\ processMessage "a002hello" c2 = Return tt c3
    /\ handled c3 = [(2%nat, 2, "hello")].
Proof.
  destruct (X2_last_handler_wins (Some 1%nat) (Some 2%nat) "002" "hello" 2 fresh_client
              eq_refl eq_refl eq_refl) as (c1 & c2 & c3 & H1 & H2 & -> & H3 & H4).
  exists (set_broadcastHandler (Some 2%nat) fresh_client), c3.
  split; [reflexivity|]. split; [exact H3|exact H4].
Defined.

(** ** Malformed frames *)

(** X3: a frame with tag [v], [e] or [a] that is shorter than 4 bytes (for
    [v]: other than the authentication echo) is a fatal error: it is
    printed with the whole frame in the message, [done] is closed and the
    listener stays in the [Close] it called. *)
Theorem X3_short_frame_is_fatal (rest : string) (c : Client) :
  (String.length rest < 3)%nat -> done c = false -> wg c <> 0%nat ->
  let fatal (text : string) :=
    Parked (A := unit)
      (set_done true (Printf ("Fatal client error: " +:+ text +:+ LF) c)) in
  (rest <> User (Auth (config c)) ->
   processMessage (String "v" rest) c
   = fatal ("invalid value response format: " +:+ String "v" rest))
  /\ processMessage (String "e" rest) c
     = fatal ("invalid error response format: " +:+ String "e" rest)
  /\ processMessage (String "a" rest) c
     = fatal ("invalid broadcast message format: " +:+ String "a" rest).
Proof.
  intros Hlen Hd Hw fatal.
  assert (Hshort : forall tag, (String.length (String tag rest) <? 4)%nat = true)
    by (intros tag; apply Nat.ltb_lt; cbn; lia).
  split; [|split].
  - intros Hne. unfold processMessage. change (Ascii.eqb "v" "v") with true. cbv iota.
    unfold handleValueResponse.
    change (string_from 1 (String "v" rest)) with rest.
    rewrite (String_eqb_neq _ _ Hne), andb_false_r, Hshort.
    now apply handleFatalError_parks.
  - unfold processMessage. change (Ascii.eqb "e" "v") with false.
    change (Ascii.eqb "e" "e") with true. cbv iota.
    unfold handleErrorResponse. rewrite Hshort. now apply handleFatalError_parks.
  - unfold processMessage. change (Ascii.eqb "a" "v") with false.
    change (Ascii.eqb "a" "e") with false. change (Ascii.eqb "a" "a") with true.
    cbv iota. unfold handleBroadcastMessage. rewrite Hshort.
    now apply handleFatalError_parks.
Qed.

Lemma X3_short_frame_witness :
  processMessage "e07" fresh_client
  = Parked (set_done true
              (Printf ("Fatal client error: invalid error response format: e07" +:+ LF)
                 fresh_client)).
Proof.
  destruct (X3_short_frame_is_fatal "07" fresh_client ltac:(simpl; lia) eq_refl
              ltac:(discriminate)) as (_ & H & _).
  exact H.
Defined.

(** X4: a value or broadcast frame of 4 bytes or more whose 3-byte slot
    field [strconv.Atoi] rejects (for [v]: other than the echo) is a fatal
    error naming the field; it is decided before the registry or the
    handler is looked at, so nothing else of the client changes. *)
Theorem X4_unparsable_slot_field_is_fatal (slotStr data : string) (c : Client) :
  String.length slotStr = 3%nat -> Atoi slotStr = None ->
  done c = false -> wg c <> 0%nat ->
  let fatal (text : string) :=
    Parked (A := unit)
      (set_done true (Printf ("Fatal client error: " +:+ text +:+ LF) c)) in
  (slotStr +:+ data <> User (Auth (config c)) ->
   processMessage ("v" +:+ slotStr +:+ data) c
   = fatal ("invalid slot number in response: " +:+ slotStr))
  /\ processMessage ("a" +:+ slotStr +:+ data) c
     = fatal ("invalid slot number in broadcast: " +:+ slotStr).
Proof.
  intros Hlen Hval Hd Hw fatal. split.
  - intros Hne.
    change ("v" +:+ slotStr +:+ data) with (String "v" (slotStr +:+ data)).
    unfold processMessage. change (Ascii.eqb "v" "v") with true. cbv iota.
    unfold handleValueResponse.
    change (string_from 1 (String "v" (slotStr +:+ data))) with (slotStr +:+ data).
    rewrite (String_eqb_neq _ _ Hne), andb_false_r.
    rewrite frame_length, frame_slot by assumption. rewrite Hval.
    now apply handleFatalError_parks.
  - change ("a" +:+ slotStr +:+ data) with (String "a" (slotStr +:+ data)).
    unfold processMessage. change (Ascii.eqb "a" "v") with false.
    change (Ascii.eqb "a" "e") with false. change (Ascii.eqb "a" "a") with true.
    cbv iota. unfold handleBroadcastMessage.
    rewrite frame_length, frame_slot by assumption. rewrite Hval.
    now apply handleFatalError_parks.
Qed.

Lemma X4_unparsable_slot_field_witness :
  processMessage "v1x2abc" two_waiting
  = Parked (set_done true
              (Printf ("Fatal client error: invalid slot number in response: 1x2" +:+ LF)
                 two_waiting)).
Proof.
  destruct (X4_unparsable_slot_field_is_fatal "1x2" "abc" two_waiting eq_refl eq_refl
              eq_refl ltac:(discriminate)) as [H _].
  apply H. discriminate.
Defined.

(** ** [done] stays closed *)

Lemma Lock_done (c : Client) : done (state_of (Lock c)) = done c.
Proof. unfold Lock. now destruct (mutex c). Qed.

Lemma handleValueResponse_done (message : string) (c : Client) :
  done c = true -> done (state_of (handleValueResponse message c)) = true.
Proof.
  intros Hd. unfold handleValueResponse.
  destruct (_ && _); [exact Hd|].
  destruct (String.length message <? 4)%nat; [apply handleFatalError_done|].
  destruct (Atoi _) as [slot|]; [|apply handleFatalError_done].
  unfold Lock. destruct (mutex c); [exact Hd|]. cbn [and_then].
  destruct (pendingRequests _ !! slot) as [ch|]; [|apply handleFatalError_done].
  now destruct (chan_send_fields ch {| Data := string_from 4 message; Error := None |}
                  (Unlock (set_mutex true c))) as (-> & _).
Qed.

Lemma handleErrorResponse_done (message : string) (c : Client) :
  done c = true -> done (state_of (handleErrorResponse message c)) = true.
Proof.
  intros Hd. unfold handleErrorResponse.
  destruct (String.length message <? 4)%nat; [apply handleFatalError_done|].
  destruct (_ || _); [exact Hd|].
  unfold Lock. destruct (mutex c); [exact Hd|]. cbn [and_then].
  pose proof (forward_to_all_done
                (map_to_list (pendingRequests (set_mutex true c)))
                (string_slice 1 4 message) (set_mutex true c)) as H.
  destruct (forward_to_all _ _ _) as [[] c1|c1|m c1]; cbn in *; congruence.
Qed.

Lemma handleBroadcastMessage_done (message : string) (c : Client) :
  done c = true -> done (state_of (handleBroadcastMessage message c)) = true.
Proof.
  intros Hd. unfold handleBroadcastMessage.
  destruct (String.length message <? 4)%nat; [apply handleFatalError_done|].
  destruct (Atoi _) as [slot|]; [|apply handleFatalError_done].
  unfold Lock. destruct (mutex c); [exact Hd|]. cbn [and_then].
  now destruct (broadcastHandler _).
Qed.

Lemma processMessage_done (message : string) (c : Client) :
  done c = true -> done (state_of (processMessage message c)) = true.
Proof.
  intros Hd. unfold processMessage. destruct message as [|tag rest]; [exact Hd|].
  destruct (Ascii.eqb tag "v"); [now apply handleValueResponse_done|].
  destruct (Ascii.eqb tag "e"); [now apply handleErrorResponse_done|].
  destruct (Ascii.eqb tag "a"); [now apply handleBroadcastMessage_done|].
  apply handleFatalError_done.
Qed.

Lemma wg_Done_done (c : Client) : done (state_of (wg_Done c)) = done c.
Proof. unfold wg_Done. now destruct (wg c). Qed.

Lemma and_then_wg_Done_done (o : outcome unit) :
  done (state_of o) = true ->
  done (state_of (do (_, c1) <- o ; wg_Done c1)) = true.
Proof. destruct o as [[] c1|c1|m c1]; cbn; trivial. now rewrite wg_Done_done. Qed.

(** The listener leaves [done] closed once a frame has closed it, and
    never runs past such a frame. *)
Lemma listen_reading_done (inbound : list ReadResult) (c : Client) :
  done c = true -> done (state_of (listen_reading inbound c)) = true.
Proof.
  intros Hd. destruct inbound as [|[line|err] rest]; cbn [listen_reading].
  - exact Hd.
  - assert (Ho : done (state_of
                         (if (String.length (TrimSuffix_lf line) =? 0)%nat
                          then Return tt c
                          else processMessage (TrimSuffix_lf line) c)) = true).
    { destruct (_ =? _)%nat; [exact Hd|now apply processMessage_done]. }
    destruct (if (String.length (TrimSuffix_lf line) =? 0)%nat then _ else _)
      as [[] c1|c1|m c1]; cbn in *; trivial.
    rewrite Ho. now rewrite wg_Done_done.
  - apply and_then_wg_Done_done, handleFatalError_done.
Qed.

(** X5: nothing reopens [done]: once it is closed it is closed after every
    frame the dispatcher handles, whatever the frame, and after every run
    of the listener's loop, however the call ends. *)
Theorem X5_done_stays_closed (message : string) (inbound : list ReadResult) (c : Client) :
  done c = true ->
  done (state_of (processMessage message c)) = true
  /\ done (state_of (listen_reading inbound c)) = true
  /\ done (state_of (listen inbound c)) = true.
Proof.
  intros Hd. split; [now apply processMessage_done|].
  split; [now apply listen_reading_done|].
  unfold listen. rewrite Hd. now rewrite wg_Done_done.
Qed.

Lemma X5_done_stays_closed_witness :
  done (state_of (processMessage "e007" (set_done true two_waiting))) = true.
Proof.
  destruct (X5_done_stays_closed "e007" [] (set_done true two_waiting) eq_refl)
    as [H _].
  exact H.
Defined.

(** ** [Close] and the listener *)

Lemma Close_done_closed (others : Client -> outcome unit) (c : Client) :
  done c = true -> Close others c = Panic "close of closed channel" c.
Proof. intros H. unfold Close. now rewrite H. Qed.

Lemma Client_Close_returned (inbound : list ReadResult) (c : Client) e c' :
  Client_Close inbound c = Return e c' ->
  closed (conn c') = true /\ done c' = true /\ wg c' = 0%nat.
Proof.
  intros H. split; [now apply Close_returned in H|].
  revert H. unfold Client_Close, Close. destruct (done c); [discriminate|].
  unfold wg_Wait. change (wg (set_done true c)) with (wg c).
  destruct (wg c =? 0)%nat eqn:Hw.
  - cbn [and_then]. destruct (Conn_Close _) as [e1 k]. intros [= <- <-]. cbn.
    split; [reflexivity|now apply Nat.eqb_eq].
  - pose proof (listen_reading_done inbound (set_done true c) eq_refl) as Hd.
    destruct (listen_reading inbound (set_done true c)) as [[] c1|c1|m c1];
      cbn [and_then state_of] in *; try discriminate.
    destruct (wg c1 =? 0)%nat eqn:Hw1; cbn [and_then]; [|discriminate].
    destruct (Conn_Close _) as [e1 k]. intros [= <- <-]. cbn.
    split; [exact Hd|now apply Nat.eqb_eq].
Qed.

(** X6: [Close] can be called once.  After any fatal error (the listener
    has closed [done] in [handleFatalError]) a [Close] made by the user
    panics in [close(c.done)], and so does a second [Close] after one that
    has returned; the client is left as it was. *)
Theorem X6_second_close_panics
    (others : Client -> outcome unit) (err : error) (inbound : list ReadResult)
    (c : Client) :
  Close others (state_of (handleFatalError err c))
  = Panic "close of closed channel" (state_of (handleFatalError err c))
  /\ (forall e c',
        Client_Close inbound c = Return e c' ->
        Close others c' = Panic "close of closed channel" c').
Proof.
  split.
  - apply Close_done_closed, handleFatalError_done.
  - intros e c' H. apply Close_done_closed.
    now apply Client_Close_returned in H as (_ & Hd & _).
Qed.

Lemma X6_second_close_witness :
  exists c',
    Client_Close [ReadLine LF] two_waiting = Return None c'
    /\ Client_Close [] c' = Panic "close of closed channel" c'.
Proof.
  destruct (X6_second_close_panics (listen_reading []) (errorString "x")
              [ReadLine LF] two_waiting) as [_ H].
  eexists. split; [reflexivity|]. apply (H None). reflexivity.
Defined.

(** X7: a failed read of the listener is a fatal error like a bad frame:
    it is printed as [connection error: ...], [done] is closed, and the
    listener stays in the [Close] it called, so neither [wg.Done()] nor
    [c.conn.Close()] runs.  When the read fails while a [Close] of the user
    waits for the listener, [done] is closed already and the listener's own
    [Close] panics. *)
Theorem X7_read_failure (err : error) (rest : list ReadResult) (c : Client) :
  done c = false -> wg c <> 0%nat ->
  let report :=
    "Fatal client error: " +:+ ("connection error: " +:+ error_Error err) +:+ LF in
  listen (ReadErr err :: rest) c = Parked (set_done true (Printf report c))
  /\ closed (conn (set_done true (Printf report c))) = closed (conn c)
  /\ wg (set_done true (Printf report c)) = wg c
  /\ Client_Close (ReadErr err :: rest) c
     = Panic "close of closed channel" (Printf report (set_done true c)).
Proof.
  intros Hd Hw report. split; [|split; [reflexivity|split; [reflexivity|]]].
  - unfold listen. rewrite Hd. cbn [listen_reading].
    rewrite handleFatalError_parks by assumption. reflexivity.
  - unfold Client_Close, Close. rewrite Hd. unfold wg_Wait.
    change (wg (set_done true c)) with (wg c).
    destruct (wg c =? 0)%nat eqn:E; [now apply Nat.eqb_eq in E|].
    cbn [listen_reading]. now rewrite handleFatalError_panics.
Qed.

Lemma X7_read_failure_witness :
  listen [ReadErr (errorString "EOF")] two_waiting
  = Parked (set_done true
              (Printf ("Fatal client error: connection error: EOF" +:+ LF) two_waiting)).
Proof.
  destruct (X7_read_failure (errorString "EOF") [] two_waiting eq_refl
              ltac:(discriminate)) as [H _].
  exact H.
Defined.

(** X8: [Close] made by a user closes [done] first and the transport
    last, after the listener has left its loop: a [Close] that returns
    leaves the transport closed, [done] closed and the WaitGroup at zero;
    while the server sends nothing the listener stays in its read and
    [Close] stays in [wg.Wait()], [done] closed and the transport still
    open; an empty line is enough to let the listener out. *)
Theorem X8_close_waits_for_the_listener
    (inbound : list ReadResult) (c : Client) :
  (forall e c', Client_Close inbound c = Return e c' ->
                closed (conn c') = true /\ done c' = true /\ wg c' = 0%nat)
  /\ (done c = false -> wg c <> 0%nat ->
      Client_Close [] c = Parked (set_done true c))
  /\ (done c = false -> wg c = 1%nat -> closed (conn c) = false ->
      Client_Close (ReadLine LF :: inbound) c
      = Return None
          (set_conn {| closed := true; fault := fault (conn c);
                       written := written (conn c) |}
             (set_wg 0 (set_done true c)))).
Proof.
  split; [intros e c'; apply Client_Close_returned|]. split.
  - intros Hd Hw. unfold Client_Close, Close. rewrite Hd. unfold wg_Wait.
    change (wg (set_done true c)) with (wg c).
    destruct (wg c =? 0)%nat eqn:E; [now apply Nat.eqb_eq in E|]. reflexivity.
  - intros Hd Hw Hc. unfold Client_Close, Close. rewrite Hd. unfold wg_Wait.
    destruct c as [cfg [cl fl wr] mu pend bh dn w chs hd out].
    cbn in Hd, Hw, Hc. subst dn w cl. reflexivity.
Qed.

Lemma X8_close_waits_witness :
  Client_Close [] two_waiting = Parked (set_done true two_waiting)
  /\ exists c', Client_Close [ReadLine LF] two_waiting = Return None c'
                /\ closed (conn c') = true.
Proof.
  destruct (X8_close_waits_for_the_listener [] two_waiting) as (_ & Hp & Hr).
  split; [apply Hp; [reflexivity|discriminate]|].
  eexists. split; [apply Hr; reflexivity|reflexivity].
Defined.

(** ** Operations that run side by side *)

Lemma select_parked (responseCh : nat) (t : Z) (k : nat) (c : Client) :
  chans c !! responseCh = Some [] -> done c = false -> t < 5 * Second ->
  select responseCh (5 * Second) t k c = Parked c.
Proof.
  intros Hb Hd Ht. unfold select, ready_cases. rewrite Hb, Hd.
  destruct (5 * Second <=? t) eqn:E; [lia|]. reflexivity.
Qed.

Lemma select_timer (responseCh : nat) (t : Z) (k : nat) (c : Client) :
  chans c !! responseCh = Some [] -> done c = false -> 5 * Second <= t ->
  select responseCh (5 * Second) t k c = Return recvTimer c.
Proof.
  intros Hb Hd Ht. unfold select, ready_cases. rewrite Hb, Hd.
  destruct (5 * Second <=? t) eqn:E; [|lia]. cbn [app List.length].
  now rewrite Nat.mod_1_r.
Qed.

Lemma registered_chans_length (slot : Z) (cmd : string) (c : Client) :
  List.length (chans (registered slot cmd c)) = S (List.length (chans c)).
Proof. cbn. rewrite length_app. cbn. lia. Qed.

(** The channel of an earlier request is untouched by a delivery to the
    channel made after it. *)
Lemma earlier_chan_lookup {A : Type} (h : list (list A)) (buf : list A) :
  <[S (List.length h) := buf]> ((h ++ [[]]) ++ [[]]) !! List.length h = Some [].
Proof.
  rewrite list_lookup_insert_ne by lia.
  rewrite lookup_app_l by (rewrite length_app; cbn; lia).
  apply fresh_chan_lookup.
Qed.

(** The value frame of a slot nothing is registered for. *)
Lemma processMessage_unrouted (slot : Z) (payload : string) (c : Client) :
  0 <= slot <= 999 ->
  fmt_03d slot +:+ payload <> User (Auth (config c)) ->
  mutex c = false ->
  pendingRequests c !! slot = None ->
  processMessage ("v" +:+ fmt_03d slot +:+ payload) c
  = handleFatalError
      (errorString ("received response for slot " +:+ fmt_d slot
                    +:+ " with no pending request")) c.
Proof.
  intros Hs Hne Hfree Hnone. destruct (fmt_03d_slot slot Hs) as [Hlen Hval].
  rewrite (processMessage_value (fmt_03d slot) payload slot c Hlen Hval Hne Hfree).
  now rewrite Hnone.
Qed.

(** X9: two operations on the same slot.  The registry has one entry per
    slot, so the second registration replaces the first: the value frame
    of the slot goes to the second caller, the first stays in its [select]
    with an empty channel and can end only on the timer or on [done]; and
    when it ends, its deferred [delete] takes the entry of the second
    caller out of the registry, after which the response of the second
    caller is a fatal error. *)
Theorem X9_same_slot_takeover
    (slot : Z) (payload : string) (t : Z) (k : nat) (c : Client) :
  0 <= slot <= 999 ->
  closed (conn c) = false -> fault (conn c) = None ->
  done c = false -> mutex c = false ->
  fmt_03d slot +:+ payload <> User (Auth (config c)) ->
  let cmd := "r" +:+ fmt_03d slot +:+ LF in
  let first := List.length (chans c) in
  let c1 := registered slot cmd c in
  let c2 := registered slot cmd c1 in
  let frame := "v" +:+ fmt_03d slot +:+ payload in
  Read_start slot c = Return (Waiting first) c1
  /\ Read_start slot c1 = Return (Waiting (S first)) c2
  /\ pendingRequests c2 !! slot = Some (S first)
  /\ (t < 5 * Second ->
      await (mkSchedule (dispatching frame) t k) Read_result slot (Waiting first) c2
      = Parked (dispatching frame c2)
      /\ exists c',
           await (mkSchedule (dispatching frame) t k) Read_result slot
             (Waiting (S first)) c2
           = Return (payload, None) c')
  /\ (5 * Second <= t ->
      exists c',
        await (mkSchedule id t k) Read_result slot (Waiting first) c2
        = Return ("", Some (errorString "timeout waiting for response")) c'
        /\ pendingRequests c' !! slot = None
        /\ done (dispatching frame c') = true).
Proof.
  intros Hs Hopen Hok Hrun Hfree Hne cmd first c1 c2 frame.
  assert (Hlen1 : List.length (chans c1) = S first)
    by apply registered_chans_length.
  assert (Hd : dispatching frame c2
               = set_chans (<[S first := [{| Data := payload; Error := None |}]]>
                              (chans c1 ++ [[]])) c2).
  { subst frame c2. rewrite dispatching_value by assumption. now rewrite Hlen1. }
  split; [now apply Read_start_waiting|].
  split.
  { rewrite <- Hlen1. now apply Read_start_waiting. }
  split.
  { subst c2. cbn [registered pendingRequests]. rewrite lookup_insert_eq.
    now rewrite <- Hlen1. }
  split.
  - intros Ht. split.
    + cbn [await interference elapsed pick]. rewrite Hd.
      rewrite select_parked; [reflexivity| |exact Hrun|exact Ht].
      cbn [chans set_chans]. subst c1. cbn [registered chans].
      apply earlier_chan_lookup.
    + cbn [await interference elapsed pick]. rewrite Hd.
      erewrite select_response; [| |exact Hrun|exact Ht].
      2:{ cbn [chans set_chans]. rewrite <- Hlen1. apply delivered_lookup. }
      cbn [and_then]. rewrite cleanup_free by reflexivity.
      cbn [and_then Read_result Error Data]. now eexists.
  - intros Ht. cbn [await interference elapsed pick]. unfold id.
    rewrite select_timer; [| |exact Hrun|exact Ht].
    2:{ subst c2 c1. cbn [registered chans].
        rewrite lookup_app_l by (rewrite length_app; cbn; lia).
        apply fresh_chan_lookup. }
    cbn [and_then]. rewrite cleanup_free by reflexivity.
    cbn [and_then Read_result]. eexists. split; [reflexivity|].
    split; [apply deregister_lookup|].
    unfold dispatching. subst frame.
    rewrite processMessage_unrouted;
      [apply handleFatalError_done|exact Hs|exact Hne|reflexivity|apply deregister_lookup].
Qed.

Lemma X9_same_slot_takeover_witness :
  await (mkSchedule (dispatching "v001abc") 0 0) Read_result 1 (Waiting 0%nat)
    (state_of (Read_start 1 (state_of (Read_start 1 fresh_client))))
  = Parked (dispatching "v001abc"
              (state_of (Read_start 1 (state_of (Read_start 1 fresh_client))))).
Proof.
  destruct (X9_same_slot_takeover 1 "abc" 0 0 fresh_client ltac:(lia) eq_refl eq_refl
              eq_refl eq_refl ltac:(discriminate)) as (_ & _ & _ & H & _).
  destruct (H ltac:(reflexivity)) as [Hp _]. exact Hp.
Defined.

(** X10: a response that comes after the 5 seconds.  [Read] has returned
    the timeout error and its slot is out of the registry; the value frame
    that answers it then finds no pending request, which is a fatal error
    of the whole client: it is printed, [done] is closed and the listener
    stays in the [Close] it called. *)
Theorem X10_late_response_is_fatal
    (slot : Z) (payload : string) (t : Z) (k : nat) (c : Client) :
  0 <= slot <= 999 ->
  closed (conn c) = false -> fault (conn c) = None ->
  done c = false -> wg c <> 0%nat -> mutex c = false ->
  fmt_03d slot +:+ payload <> User (Auth (config c)) ->
  5 * Second <= t ->
  let c' := deregister slot (registered slot ("r" +:+ fmt_03d slot +:+ LF) c) in
  Read slot (mkSchedule id t k) c
  = Return ("", Some (errorString "timeout waiting for response")) c'
  /\ processMessage ("v" +:+ fmt_03d slot +:+ payload) c'
     = Parked
         (set_done true
            (Printf ("Fatal client error: "
                     +:+ ("received response for slot " +:+ fmt_d slot
                          +:+ " with no pending request") +:+ LF) c')).
Proof.
  intros Hs Hopen Hok Hrun Hw Hfree Hne Ht c'. split.
  - unfold Read. rewrite Read_start_waiting by assumption.
    cbn [and_then await interference elapsed pick]. unfold id.
    rewrite select_timer; [|apply fresh_chan_lookup|exact Hrun|exact Ht].
    cbn [and_then]. now rewrite cleanup_free by reflexivity.
  - rewrite processMessage_unrouted;
      [|exact Hs|exact Hne|reflexivity|apply deregister_lookup].
    now apply handleFatalError_parks.
Qed.

Lemma X10_late_response_witness :
  let c' := deregister 1 (registered 1 ("r001" +:+ LF) fresh_client) in
  Read 1 (mkSchedule id 5000000000 0) fresh_client
  = Return ("", Some (errorString "timeout waiting for response")) c'
  /\ processMessage "v001abc" c'
     = Parked
         (set_done true
            (Printf ("Fatal client error: received response for slot 1 with no pending request"
                     +:+ LF) c')).
Proof.
  exact (X10_late_response_is_fatal 1 "abc" 5000000000 0 fresh_client ltac:(lia)
           eq_refl eq_refl eq_refl ltac:(discriminate) eq_refl ltac:(discriminate)
           ltac:(discriminate)).
Defined.

(** A value frame reaches the channel registered for its slot. *)
Lemma dispatching_routed (slot : Z) (payload : string) (ch : nat) (c : Client) :
  0 <= slot <= 999 ->
  fmt_03d slot +:+ payload <> User (Auth (config c)) ->
  mutex c = false ->
  pendingRequests c !! slot = Some ch ->
  chans c !! ch = Some [] ->
  dispatching ("v" +:+ fmt_03d slot +:+ payload) c
  = set_chans (<[ch := [{| Data := payload; Error := None |}]]> (chans c)) c.
Proof.
  intros Hs Hne Hfree Hreg Hroom. destruct (fmt_03d_slot slot Hs) as [Hlen Hval].
  unfold dispatching.
  rewrite (processMessage_value (fmt_03d slot) payload slot c Hlen Hval Hne Hfree).
  rewrite Hreg. now rewrite chan_send_room by exact Hroom.
Qed.

(** X11: operations on different slots do not mix.  While a [Read] of
    [s1] waits, another goroutine starts a [Write] to [s2] and the
    listener dispatches the two value frames, in either order: the [Read]
    returns the payload addressed to [s1], its clean-up removes the entry
    of [s1] only, and the response for [s2] sits in the channel of the
    [Write], whose entry is still in the registry. *)
Theorem X11_distinct_slots_do_not_mix
    (s1 s2 : Z) (data p1 p2 : string) (t : Z) (k : nat) (c : Client) :
  0 <= s1 <= 999 -> 0 <= s2 <= 999 -> s1 <> s2 ->
  (String.length data <= 36)%nat ->
  closed (conn c) = false -> fault (conn c) = None ->
  done c = false -> mutex c = false ->
  fmt_03d s1 +:+ p1 <> User (Auth (config c)) ->
  fmt_03d s2 +:+ p2 <> User (Auth (config c)) ->
  t < 5 * Second ->
  let f1 := "v" +:+ fmt_03d s1 +:+ p1 in
  let f2 := "v" +:+ fmt_03d s2 +:+ p2 in
  let second := S (List.length (chans c)) in
  forall others : Client -> Client,
    (others = fun c1 => dispatching2 f1 f2 (state_of (Write_start s2 data c1)))
    \/ (others = fun c1 => dispatching2 f2 f1 (state_of (Write_start s2 data c1))) ->
    exists c',
      Read s1 (mkSchedule others t k) c = Return (p1, None) c'
      /\ pendingRequests c' !! s1 = None
      /\ pendingRequests c' !! s2 = Some second
      /\ chans c' !! second = Some [{| Data := p2; Error := None |}].
Proof.
  intros Hs1 Hs2 Hne Hd Hopen Hok Hrun Hfree He1 He2 Ht f1 f2 second others Hothers.
  set (n := List.length (chans c)).
  set (c1 := registered s1 ("r" +:+ fmt_03d s1 +:+ LF) c).
  set (c2 := registered s2 ("w" +:+ fmt_03d s2 +:+ data +:+ LF) c1).
  set (base := (chans c ++ [[]]) ++ [[]]).
  assert (Hn : (n < List.length base)%nat)
    by (subst base n; rewrite !length_app; cbn; lia).
  assert (Hsn : (S n < List.length base)%nat)
    by (subst base n; rewrite !length_app; cbn; lia).
  assert (Hb1 : base !! n = Some []).
  { subst base n. rewrite lookup_app_l by (rewrite length_app; cbn; lia).
    apply fresh_chan_lookup. }
  assert (Hb2 : base !! S n = Some []).
  { subst base n.
    replace (S (List.length (chans c))) with (List.length (chans c ++ [[]]))
      by (rewrite length_app; cbn; lia).
    apply fresh_chan_lookup. }
  assert (Hreg1 : pendingRequests c2 !! s1 = Some n).
  { subst c2 c1. cbn [registered pendingRequests].
    rewrite lookup_insert_ne by congruence. apply lookup_insert_eq. }
  assert (Hreg2 : pendingRequests c2 !! s2 = Some (S n)).
  { subst c2. cbn [registered pendingRequests]. rewrite lookup_insert_eq.
    f_equal. subst c1 n. apply registered_chans_length. }
  assert (Hstart : state_of (Write_start s2 data c1) = c2).
  { subst c2. now rewrite Write_start_waiting. }
  assert (Hfinal : exists h,
             others c1 = set_chans h c2
             /\ h !! n = Some [{| Data := p1; Error := None |}]
             /\ h !! S n = Some [{| Data := p2; Error := None |}]
             /\ List.length h = List.length base).
  { subst f1 f2. destruct Hothers as [-> | ->]; unfold dispatching2; rewrite Hstart.
    - rewrite (dispatching_routed s1 p1 n c2 Hs1 He1 eq_refl Hreg1 Hb1).
      rewrite (dispatching_routed s2 p2 (S n));
        [|exact Hs2|exact He2|reflexivity|exact Hreg2|].
      2:{ cbn [chans set_chans]. change (chans c2) with base.
          now rewrite list_lookup_insert_ne by lia. }
      eexists. split; [reflexivity|]. cbn [chans set_chans].
      change (chans c2) with base.
      split; [rewrite list_lookup_insert_ne by lia; now apply list_lookup_insert_eq|].
      split; [apply list_lookup_insert_eq; now rewrite length_insert|].
      now rewrite !length_insert.
    - rewrite (dispatching_routed s2 p2 (S n) c2 Hs2 He2 eq_refl Hreg2 Hb2).
      rewrite (dispatching_routed s1 p1 n);
        [|exact Hs1|exact He1|reflexivity|exact Hreg1|].
      2:{ cbn [chans set_chans]. change (chans c2) with base.
          now rewrite list_lookup_insert_ne by lia. }
      eexists. split; [reflexivity|]. cbn [chans set_chans].
      change (chans c2) with base.
      split; [apply list_lookup_insert_eq; now rewrite length_insert|].
      split; [rewrite list_lookup_insert_ne by lia; now apply list_lookup_insert_eq|].
      now rewrite !length_insert. }
  destruct Hfinal as (h & Hh & Hh1 & Hh2 & Hlen).
  unfold Read. rewrite Read_start_waiting by assumption.
  cbn [and_then await interference elapsed pick]. fold c1 n. rewrite Hh.
  erewrite select_response; [|exact Hh1|exact Hrun|exact Ht].
  cbn [and_then]. rewrite cleanup_free by reflexivity.
  cbn [and_then Read_result Error Data]. eexists. split; [reflexivity|].
  split; [apply deregister_lookup|]. split.
  - cbn. rewrite lookup_delete_ne by congruence. exact Hreg2.
  - cbn. rewrite list_lookup_alter_ne by lia. exact Hh2.
Qed.

Lemma X11_distinct_slots_witness :
  exists c',
    Read 1 (mkSchedule
              (fun c1 => dispatching2 "v007ok" "v001abc"
                           (state_of (Write_start 7 "hello" c1))) 0 0) fresh_client
    = Return ("abc", None) c'
    /\ chans c' !! 1%nat = Some [{| Data := "ok"; Error := None |}].
Proof.
  destruct (X11_distinct_slots_do_not_mix 1 7 "hello" "abc" "ok" 0 0 fresh_client
              ltac:(lia) ltac:(lia) ltac:(lia) ltac:(simpl; lia) eq_refl eq_refl
              eq_refl eq_refl ltac:(discriminate) ltac:(discriminate)
              ltac:(reflexivity) _ (or_intror eq_refl))
    as (c' & H & _ & _ & Hc).
  exists c'. split; [exact H | exact Hc].
Defined.

(** ** What a waiting operation returns *)

(** X12: an error frame while a [Write] waits.  With a code other than
    004 and 005 the [Write] returns the structured error of that code and
    the registry is empty afterwards, the requests of the other callers
    included; with 004 or 005 the frame is printed and reaches nobody: the
    [Write] stays in its [select] and ends on the timer with the timeout
    error. *)
Theorem X12_error_frame_while_waiting
    (slot : Z) (data code rest : string) (t : Z) (k : nat) (c : Client) :
  0 <= slot <= 999 -> (String.length data <= 36)%nat ->
  String.length code = 3%nat ->
  closed (conn c) = false -> fault (conn c) = None ->
  done c = false -> mutex c = false -> all_unresolved c = true ->
  let frame := "e" +:+ code +:+ rest in
  let c1 := registered slot ("w" +:+ fmt_03d slot +:+ data +:+ LF) c in
  let printed := Printf ("Authentication error: " +:+ code +:+ LF) c1 in
  (code <> "004" -> code <> "005" -> t < 5 * Second ->
   exists c',
     Write slot data (mkSchedule (dispatching frame) t k) c
     = Return (Some (ghotiError (NewGhotiError code))) c'
     /\ pendingRequests c' = ∅)
  /\ (code = "004" \/ code = "005" ->
      (t < 5 * Second ->
       Write slot data (mkSchedule (dispatching frame) t k) c = Parked printed)
      /\ (5 * Second <= t ->
          Write slot data (mkSchedule (dispatching frame) t k) c
          = Return (Some (errorString "timeout waiting for response"))
              (deregister slot printed))).
Proof.
  intros Hs Hd Hlen Hopen Hok Hrun Hfree Hun frame c1 printed.
  assert (Hstart : Write_start slot data c = Return (Waiting (List.length (chans c))) c1)
    by now apply Write_start_waiting.
  split.
  - intros H4 H5 Ht.
    destruct (error_frame_fanout code rest c1 Hlen H4 H5 eq_refl) as
      (c' & Hrun' & Hempty & Hin & _ & Hdone & _ & _ & Hm).
    { apply unresolved_registered. now apply all_unresolved_unresolved. }
    unfold Write. rewrite Hstart. cbn [and_then await interference elapsed pick].
    unfold dispatching. subst frame. rewrite Hrun'. cbn [state_of].
    erewrite select_response; [| |now rewrite Hdone|exact Ht].
    2:{ apply (Hin slot). subst c1. cbn [registered pendingRequests].
        apply lookup_insert_eq. }
    cbn [and_then]. rewrite cleanup_free by exact Hm.
    cbn [and_then Write_result Error]. eexists. split; [reflexivity|].
    cbn. rewrite Hempty. apply delete_empty.
  - intros Hauth.
    assert (Hd' : dispatching frame c1 = printed).
    { unfold dispatching. subst frame.
      rewrite (processMessage_error code rest c1 Hlen).
      now destruct Hauth as [-> | ->]. }
    unfold Write. rewrite Hstart. cbn [and_then await interference elapsed pick].
    rewrite Hd'. split; intros Ht.
    + rewrite select_parked; [reflexivity| |exact Hrun|exact Ht].
      apply fresh_chan_lookup.
    + rewrite select_timer; [| |exact Hrun|exact Ht].
      2:{ apply fresh_chan_lookup. }
      cbn [and_then]. now rewrite cleanup_free by reflexivity.
Qed.

Lemma X12_error_frame_witness :
  exists c',
    Write 7 "hello" (mkSchedule (dispatching "e003") 0 0) fresh_client
    = Return (Some (ghotiError (NewGhotiError "003"))) c'
    /\ pendingRequests c' = ∅.
Proof.
  destruct (X12_error_frame_while_waiting 7 "hello" "003" "" 0 0 fresh_client
              ltac:(lia) ltac:(simpl; lia) eq_refl eq_refl eq_refl eq_refl eq_refl
              eq_refl) as [H _].
  apply H; [discriminate|discriminate|reflexivity].
Defined.

(** A [Write] acknowledged by a value frame of its slot. *)
Lemma Write_acknowledged
    (slot : Z) (data payload : string) (t : Z) (k : nat) (c : Client) :
  0 <= slot <= 999 -> (String.length data <= 36)%nat ->
  closed (conn c) = false -> fault (conn c) = None ->
  done c = false -> mutex c = false ->
  fmt_03d slot +:+ payload <> User (Auth (config c)) ->
  t < 5 * Second ->
  exists c',
    Write slot data (mkSchedule (dispatching ("v" +:+ fmt_03d slot +:+ payload)) t k) c
    = Return None c'
    /\ written (conn c') = written (conn c) ++ ["w" +:+ fmt_03d slot +:+ data +:+ LF]
    /\ pendingRequests c' !! slot = None.
Proof.
  intros Hs Hd Hopen Hok Hrun Hfree Hne Ht.
  unfold Write. rewrite Write_start_waiting by assumption.
  cbn [and_then await interference elapsed pick].
  rewrite dispatching_value by assumption.
  erewrite select_response; [|apply delivered_lookup|exact Hrun|exact Ht].
  cbn [and_then]. rewrite cleanup_free by reflexivity.
  cbn [and_then Write_result Error]. eexists. split; [reflexivity|].
  split; [reflexivity|apply deregister_lookup].
Qed.

(** X13: the acknowledgement of a [Write].  The command written is [w],
    the slot in three digits, the data as they are and a line feed, and
    any value frame for the slot ends the [Write] with no error: its
    payload is not looked at. *)
Theorem X13_write_acknowledged_by_any_value
    (slot : Z) (data payload : string) (t : Z) (k : nat) (c : Client) :
  0 <= slot <= 999 -> (String.length data <= 36)%nat ->
  closed (conn c) = false -> fault (conn c) = None ->
  done c = false -> mutex c = false ->
  fmt_03d slot +:+ payload <> User (Auth (config c)) ->
  t < 5 * Second ->
  exists c',
    Write slot data (mkSchedule (dispatching ("v" +:+ fmt_03d slot +:+ payload)) t k) c
    = Return None c'
    /\ written (conn c') = written (conn c) ++ ["w" +:+ fmt_03d slot +:+ data +:+ LF]
    /\ pendingRequests c' !! slot = None.
Proof.
  intros Hs Hd Hopen Hok Hrun Hfree Hne Ht.
  unfold Write. rewrite Write_start_waiting by assumption.
  cbn [and_then await interference elapsed pick].
  rewrite dispatching_value by assumption.
  erewrite select_response; [|apply delivered_lookup|exact Hrun|exact Ht].
  cbn [and_then]. rewrite cleanup_free by reflexivity.
  cbn [and_then Write_result Error]. eexists. split; [reflexivity|].
  split; [reflexivity|apply deregister_lookup].
Qed.

Lemma X13_write_acknowledged_witness :
  exists c',
    Write 7 "hello" (mkSchedule (dispatching "v007anything") 0 0) fresh_client
    = Return None c'
    /\ written (conn c') = ["w007hello" +:+ LF].
Proof.
  destruct (X13_write_acknowledged_by_any_value 7 "hello" "anything" 0 0 fresh_client
              ltac:(lia) ltac:(simpl; lia) eq_refl eq_refl eq_refl eq_refl
              ltac:(discriminate) ltac:(reflexivity)) as (c' & H & Hw & _).
  exists c'. split; [exact H | exact Hw].
Defined.

Lemma Close_no_others_fields (c : Client) :
  let c' := state_of (Close no_others c) in
  chans c' = chans c /\ mutex c' = mutex c /\ pendingRequests c' = pendingRequests c.
Proof.
  unfold Close. destruct (done c); [now repeat split|].
  unfold wg_Wait, no_others. cbn.
  destruct (wg c =? 0)%nat; cbn; [destruct (Conn_Close (conn c))|]; now repeat split.
Qed.

Lemma handleFatalError_fields (err : error) (c : Client) :
  let c' := state_of (handleFatalError err c) in
  chans c' = chans c /\ mutex c' = mutex c /\ pendingRequests c' = pendingRequests c.
Proof.
  unfold handleFatalError. rewrite state_of_and_then_Return.
  apply (Close_no_others_fields (Printf _ c)).
Qed.



(** ** Authentication *)

(** X15: [Auth] writes the user frame and then the password frame, [u] or
    [p] before the credential of the configuration and a line feed after
    it, and returns without waiting for an answer: it makes no channel
    and registers nothing.  On a closed transport, or one whose writes
    fail, it returns the failure of the first write, wrapped, and nothing
    is written. *)
Theorem X15_auth_sends_credentials (c : Client) :
  let user := "u" +:+ User (Auth (config c)) +:+ LF in
  let pass := "p" +:+ Pass (Auth (config c)) +:+ LF in
  (closed (conn c) = false -> fault (conn c) = None ->
   exists c',
     Client_Auth c = (None, c')
     /\ written (conn c') = written (conn c) ++ [user; pass])
  /\ (closed (conn c) = true ->
      Client_Auth c = (Some (Errorf_w "failed to send user command: " net_ErrClosed), c)
      /\ closed_error (Errorf_w "failed to send user command: " net_ErrClosed))
  /\ (forall e, closed (conn c) = false -> fault (conn c) = Some e ->
      Client_Auth c = (Some (Errorf_w "failed to send user command: " e), c))
  /\ pendingRequests (Client_Auth c).2 = pendingRequests c
  /\ chans (Client_Auth c).2 = chans c
  /\ done (Client_Auth c).2 = done c.
Proof.
  intros user pass. subst user pass.
  destruct c as [cfg [cl fl wr] mu pend bh dn w chs hd out].
  unfold Client_Auth, send, Conn_Write. cbn.
  split; [|split; [|split]].
  - intros -> ->. cbn. eexists. split; [reflexivity|]. cbn.
    now rewrite <- app_assoc.
  - intros ->. split; [reflexivity|now right].
  - intros e -> ->. reflexivity.
  - destruct cl; [now repeat split|]. destruct fl; now repeat split.
Qed.

Lemma X15_auth_witness :
  exists c',
    Client_Auth fresh_client = (None, c')
    /\ written (conn c') = ["utest_a_service" +:+ LF; "p67890" +:+ LF].
Proof.
  destruct (X15_auth_sends_credentials fresh_client) as [H _].
  exact (H eq_refl eq_refl).
Defined.

(** ** The registry *)

Lemma registry_within_refl (c : Client) : registry_within c c.
Proof. now intros slot ch. Qed.

Lemma registry_within_eq (c' c : Client) :
  pendingRequests c' = pendingRequests c -> registry_within c' c.
Proof. intros E slot ch. now rewrite E. Qed.

Lemma registry_within_trans (c1 c2 c3 : Client) :
  registry_within c1 c2 -> registry_within c2 c3 -> registry_within c1 c3.
Proof. intros H1 H2 slot ch H. now apply H2, H1. Qed.

Lemma deregister_within (slot : Z) (c : Client) : registry_within (deregister slot c) c.
Proof. intros s ch. cbn. rewrite lookup_delete_Some. now intros [_ H]. Qed.

Lemma handleFatalError_within (err : error) (c : Client) :
  registry_within (state_of (handleFatalError err c)) c.
Proof. apply registry_within_eq. now destruct (handleFatalError_fields err c) as (_ & _ & H). Qed.

Lemma chan_send_within (ch : nat) (r : Response) (c : Client) :
  registry_within (state_of (chan_send ch r c)) c.
Proof.
  apply registry_within_eq.
  now destruct (chan_send_fields ch r c) as (_ & _ & _ & H & _).
Qed.

Lemma forward_to_all_within (entries : list (Z * nat)) (code : string) (c : Client) :
  registry_within (state_of (forward_to_all entries code c)) c.
Proof.
  revert c. induction entries as [|[slot ch] rest IH]; intros c;
    [apply registry_within_refl|].
  cbn [forward_to_all].
  pose proof (chan_send_within ch
                {| Data := ""; Error := Some (ghotiError (NewGhotiError code)) |} c) as Hs.
  destruct (chan_send ch _ c) as [[] c1|c1|m c1]; cbn [and_then state_of] in *;
    try exact Hs.
  eapply registry_within_trans; [apply IH|].
  eapply registry_within_trans; [apply deregister_within|exact Hs].
Qed.

Lemma handleValueResponse_within (message : string) (c : Client) :
  registry_within (state_of (handleValueResponse message c)) c.
Proof.
  unfold handleValueResponse.
  destruct (_ && _); [apply registry_within_refl|].
  destruct (_ <? 4)%nat; [apply handleFatalError_within|].
  destruct (Atoi _) as [slot|]; [|apply handleFatalError_within].
  unfold Lock. destruct (mutex c); [apply registry_within_refl|].
  cbn [and_then].
  destruct (pendingRequests (set_mutex true c) !! slot) as [ch|].
  - apply (chan_send_within ch _ (Unlock (set_mutex true c))).
  - apply (handleFatalError_within _ (Unlock (set_mutex true c))).
Qed.

Lemma handleErrorResponse_within (message : string) (c : Client) :
  registry_within (state_of (handleErrorResponse message c)) c.
Proof.
  unfold handleErrorResponse.
  destruct (_ <? 4)%nat; [apply handleFatalError_within|].
  destruct (_ || _); [now apply registry_within_eq|].
  unfold Lock. destruct (mutex c); [apply registry_within_refl|].
  cbn [and_then].
  pose proof (forward_to_all_within
                (map_to_list (pendingRequests (set_mutex true c)))
                (string_slice 1 4 message) (set_mutex true c)) as H.
  destruct (forward_to_all _ _ _) as [[] c1|c1|m c1]; exact H.
Qed.

Lemma handleBroadcastMessage_within (message : string) (c : Client) :
  registry_within (state_of (handleBroadcastMessage message c)) c.
Proof.
  unfold handleBroadcastMessage.
  destruct (_ <? 4)%nat; [apply handleFatalError_within|].
  destruct (Atoi _) as [slot|]; [|apply handleFatalError_within].
  unfold Lock. destruct (mutex c); [apply registry_within_refl|].
  cbn [and_then].
  destruct (broadcastHandler (set_mutex true c)); now apply registry_within_eq.
Qed.

Lemma processMessage_within (message : string) (c : Client) :
  registry_within (state_of (processMessage message c)) c.
Proof.
  destruct message as [|tag rest]; [apply registry_within_refl|].
  unfold processMessage.
  destruct (Ascii.eqb tag "v"); [apply handleValueResponse_within|].
  destruct (Ascii.eqb tag "e"); [apply handleErrorResponse_within|].
  destruct (Ascii.eqb tag "a"); [apply handleBroadcastMessage_within|].
  apply handleFatalError_within.
Qed.

Lemma wg_Done_within (c : Client) : registry_within (state_of (wg_Done c)) c.
Proof. unfold wg_Done. destruct (wg c); now apply registry_within_eq. Qed.

Lemma listen_reading_within (inbound : list ReadResult) (c : Client) :
  registry_within (state_of (listen_reading inbound c)) c.
Proof.
  revert c. induction inbound as [|[line|err] rest IH]; intros c;
    [apply registry_within_refl| |].
  - cbn [listen_reading].
    assert (Hstep : registry_within
                      (state_of (if (String.length (TrimSuffix_lf line) =? 0)%nat
                                 then Return tt c
                                 else processMessage (TrimSuffix_lf line) c)) c).
    { destruct (_ =? 0)%nat; [apply registry_within_refl|apply processMessage_within]. }
    destruct (if (String.length (TrimSuffix_lf line) =? 0)%nat then _ else _)
      as [[] c1|c1|m c1]; cbn [and_then state_of] in *; try exact Hstep.
    destruct (done c1).
    + eapply registry_within_trans; [apply wg_Done_within|exact Hstep].
    + eapply registry_within_trans; [apply IH|exact Hstep].
  - cbn [listen_reading].
    pose proof (handleFatalError_within (Errorf_w "connection error: " err) c) as Hf.
    destruct (handleFatalError _ c) as [[] c1|c1|m c1]; cbn [and_then state_of] in *;
      try exact Hf.
    eapply registry_within_trans; [apply wg_Done_within|exact Hf].
Qed.

(** X16: the listener never registers anything.  Whatever the frames
    and read errors, and however the listener ends (parked in a read, in
    a send, at the mutex or in [Close], or returned), every entry the
    registry holds afterwards was there before, with the same channel;
    entries are made by the operations alone. *)
Theorem X16_listener_never_registers
    (message : string) (inbound : list ReadResult) (c : Client) :
  registry_within (state_of (processMessage message c)) c
  /\ registry_within (state_of (listen inbound c)) c.
Proof.
  split; [apply processMessage_within|].
  unfold listen. destruct (done c); [apply wg_Done_within|apply listen_reading_within].
Qed.

Lemma keys_valid_within (c' c : Client) :
  registry_within c' c -> keys_valid c -> keys_valid c'.
Proof. intros Hw Hk slot ch H. apply (Hk slot ch). now apply Hw. Qed.

Lemma keys_valid_new_client (cfg : Config) : keys_valid (new_client cfg).
Proof. intros slot ch H. cbn in H. now rewrite lookup_empty in H. Qed.

Lemma slot_check_passed (slot : Z) :
  (slot <? 0) || (slot >? 999) = false -> 0 <= slot <= 999.
Proof. intros H. apply orb_false_elim in H as [H1 H2]. lia. Qed.

(** The part of an operation from [make] to the write of the command. *)
Lemma registration_keys_valid (slot : Z) (cmd : string) (c : Client) {A : Type}
    (failed : error -> A) :
  0 <= slot <= 999 -> keys_valid c ->
  keys_valid
    (state_of
       (let '(responseCh, c) := make_chan c in
        do (_, c) <- register slot responseCh c ;
        match send cmd c with
        | (Some err, c) =>
            do (_, c) <- cleanup slot c ;
            Return (Finished (failed err)) c
        | (None, c) => Return (Waiting responseCh) c
        end)).
Proof.
  intros Hs Hk. unfold make_chan, register, cleanup, Lock.
  change (mutex (set_chans (chans c ++ [[]]) c)) with (mutex c).
  destruct (mutex c) eqn:Hm; [exact Hk|]. cbn [and_then].
  assert (Hreg : keys_valid
                   (Unlock (set_pendingRequests
                              (<[slot := List.length (chans c)]>
                                 (pendingRequests
                                    (set_mutex true (set_chans (chans c ++ [[]]) c))))
                              (set_mutex true (set_chans (chans c ++ [[]]) c))))).
  { intros s ch. cbn. rewrite lookup_insert. case_decide as E.
    - intros _. now subst s.
    - apply Hk. }
  unfold send, Conn_Write.
  destruct (closed (conn (Unlock _))) eqn:Hc.
  - cbn [and_then state_of]. cbn [mutex Unlock set_mutex set_conn]. cbn [and_then state_of].
    eapply keys_valid_within; [|exact Hreg].
    intros s ch. cbn. rewrite lookup_delete_Some. now intros [_ H].
  - destruct (fault (conn (Unlock _))) as [e|] eqn:Hf.
    + cbn [and_then state_of]. cbn [mutex Unlock set_mutex set_conn].
      cbn [and_then state_of].
      eapply keys_valid_within; [|exact Hreg].
      intros s ch. cbn. rewrite lookup_delete_Some. now intros [_ H].
    + exact Hreg.
Qed.

Lemma Read_start_keys_valid (slot : Z) (c : Client) :
  keys_valid c -> keys_valid (state_of (Read_start slot c)).
Proof.
  intros Hk. unfold Read_start.
  destruct ((slot <? 0) || (slot >? 999)) eqn:E; [exact Hk|].
  now apply (registration_keys_valid slot _ c
               (fun err => ("", Some (Errorf_w "failed to send read command: " err)))
               (slot_check_passed slot E)).
Qed.

Lemma Write_start_keys_valid (slot : Z) (data : string) (c : Client) :
  keys_valid c -> keys_valid (state_of (Write_start slot data c)).
Proof.
  intros Hk. unfold Write_start.
  destruct ((slot <? 0) || (slot >? 999)) eqn:E; [exact Hk|].
  destruct (36 <? String.length data)%nat; [exact Hk|].
  now apply (registration_keys_valid slot _ c
               (fun err => Some (Errorf_w "failed to send write command: " err))
               (slot_check_passed slot E)).
Qed.

Lemma Broadcast_start_keys_valid (slot : Z) (data : string) (c : Client) :
  keys_valid c -> keys_valid (state_of (Broadcast_start slot data c)).
Proof.
  intros Hk. unfold Broadcast_start.
  destruct ((slot <? 0) || (slot >? 999)) eqn:E; [exact Hk|].
  destruct (36 <? String.length data)%nat; [exact Hk|].
  now apply (registration_keys_valid slot _ c
               (fun err => (0, 0, 0, Some (Errorf_w "failed to send broadcast command: " err)))
               (slot_check_passed slot E)).
Qed.

Lemma await_keys_valid {A : Type} (w : schedule) (result : selected -> A) (slot : Z)
    (p : progress A) (c : Client) :
  keeps_keys_valid w -> keys_valid c ->
  keys_valid (state_of (await w result slot p c)).
Proof.
  intros Hw Hk. destruct p as [r|responseCh]; [exact Hk|].
  cbn [await]. specialize (Hw c Hk).
  pose proof (select_outcome responseCh (5 * Second) (elapsed w) (pick w)
                (interference w c)) as Hsel.
  destruct (select _ _ _ _ _) as [ev c1|c1|m c1]; [|now destruct Hsel as [-> _]|easy].
  destruct Hsel as (_ & Hp & _). cbn [and_then].
  assert (Hk1 : keys_valid c1).
  { apply (keys_valid_within c1 (interference w c));
      [now apply registry_within_eq|exact Hw]. }
  unfold cleanup, Lock. destruct (mutex c1); [exact Hk1|]. cbn [and_then state_of].
  eapply keys_valid_within; [|exact Hk1].
  intros s ch. cbn. rewrite lookup_delete_Some. now intros [_ H].
Qed.

Lemma operation_keys_valid {A : Type} (w : schedule) (result : selected -> A) (slot : Z)
    (start : outcome (progress A)) :
  keeps_keys_valid w -> keys_valid (state_of start) ->
  keys_valid (state_of (do (p, c1) <- start ; await w result slot p c1)).
Proof.
  intros Hw Hk. destruct start as [p c1|c1|m c1]; cbn [and_then state_of] in *;
    [now apply await_keys_valid|exact Hk|exact Hk].
Qed.

(** X17: the registry holds slots from 0 to 999 only.  It is so in the
    client [NewClient] returns, and [Read], [Write], [Broadcast] and the
    listener keep it so, however they end (the other goroutines being
    operations and the listener as well).  Hence a value frame whose slot
    field reads as a negative number, which [strconv.Atoi] accepts, never
    finds a pending request: it is a fatal error. *)
Theorem X17_registry_holds_valid_slots
    (cfg : Config) (slot : Z) (data : string) (w : schedule)
    (inbound : list ReadResult) (c : Client) :
  keys_valid (new_client cfg)
  /\ (keys_valid c ->
      (keeps_keys_valid w ->
       keys_valid (state_of (Read slot w c))
       /\ keys_valid (state_of (Write slot data w c))
       /\ keys_valid (state_of (Broadcast slot data w c)))
      /\ keys_valid (state_of (listen inbound c))
      /\ (forall (slotStr payload : string) (n : Z),
            String.length slotStr = 3%nat -> Atoi slotStr = Some n -> n < 0 ->
            slotStr +:+ payload <> User (Auth (config c)) ->
            mutex c = false ->
            processMessage ("v" +:+ slotStr +:+ payload) c
            = handleFatalError
                (errorString ("received response for slot " +:+ fmt_d n
                              +:+ " with no pending request")) c)).
Proof.
  split; [apply keys_valid_new_client|]. intros Hk.
  split; [|split].
  - intros Hw. split; [|split].
    + apply operation_keys_valid; [exact Hw|now apply Read_start_keys_valid].
    + apply operation_keys_valid; [exact Hw|now apply Write_start_keys_valid].
    + apply operation_keys_valid; [exact Hw|now apply Broadcast_start_keys_valid].
  - eapply keys_valid_within; [|exact Hk].
    unfold listen. destruct (done c); [apply wg_Done_within|apply listen_reading_within].
  - intros slotStr payload n Hlen Hval Hneg Hne Hfree.
    rewrite (processMessage_value slotStr payload n c Hlen Hval Hne Hfree).
    destruct (pendingRequests c !! n) as [ch|] eqn:E; [|reflexivity].
    apply Hk in E. lia.
Qed.

Lemma X17_registry_witness :
  keys_valid (state_of (Read 1 (mkSchedule id 0 0) fresh_client))
  /\ processMessage "v-07abc" fresh_client
     = handleFatalError
         (errorString "received response for slot -7 with no pending request")
         fresh_client.
Proof.
  destruct (X17_registry_holds_valid_slots LoadDefaultConfig 1 "" (mkSchedule id 0 0) []
              fresh_client) as [Hnew H].
  destruct (H Hnew) as (Hops & _ & Hneg).
  split.
  - apply Hops. now intros c Hc.
  - apply (Hneg "-07" "abc" (-7)); [reflexivity|reflexivity|lia|discriminate|reflexivity].
Defined.

(** ** Typed slots *)

(** X18: [GetSlot] checks the slot first and the type second.  A slot
    out of 0..999 gives the validation error whatever the type; with a
    slot in range the wrapper returned is of the type asked for and holds
    the slot given, and a type that is none of the seven names gives
    [unknown slot type]. *)
Theorem X18_GetSlot_by_type (slotType : SlotType) (slot : Z) :
  (slot < 0 \/ 999 < slot ->
   GetSlot slotType slot = inl (errorString ("invalid slot number: " +:+ fmt_d slot)))
  /\ (0 <= slot <= 999 ->
      (forall s : TypedSlot,
          GetSlot slotType slot = inr s <-> slot_of s = slot /\ type_name s = slotType)
      /\ ((forall s : TypedSlot, type_name s <> slotType) ->
          GetSlot slotType slot = inl (errorString ("unknown slot type: " +:+ slotType)))).
Proof.
  split.
  - intros Hbad. unfold GetSlot. now rewrite (invalid_slot_check slot Hbad).
  - intros Hs. unfold GetSlot. rewrite (valid_slot_check slot Hs). split.
    + intros s. split.
      * repeat (match goal with
                | |- context [String.eqb slotType ?name] =>
                    destruct (String.eqb_spec slotType name) as [->|]
                end; [now intros [= <-]|]).
        discriminate.
      * intros [<- <-]. now destruct s.
    + intros Hnone.
      repeat (match goal with
              | |- context [String.eqb slotType ?name] =>
                  destruct (String.eqb_spec slotType name) as [E|]
              end; [exfalso|]).
      * now apply (Hnone (SimpleMemorySlot 0)).
      * now apply (Hnone (TimeoutMemorySlot 0)).
      * now apply (Hnone (TokenBucketSlot 0)).
      * now apply (Hnone (LeakyBucketSlot 0)).
      * now apply (Hnone (BroadcastSlot 0)).
      * now apply (Hnone (TickerSlot 0)).
      * now apply (Hnone (AtomicCounterSlot 0)).
      * reflexivity.
Qed.

Lemma X18_GetSlot_witness :
  GetSlot Ticker 1000 = inl (errorString "invalid slot number: 1000")
  /\ GetSlot Ticker 12 = inr (TickerSlot 12).
Proof.
  destruct (X18_GetSlot_by_type Ticker 1000) as [Hbad _].
  destruct (X18_GetSlot_by_type Ticker 12) as [_ Hok].
  split; [apply Hbad; lia|]. apply (Hok ltac:(lia)). now split.
Defined.

(** X19: the integer reads ([GetTokens] of a token bucket, [Read] of a
    ticker and of a counter) resolved by a value frame of their slot.  A
    payload that [strconv.Atoi] accepts comes back as its value, and so
    does every [int] the server prints with [%d]; any other payload gives
    an error that quotes it, with the value 0; an error of the client's
    [Read] is passed on as it is, with the value 0. *)
Theorem X19_integer_reads
    (slot : Z) (payload : string) (t : Z) (k : nat) (c : Client) :
  0 <= slot <= 999 ->
  closed (conn c) = false -> fault (conn c) = None ->
  done c = false -> mutex c = false ->
  fmt_03d slot +:+ payload <> User (Auth (config c)) ->
  t < 5 * Second ->
  let w := mkSchedule (dispatching ("v" +:+ fmt_03d slot +:+ payload)) t k in
  (forall n : Z,
      Atoi payload = Some n \/ (minInt <= n <= maxInt /\ payload = fmt_d n) ->
      exists c',
        TokenBucketSlot_GetTokens slot w c = Return (n, None) c'
        /\ TickerSlot_Read slot w c = Return (n, None) c'
        /\ AtomicCounterSlot_Read slot w c = Return (n, None) c')
  /\ (Atoi payload = None ->
      exists c',
        TokenBucketSlot_GetTokens slot w c
        = Return (0, Some (errorString ("invalid token count: " +:+ payload))) c'
        /\ TickerSlot_Read slot w c
           = Return (0, Some (errorString ("invalid ticker value: " +:+ payload))) c'
        /\ AtomicCounterSlot_Read slot w c
           = Return (0, Some (errorString ("invalid counter value: " +:+ payload))) c')
  /\ (forall (w' : schedule) (data : string) (err : error) (c' : Client),
        Read slot w' c = Return (data, Some err) c' ->
        TokenBucketSlot_GetTokens slot w' c = Return (0, Some err) c'
        /\ TickerSlot_Read slot w' c = Return (0, Some err) c'
        /\ AtomicCounterSlot_Read slot w' c = Return (0, Some err) c').
Proof.
  intros Hs Hopen Hok Hrun Hfree Hne Ht w.
  destruct (Read_resolved slot payload t k c Hs Hopen Hok Hrun Ht Hne Hfree)
    as (c' & Hread & _).
  unfold TokenBucketSlot_GetTokens, TickerSlot_Read, AtomicCounterSlot_Read.
  split; [|split].
  - intros n Hn.
    assert (Hval : Atoi payload = Some n).
    { destruct Hn as [Hn | [Hr ->]]; [exact Hn|now apply Atoi_fmt_d]. }
    exists c'. subst w. rewrite Hread. cbn [and_then parse_int_result].
    now rewrite Hval.
  - intros Hval. exists c'. subst w. rewrite Hread. cbn [and_then parse_int_result].
    now rewrite Hval.
  - intros w' data err c1 ->. now repeat split.
Qed.

Lemma X19_integer_reads_witness :
  exists c',
    TokenBucketSlot_GetTokens 3 (mkSchedule (dispatching "v003-42") 0 0) fresh_client
    = Return (-42, None) c'.
Proof.
  destruct (X19_integer_reads 3 "-42" 0 0 fresh_client ltac:(lia) eq_refl eq_refl
              eq_refl eq_refl ltac:(discriminate) ltac:(reflexivity)) as [H _].
  destruct (H (-42) (or_introl eq_refl)) as (c' & Hg & _). now exists c'.
Defined.

(** X20: [TryAcquire] of a leaky bucket resolved by a value frame of its
    slot: [true] when the payload reads as the integer 1, in whatever
    spelling [strconv.Atoi] accepts; [false] with no error for every other
    integer; [false] with an error that quotes the payload when it is no
    integer. *)
Theorem X20_TryAcquire
    (slot : Z) (payload : string) (t : Z) (k : nat) (c : Client) :
  0 <= slot <= 999 ->
  closed (conn c) = false -> fault (conn c) = None ->
  done c = false -> mutex c = false ->
  fmt_03d slot +:+ payload <> User (Auth (config c)) ->
  t < 5 * Second ->
  let w := mkSchedule (dispatching ("v" +:+ fmt_03d slot +:+ payload)) t k in
  exists c',
    (Atoi payload = Some 1 ->
     LeakyBucketSlot_TryAcquire slot w c = Return (true, None) c')
    /\ (forall n : Z, Atoi payload = Some n -> n <> 1 ->
        LeakyBucketSlot_TryAcquire slot w c = Return (false, None) c')
    /\ (Atoi payload = None ->
        LeakyBucketSlot_TryAcquire slot w c
        = Return (false, Some (errorString ("invalid result: " +:+ payload))) c').
Proof.
  intros Hs Hopen Hok Hrun Hfree Hne Ht w.
  destruct (Read_resolved slot payload t k c Hs Hopen Hok Hrun Ht Hne Hfree)
    as (c' & Hread & _).
  exists c'. unfold LeakyBucketSlot_TryAcquire. subst w. rewrite Hread. cbn [and_then].
  split; [|split].
  - now intros ->.
  - intros n -> Hn1. destruct (n =? 1) eqn:E; [lia|reflexivity].
  - now intros ->.
Qed.

Lemma X20_TryAcquire_witness :
  exists c',
    LeakyBucketSlot_TryAcquire 4 (mkSchedule (dispatching "v004+01") 0 0) fresh_client
    = Return (true, None) c'.
Proof.
  destruct (X20_TryAcquire 4 "+01" 0 0 fresh_client ltac:(lia) eq_refl eq_refl
              eq_refl eq_refl ltac:(discriminate) ltac:(reflexivity)) as (c' & H & _).
  exists c'. now apply H.
Defined.

(** The number of digits of [x] is at most [d] when [x < 10 ^ d]. *)
Lemma pretty_N_go_length (d : nat) (x : N) (s : string) :
  (x < 10 ^ N.of_nat d)%N ->
  (String.length (pretty_N_go x s) <= String.length s + d)%nat.
Proof.
  revert x s. induction d as [|d IH]; intros x s Hx.
  - assert (x = 0%N) as -> by (cbn in Hx; lia). rewrite pretty_N_go_0. lia.
  - destruct (decide (x = 0)%N) as [->|Hne]; [rewrite pretty_N_go_0; lia|].
    rewrite pretty_N_go_step by lia.
    etransitivity; [apply IH|cbn [String.length]; lia].
    rewrite Nat2N.inj_succ, N.pow_succ_r' in Hx.
    apply N.Div0.div_lt_upper_bound. exact Hx.
Qed.

Lemma fmt_d_length (z : Z) :
  minInt <= z <= maxInt -> (String.length (fmt_d z) <= 20)%nat.
Proof.
  unfold minInt, maxInt, intSize. change (2 ^ (64 - 1)) with 9223372036854775808.
  intros Hz. unfold fmt_d, pretty, pretty_Z.
  destruct z as [|p|p]; [cbn; lia| |].
  - unfold pretty, pretty_positive, pretty, pretty_N.
    rewrite decide_False by discriminate.
    pose proof (pretty_N_go_length 19 (N.pos p) "") as H. cbn [String.length] in H.
    etransitivity; [apply H|lia].
    change (10 ^ N.of_nat 19)%N with 10000000000000000000%N. lia.
  - unfold pretty, pretty_positive, pretty, pretty_N.
    rewrite decide_False by discriminate.
    change (String.length ("-" +:+ pretty_N_go (N.pos p) ""))
      with (S (String.length (pretty_N_go (N.pos p) ""))).
    pose proof (pretty_N_go_length 19 (N.pos p) "") as H. cbn [String.length] in H.
    apply le_n_S. etransitivity; [apply H|lia].
    change (10 ^ N.of_nat 19)%N with 10000000000000000000%N. lia.
Qed.

Lemma int_neg_value (value : Z) :
  minInt <= value <= maxInt ->
  int_neg value = if value =? minInt then minInt else - value.
Proof.
  unfold int_neg, wrap_int, minInt, maxInt, intSize.
  change (2 ^ (64 - 1)) with 9223372036854775808.
  change (2 ^ 64) with 18446744073709551616.
  intros Hv. destruct (Z.eqb_spec value (- (9223372036854775808))) as [->|E].
  - reflexivity.
  - rewrite Z.mod_small by lia. lia.
Qed.

(** X21: the integer writes ([Reset] of a ticker, [Increment] and
    [Decrement] of a counter).  An [int] in decimal has at most 20 bytes,
    so these calls never fail the 36-byte check of [Write]; acknowledged
    by a value frame they return no error, having written the value in
    decimal after the slot.  [Decrement] writes the negated value, so
    decrementing by a negative number writes the same command as
    incrementing by its absolute value; and the negation of the least
    [int] wraps around to itself, so [Decrement] of it writes what
    [Increment] of it writes. *)
Theorem X21_integer_writes
    (slot value : Z) (payload : string) (t : Z) (k : nat) (c : Client) :
  minInt <= value <= maxInt ->
  0 <= slot <= 999 ->
  closed (conn c) = false -> fault (conn c) = None ->
  done c = false -> mutex c = false ->
  fmt_03d slot +:+ payload <> User (Auth (config c)) ->
  t < 5 * Second ->
  let w := mkSchedule (dispatching ("v" +:+ fmt_03d slot +:+ payload)) t k in
  let command (v : Z) := "w" +:+ fmt_03d slot +:+ fmt_d v +:+ LF in
  (String.length (Itoa value) <= 20)%nat
  /\ (exists c',
        TickerSlot_Reset slot value w c = Return None c'
        /\ AtomicCounterSlot_Increment slot value w c = Return None c'
        /\ written (conn c') = written (conn c) ++ [command value])
  /\ (exists c',
        AtomicCounterSlot_Decrement slot value w c = Return None c'
        /\ written (conn c')
           = written (conn c) ++ [command (if value =? minInt then minInt else - value)])
  /\ (forall w' : schedule,
        AtomicCounterSlot_Decrement slot value w' c
        = AtomicCounterSlot_Increment slot
            (if value =? minInt then minInt else - value) w' c).
Proof.
  intros Hv Hs Hopen Hok Hrun Hfree Hne Ht w command.
  pose proof (int_neg_value value Hv) as Hneg.
  assert (Hv' : minInt <= int_neg value <= maxInt).
  { rewrite Hneg. revert Hv. unfold minInt, maxInt, intSize.
    change (2 ^ (64 - 1)) with 9223372036854775808.
    intros Hv. destruct (Z.eqb_spec value (- (9223372036854775808))); lia. }
  split; [now apply fmt_d_length|]. split; [|split].
  - destruct (Write_acknowledged slot (Itoa value) payload t k c Hs) as (c' & Hw & Hwr & _);
      try assumption.
    { pose proof (fmt_d_length value Hv). unfold Itoa. lia. }
    exists c'. now repeat split.
  - destruct (Write_acknowledged slot (Itoa (int_neg value)) payload t k c Hs)
      as (c' & Hw & Hwr & _); try assumption.
    { pose proof (fmt_d_length _ Hv'). unfold Itoa. lia. }
    exists c'. split; [exact Hw|]. rewrite Hwr. unfold Itoa, command. now rewrite Hneg.
  - intros w'. unfold AtomicCounterSlot_Decrement, AtomicCounterSlot_Increment.
    now rewrite Hneg.
Qed.

Lemma X21_integer_writes_witness :
  exists c',
    AtomicCounterSlot_Decrement 5 (-3) (mkSchedule (dispatching "v005ok") 0 0) fresh_client
    = Return None c'
    /\ written (conn c') = ["w0053" +:+ LF].
Proof.
  destruct (X21_integer_writes 5 (-3) "ok" 0 0 fresh_client ltac:(vm_compute; split; discriminate)
              ltac:(lia) eq_refl eq_refl eq_refl eq_refl ltac:(discriminate)
              ltac:(reflexivity)) as (_ & _ & H & _).
  exact H.
Defined.

(** ** From the line read to the caller *)

Lemma listen_reading_empty_lines (n : nat) (rest : list ReadResult) (c : Client) :
  done c = false ->
  listen_reading (replicate n (ReadLine LF) ++ rest) c = listen_reading rest c.
Proof.
  intros Hd. induction n as [|n IH]; [reflexivity|].
  cbn [replicate app listen_reading].
  change (TrimSuffix_lf LF) with "". cbn [String.length Nat.eqb and_then].
  now rewrite Hd.
Qed.

(** X22: a [Read] resolved through the listener.  The server's line, the
    value frame of the slot with its line feed, is read after any number
    of empty lines, which the listener skips; the line feed is cut off,
    the frame is dispatched, and the [Read] returns the payload as it is,
    while the listener sits in its next read. *)
Theorem X22_read_through_the_listener
    (slot : Z) (payload : string) (empties : nat) (t : Z) (k : nat) (c : Client) :
  0 <= slot <= 999 ->
  closed (conn c) = false -> fault (conn c) = None ->
  done c = false -> mutex c = false ->
  fmt_03d slot +:+ payload <> User (Auth (config c)) ->
  t < 5 * Second ->
  let inbound :=
    replicate empties (ReadLine LF)
    ++ [ReadLine (("v" +:+ fmt_03d slot +:+ payload) +:+ LF)] in
  let c1 := registered slot ("r" +:+ fmt_03d slot +:+ LF) c in
  listen inbound c1 = Parked (dispatching ("v" +:+ fmt_03d slot +:+ payload) c1)
  /\ exists c',
       Read slot (mkSchedule (fun c1 => state_of (listen inbound c1)) t k) c
       = Return (payload, None) c'
       /\ pendingRequests c' !! slot = None.
Proof.
  intros Hs Hopen Hok Hrun Hfree Hne Ht inbound c1.
  destruct (fmt_03d_slot slot Hs) as [Hlen Hval].
  assert (Hlisten : listen inbound c1
                    = Parked (dispatching ("v" +:+ fmt_03d slot +:+ payload) c1)).
  { unfold listen. change (done c1) with (done c). rewrite Hrun. subst inbound.
    rewrite listen_reading_empty_lines by exact Hrun.
    cbn [listen_reading]. rewrite TrimSuffix_lf_line.
    subst c1. rewrite dispatching_value by assumption.
    change ("v" +:+ fmt_03d slot +:+ payload)
      with (String "v" (fmt_03d slot +:+ payload)) at 1.
    cbn [String.length Nat.eqb].
    change (String "v" (fmt_03d slot +:+ payload))
      with ("v" +:+ fmt_03d slot +:+ payload).
    rewrite (processMessage_value (fmt_03d slot) payload slot _ Hlen Hval)
      by (exact Hne || reflexivity).
    cbn [registered pendingRequests]. rewrite lookup_insert_eq.
    rewrite chan_send_room by apply fresh_chan_lookup.
    cbn [and_then].
    match goal with
    | |- (if done ?s then _ else _) = _ => change (done s) with (done c)
    end.
    now rewrite Hrun. }
  split; [exact Hlisten|].
  unfold Read. rewrite Read_start_waiting by assumption.
  cbn [and_then await interference elapsed pick]. fold c1. rewrite Hlisten.
  cbn [state_of]. subst c1. rewrite dispatching_value by assumption.
  erewrite select_response; [|apply delivered_lookup|exact Hrun|exact Ht].
  cbn [and_then]. rewrite cleanup_free by reflexivity.
  cbn [and_then Read_result Error Data]. eexists. split; [reflexivity|].
  apply deregister_lookup.
Qed.

Lemma X22_read_through_the_listener_witness :
  exists c',
    Read 1 (mkSchedule
              (fun c1 => state_of (listen [ReadLine LF; ReadLine LF;
                                           ReadLine ("v001abc" +:+ LF)] c1)) 0 0)
      fresh_client
    = Return ("abc", None) c'.
Proof.
  destruct (X22_read_through_the_listener 1 "abc" 2 0 0 fresh_client ltac:(lia)
              eq_refl eq_refl eq_refl eq_refl ltac:(discriminate) ltac:(reflexivity))
    as (_ & c' & H & _).
  now exists c'.
Defined.

(** The fan-out of an error frame stops at the first channel whose buffer
    is taken, with everything but the channels before it as it was. *)
Lemma forward_to_all_full (code : string) (entries : list (Z * nat)) (c : Client)
    (slot : Z) (ch : nat) (r : Response) (buf : list Response) :
  (slot, ch) ∈ entries ->
  chans c !! ch = Some (r :: buf) ->
  exists c',
    forward_to_all entries code c = Parked c'
    /\ mutex c' = mutex c /\ done c' = done c
    /\ chans c' !! ch = Some (r :: buf).
Proof.
  revert c. induction entries as [|[s0 ch0] rest IH]; intros c Hin Hfull;
    [now apply elem_of_nil in Hin|].
  cbn [forward_to_all]. unfold chan_send.
  destruct (chans c !! ch0) as [b0|] eqn:E0; [|now exists c].
  destruct (List.length b0 <? 1)%nat eqn:L; [|now exists c].
  assert (Hne : ch0 <> ch).
  { intros ->. rewrite Hfull in E0. injection E0 as <-. cbn in L. discriminate. }
  cbn [and_then].
  apply elem_of_cons in Hin as [[= -> ->]|Hin]; [contradiction|].
  match goal with
  | |- context [forward_to_all rest code ?c1] =>
      destruct (IH c1 Hin) as (c' & Hrun & Hm & Hd & Hch)
  end.
  { cbn. now rewrite list_lookup_insert_ne. }
  exists c'. now split.
Qed.

(** X23: an error frame that meets a channel whose buffer is taken.  A
    response has reached the channel of a [Read] just as its 5 seconds
    ran out, and an error frame with a code other than 004 and 005
    follows: the listener takes the mutex and stays in the send to that
    channel, the mutex held until the function returns; the [select] of
    the [Read] takes the timer case, leaves the response where it is,
    and the deferred clean-up stays at [Lock].  Neither goes on, and the
    registration of every later operation stays at [Lock] as well. *)
Theorem X23_error_frame_meets_a_full_channel
    (slot : Z) (payload code rest : string) (t : Z) (k : nat) (c : Client) :
  0 <= slot <= 999 ->
  closed (conn c) = false -> fault (conn c) = None ->
  done c = false -> mutex c = false ->
  fmt_03d slot +:+ payload <> User (Auth (config c)) ->
  String.length code = 3%nat -> code <> "004" -> code <> "005" ->
  5 * Second <= t -> (k mod 2 = 1)%nat ->
  let valueFrame := "v" +:+ fmt_03d slot +:+ payload in
  let errorFrame := "e" +:+ code +:+ rest in
  let c1 := registered slot ("r" +:+ fmt_03d slot +:+ LF) c in
  exists c',
    processMessage errorFrame (dispatching valueFrame c1) = Parked c'
    /\ mutex c' = true
    /\ Read slot (mkSchedule (dispatching2 valueFrame errorFrame) t k) c = Parked c'
    /\ (forall (s : Z) (ch : nat), register s ch c' = Parked c').
Proof.
  intros Hs Hopen Hok Hrun Hfree Hne Hlen H4 H5 Ht Hk valueFrame errorFrame c1.
  set (n := List.length (chans c)).
  set (c2 := dispatching valueFrame c1).
  assert (Hc2 : c2 = set_chans (<[n := [{| Data := payload; Error := None |}]]>
                                  (chans c ++ [[]])) c1).
  { subst c2 valueFrame c1. now rewrite dispatching_value by assumption. }
  assert (Hfull : chans c2 !! n = Some [{| Data := payload; Error := None |}]).
  { rewrite Hc2. apply delivered_lookup. }
  assert (Hreg : (slot, n) ∈ map_to_list (pendingRequests (set_mutex true c2))).
  { apply elem_of_map_to_list. rewrite Hc2. cbn. apply lookup_insert_eq. }
  destruct (forward_to_all_full code _ (set_mutex true c2) slot n _ _ Hreg Hfull)
    as (c' & Hrun' & Hm & Hd & Hch).
  assert (Herr : processMessage errorFrame c2 = Parked c').
  { subst errorFrame. rewrite (processMessage_error code rest c2 Hlen).
    rewrite (String_eqb_neq _ _ H4), (String_eqb_neq _ _ H5). cbn [orb].
    rewrite Lock_free by (now rewrite Hc2). cbn [and_then].
    now rewrite Hrun'. }
  exists c'. split; [exact Herr|]. split; [exact Hm|]. split.
  - unfold Read. rewrite Read_start_waiting by assumption.
    cbn [and_then await interference elapsed pick]. fold c1 n.
    unfold dispatching2. fold c2. unfold dispatching at 1. rewrite Herr.
    cbn [state_of]. unfold select, ready_cases. rewrite Hch, Hd.
    replace (done (set_mutex true c2)) with false by (now rewrite Hc2).
    destruct (5 * Second <=? t) eqn:E; [|lia]. cbn [app List.length].
    rewrite Hk. cbn [lookup list_lookup and_then].
    now rewrite cleanup_held by exact Hm.
  - intros s ch. now apply register_held.
Qed.

Lemma X23_error_frame_meets_a_full_channel_witness :
  exists c',
    Read 1 (mkSchedule (dispatching2 "v001abc" "e007") 5000000000 1) fresh_client
    = Parked c'
    /\ mutex c' = true.
Proof.
  destruct (X23_error_frame_meets_a_full_channel 1 "abc" "007" "" 5000000000 1
              fresh_client ltac:(lia) eq_refl eq_refl eq_refl eq_refl
              ltac:(discriminate) eq_refl ltac:(discriminate) ltac:(discriminate)
              ltac:(discriminate) eq_refl) as (c' & _ & Hm & Hr & _).
  exists c'. split; [exact Hr | exact Hm].
Defined.

(** ** The line read while [Close] waits *)

Lemma listen_reading_closing (line : string) (rest : list ReadResult) (c : Client) :
  done c = true ->
  listen_reading (ReadLine line :: rest) c = listen_reading [ReadLine line] c.
Proof.
  intros Hd. cbn [listen_reading].
  assert (H : done (state_of (if (String.length (TrimSuffix_lf line) =? 0)%nat
                              then Return tt c
                              else processMessage (TrimSuffix_lf line) c)) = true).
  { destruct (_ =? 0)%nat; [exact Hd|now apply processMessage_done]. }
  destruct (if (String.length (TrimSuffix_lf line) =? 0)%nat then _ else _)
    as [[] c1|c1|m c1]; cbn [and_then state_of] in *; [|reflexivity..].
  now rewrite H.
Qed.

(** X24: the listener looks at [done] between two reads only.  When the
    user calls [Close] while the listener sits in a read, the line that
    read returns is still dispatched, and no line after it: what else the
    server has sent makes no difference to [Close].  So the response of a
    pending [Read] can arrive after [done] is closed; the [Read] then
    finds its channel filled and [done] closed, and returns the payload or
    [client closed], by the choice of [select]. *)
Theorem X24_close_lets_one_more_line_through
    (line : string) (rest : list ReadResult) (slot : Z) (payload : string)
    (t : Z) (c : Client) :
  done c = false ->
  Client_Close (ReadLine line :: rest) c = Client_Close [ReadLine line] c
  /\ (0 <= slot <= 999 ->
      closed (conn c) = false -> fault (conn c) = None ->
      mutex c = false -> wg c = 1%nat ->
      fmt_03d slot +:+ payload <> User (Auth (config c)) ->
      t < 5 * Second ->
      let last := ReadLine (("v" +:+ fmt_03d slot +:+ payload) +:+ LF) in
      let closing (k : nat) :=
        mkSchedule (fun c1 => state_of (Client_Close (last :: rest) c1)) t k in
      (exists c',
          Client_Close (last :: rest)
            (registered slot ("r" +:+ fmt_03d slot +:+ LF) c) = Return None c'
          /\ chans c' !! List.length (chans c)
             = Some [{| Data := payload; Error := None |}]
          /\ done c' = true /\ closed (conn c') = true)
      /\ (exists c', Read slot (closing 0%nat) c = Return (payload, None) c')
      /\ (exists c',
            Read slot (closing 1%nat) c
            = Return ("", Some (errorString "client closed")) c')).
Proof.
  intros Hd. split.
  - unfold Client_Close, Close. rewrite Hd. unfold wg_Wait.
    destruct (wg (set_done true c) =? 0)%nat; [reflexivity|].
    now rewrite listen_reading_closing.
  - intros Hs Hopen Hok Hfree Hw Hne Ht last closing.
    destruct (fmt_03d_slot slot Hs) as [Hlen Hval].
    set (c1 := registered slot ("r" +:+ fmt_03d slot +:+ LF) c).
    set (n := List.length (chans c)).
    set (c' := set_conn {| closed := true; fault := None;
                           written := written (conn c1) |}
                 (set_wg 0
                    (set_chans (<[n := [{| Data := payload; Error := None |}]]>
                                  (chans c1))
                       (set_done true c1)))).
    assert (Hclose : Client_Close (last :: rest) c1 = Return None c').
    { unfold Client_Close, Close. change (done c1) with (done c). rewrite Hd.
      unfold wg_Wait. change (wg (set_done true c1)) with (wg c). rewrite Hw.
      cbn [Nat.eqb]. subst last. cbn [listen_reading]. rewrite TrimSuffix_lf_line.
      change ("v" +:+ fmt_03d slot +:+ payload)
        with (String "v" (fmt_03d slot +:+ payload)) at 1.
      cbn [String.length Nat.eqb].
      change (String "v" (fmt_03d slot +:+ payload))
        with ("v" +:+ fmt_03d slot +:+ payload).
      rewrite (processMessage_value (fmt_03d slot) payload slot _ Hlen Hval)
        by (exact Hne || reflexivity).
      replace (pendingRequests (set_done true c1) !! slot) with (Some n)
        by (symmetry; apply lookup_insert_eq).
      rewrite chan_send_room by apply fresh_chan_lookup.
      cbn [and_then]. cbn [done set_done set_chans].
      unfold wg_Done. cbn [wg set_done set_chans]. change (wg c1) with (wg c).
      rewrite Hw. cbn [and_then wg set_wg Nat.eqb].
      unfold Conn_Close. cbn [conn set_wg set_chans set_done].
      change (closed (conn c1)) with false. cbv iota.
      reflexivity. }
    assert (Hch : chans c' !! n = Some [{| Data := payload; Error := None |}])
      by apply delivered_lookup.
    split; [|split].
    + exists c'. now repeat split.
    + unfold Read. rewrite Read_start_waiting by assumption.
      cbn [and_then await interference elapsed pick closing]. fold c1 n.
      rewrite Hclose. cbn [state_of]. unfold select, ready_cases. rewrite Hch.
      destruct (5 * Second <=? t) eqn:E; [lia|].
      change (done c') with true. cbn [app List.length].
      cbn [Nat.modulo Nat.divmod fst snd Nat.sub lookup list_lookup and_then].
      rewrite cleanup_free by reflexivity.
      cbn [and_then Read_result Error Data]. now eexists.
    + unfold Read. rewrite Read_start_waiting by assumption.
      cbn [and_then await interference elapsed pick closing]. fold c1 n.
      rewrite Hclose. cbn [state_of]. unfold select, ready_cases. rewrite Hch.
      destruct (5 * Second <=? t) eqn:E; [lia|].
      change (done c') with true. cbn [app List.length].
      cbn [Nat.modulo Nat.divmod fst snd Nat.sub lookup list_lookup and_then].
      rewrite cleanup_free by reflexivity.
      cbn [and_then Read_result]. now eexists.
Qed.

Lemma X24_close_witness :
  Client_Close [ReadLine ("v001abc" +:+ LF); ReadLine ("x" +:+ LF)] two_waiting
  = Client_Close [ReadLine ("v001abc" +:+ LF)] two_waiting.
Proof.
  destruct (X24_close_lets_one_more_line_through ("v001abc" +:+ LF)
              [ReadLine ("x" +:+ LF)] 1 "abc" 0 two_waiting eq_refl) as [H _].
  exact H.
Defined.

(** X25: [Broadcast] is a [Write] on the wire.  Up to the [select] the
    two do the same to the client, whatever its state: the same checks,
    the same registration, the same command [w]; the server cannot tell
    them apart, and they differ only in what they make of the answer. *)
Theorem X25_broadcast_is_a_write_on_the_wire (slot : Z) (data : string) (c : Client) :
  state_of (Broadcast_start slot data c) = state_of (Write_start slot data c)
  /\ (forall (responseCh : nat) (c1 : Client),
        Broadcast_start slot data c = Return (Waiting responseCh) c1
        <-> Write_start slot data c = Return (Waiting responseCh) c1).
Proof.
  assert (Hno : forall (A B : Type) (o1 : outcome (progress A)) (o2 : outcome (progress B)),
             (forall ch c1, o1 <> Return (Waiting ch) c1) ->
             (forall ch c1, o2 <> Return (Waiting ch) c1) ->
             forall (ch : nat) (c1 : Client),
               o1 = Return (Waiting ch) c1 <-> o2 = Return (Waiting ch) c1).
  { intros A B o1 o2 H1 H2 ch c1. split; intros H; [now apply H1 in H|now apply H2 in H]. }
  unfold Broadcast_start, Write_start.
  destruct ((slot <? 0) || (slot >? 999)); [split; [reflexivity|now apply Hno]|].
  destruct (36 <? String.length data)%nat; [split; [reflexivity|now apply Hno]|].
  unfold make_chan, register, Lock. cbn [mutex set_chans].
  destruct (mutex c); [split; [reflexivity|now apply Hno]|]. cbn [and_then].
  destruct (send _ _) as [[err|] c2].
  - unfold cleanup, Lock.
    destruct (mutex c2); (split; [reflexivity|now apply Hno]).
  - split; [reflexivity|]. intros ch c1. split; intros [= <- <-]; reflexivity.
Qed.
